(** * A shallow embedding of the backtesting engine of algo-trading

    Sources: [src/backtest.py] (class [Backtester]),
    [src/backtest_min.py] (class [BacktesterMin]) and [src/config.py]
    (class [Config]).

    Numbers.  The engine computes on Python / numpy floats.  They are
    modelled as _extended exact rationals_: the IEEE special values
    ([NaN], the two infinities) with their propagation rules, and exact
    rational arithmetic on finite values (no rounding, no overflow, one
    unsigned zero).  pandas uses [NaN] as its missing-value marker, so the
    special values are what [shift], [fillna], [pct_change], [diff], the
    [skipna] reductions and the guards of [_calc_stats] are about.

    Library functions without a rational result ([np.sqrt] on a positive
    number, the float power [**]) are parameters of the development.

    Series.  A pandas [Series] is a list of floats carrying the default
    [RangeIndex]: position [i] has label [i].  [Backtester.__init__]
    resets the frame to that index, and the signal series handed to [run]
    is taken to carry it as well.

    Exceptions.  [run] has no [raise] of its own; what can raise is
    [equity.iloc[-1]] on an empty series ([IndexError]) and the division
    [exit_price / entry_price] of the trade loop ([ZeroDivisionError]):
    the rows [iterrows] yields from a frame of mixed column types hold
    Python floats, whose [/] raises on a zero divisor, whereas the
    column arithmetic of numpy returns an infinity or [NaN]. *)

From Stdlib Require Import ZArith QArith Qcanon Lia Sorted Ascii.
From stdpp Require Import base decidable option numbers list gmap strings.

Local Open Scope Qc_scope.

(** ** Floats *)

Inductive pyfloat : Type :=
  | NaN
  | Inf (neg : bool)
  | Fin (q : Qc).

Global Instance pyfloat_eq_dec : EqDecision pyfloat.
Proof. solve_decision. Defined.

Definition fz (z : Z) : pyfloat := Fin (Q2Qc (inject_Z z)).
Definition fq (n : Z) (d : positive) : pyfloat := Fin (Q2Qc (n # d)).

Definition qneg (q : Qc) : bool := bool_decide (q < 0).

Definition is_nan (x : pyfloat) : bool :=
  match x with NaN => true | _ => false end.

Definition is_finite (x : pyfloat) : bool :=
  match x with Fin _ => true | _ => false end.

Definition fneg (x : pyfloat) : pyfloat :=
  match x with
  | NaN => NaN
  | Inf s => Inf (negb s)
  | Fin q => Fin (- q)
  end.

Definition fadd (x y : pyfloat) : pyfloat :=
  match x, y with
  | NaN, _ | _, NaN => NaN
  | Inf a, Inf b => if bool_decide (a = b) then Inf a else NaN
  | Inf a, Fin _ => Inf a
  | Fin _, Inf b => Inf b
  | Fin p, Fin q => Fin (p + q)
  end.

Definition fsub (x y : pyfloat) : pyfloat := fadd x (fneg y).

Definition fmul (x y : pyfloat) : pyfloat :=
  match x, y with
  | NaN, _ | _, NaN => NaN
  | Inf a, Inf b => Inf (xorb a b)
  | Inf a, Fin q => if decide (q = 0) then NaN else Inf (xorb a (qneg q))
  | Fin p, Inf b => if decide (p = 0) then NaN else Inf (xorb (qneg p) b)
  | Fin p, Fin q => Fin (p * q)
  end.

(** numpy's elementwise true division: a zero divisor gives an infinity
    or [NaN], never an exception. *)
Definition fdiv (x y : pyfloat) : pyfloat :=
  match x, y with
  | NaN, _ | _, NaN => NaN
  | Inf _, Inf _ => NaN
  | Inf a, Fin q => Inf (xorb a (qneg q))
  | Fin _, Inf _ => Fin 0
  | Fin p, Fin q =>
      if decide (q = 0)
      then (if decide (p = 0) then NaN else Inf (qneg p))
      else Fin (p / q)
  end.

Definition fabs (x : pyfloat) : pyfloat :=
  match x with
  | NaN => NaN
  | Inf _ => Inf false
  | Fin q => Fin (if qneg q then - q else q)
  end.

(** Comparisons: every comparison with [NaN] is false, so [!=] is true. *)
Definition feqb (x y : pyfloat) : bool :=
  match x, y with
  | Inf a, Inf b => bool_decide (a = b)
  | Fin p, Fin q => bool_decide (p = q)
  | _, _ => false
  end.

Definition fneb (x y : pyfloat) : bool := negb (feqb x y).

Definition fltb (x y : pyfloat) : bool :=
  match x, y with
  | NaN, _ | _, NaN => false
  | Inf a, Inf b => a && negb b
  | Inf a, Fin _ => a
  | Fin _, Inf b => negb b
  | Fin p, Fin q => bool_decide (p < q)
  end.

Definition fgtb (x y : pyfloat) : bool := fltb y x.

Definition fmax (x y : pyfloat) : pyfloat := if fltb x y then y else x.
Definition fmin (x y : pyfloat) : pyfloat := if fltb y x then y else x.

Declare Scope pyfloat_scope.
Delimit Scope pyfloat_scope with F.
Bind Scope pyfloat_scope with pyfloat.
Infix "+" := fadd : pyfloat_scope.
Infix "-" := fsub : pyfloat_scope.
Infix "*" := fmul : pyfloat_scope.
Infix "/" := fdiv : pyfloat_scope.
Notation "- x" := (fneg x) : pyfloat_scope.

(** ** Exceptions *)

Inductive exn : Type := IndexError | ZeroDivisionError | TypeError | KeyError.

Global Instance exn_eq_dec : EqDecision exn.
Proof. solve_decision. Defined.

Inductive result (A : Type) : Type :=
  | Ok (a : A)
  | Raise (e : exn).
Arguments Ok {A} a.
Arguments Raise {A} e.

Global Instance result_eq_dec {A} `{EqDecision A} : EqDecision (result A).
Proof. solve_decision. Defined.

Global Instance result_ret : MRet result := fun _ a => Ok a.
Global Instance result_bind : MBind result := fun _ _ f m =>
  match m with
  | Ok a => f a
  | Raise e => Raise e
  end.

(** Python's [/] on two [float] objects: a zero divisor raises. *)
Definition pydiv (x y : pyfloat) : result pyfloat :=
  if feqb y (Fin 0) then Raise ZeroDivisionError else Ok (x / y)%F.

(** ** pandas Series *)

Abbreviation Series := (list pyfloat).

(** [s.shift(1)] *)
Definition shift1 (s : Series) : Series := take (length s) (NaN :: s).

(** [s.fillna(v)] *)
Definition fillna (v : pyfloat) (s : Series) : Series :=
  map (fun x => if is_nan x then v else x) s.

(** Label alignment of a [RangeIndex] series to a frame of [n] rows, as
    done by [df[col] = s]: labels the series lacks become [NaN], labels
    the frame lacks are dropped. *)
Definition reindex (n : nat) (s : Series) : Series :=
  take n (s ++ replicate (n - length s) NaN).

(** Forward fill ([fill_method='pad'], the default of [pct_change]). *)
Fixpoint ffill_from (prev : pyfloat) (s : Series) : Series :=
  match s with
  | [] => []
  | x :: r =>
      let v := if is_nan x then prev else x in
      v :: ffill_from v r
  end.

Definition ffill (s : Series) : Series := ffill_from NaN s.

Definition series_add_scalar (c : pyfloat) (s : Series) : Series :=
  map (fun x => (c + x)%F) s.
Definition series_sub_scalar (s : Series) (c : pyfloat) : Series :=
  map (fun x => (x - c)%F) s.
Definition series_mul_scalar (s : Series) (c : pyfloat) : Series :=
  map (fun x => (x * c)%F) s.

Definition series_mul (a b : Series) : Series := zip_with fmul a b.
Definition series_sub (a b : Series) : Series := zip_with fsub a b.
Definition series_div (a b : Series) : Series := zip_with fdiv a b.

(** [s.pct_change()]: [data = s.ffill(); data / data.shift(1) - 1] *)
Definition pct_change (s : Series) : Series :=
  let data := ffill s in
  series_sub_scalar (series_div data (shift1 data)) (Fin 1).

(** [s.diff()] *)
Definition diff (s : Series) : Series := series_sub s (shift1 s).

Definition series_abs (s : Series) : Series := map fabs s.

(** [s.cumprod()] with [skipna=True]: a [NaN] entry stays [NaN] and does
    not enter the running product. *)
Fixpoint cumprod_from (acc : pyfloat) (s : Series) : Series :=
  match s with
  | [] => []
  | x :: r =>
      if is_nan x then NaN :: cumprod_from acc r
      else let a := (acc * x)%F in a :: cumprod_from a r
  end.

Definition cumprod (s : Series) : Series := cumprod_from (Fin 1) s.

(** [s.cummax()] with [skipna=True]. *)
Fixpoint cummax_from (acc : option pyfloat) (s : Series) : Series :=
  match s with
  | [] => []
  | x :: r =>
      if is_nan x then NaN :: cummax_from acc r
      else
        let m := match acc with None => x | Some a => fmax a x end in
        m :: cummax_from (Some m) r
  end.

Definition cummax (s : Series) : Series := cummax_from None s.

Definition dropna (s : Series) : Series := filter (fun x => is_nan x = false) s.

Definition fsum (s : Series) : pyfloat := foldl fadd (Fin 0) s.

(** [s.min()] with [skipna=True]; [NaN] when nothing is left. *)
Definition series_min (s : Series) : pyfloat :=
  match dropna s with
  | [] => NaN
  | x :: r => foldl fmin x r
  end.

(** [s.mean()] with [skipna=True]. *)
Definition mean (s : Series) : pyfloat :=
  match dropna s with
  | [] => NaN
  | v => (fsum v / fz (Z.of_nat (length v)))%F
  end.

(** [s.iloc[-1]] *)
Definition iloc_last (s : Series) : result pyfloat :=
  match last s with
  | Some x => Ok x
  | None => Raise IndexError
  end.

(** Boolean indexing [s[s < c]]. *)
Definition select_lt (s : Series) (c : pyfloat) : Series :=
  filter (fun x => fltb x c = true) s.

(** ** Numeric library functions

    [rsqrt q] is the library's square root of a positive finite [q];
    [fpow x y] is the float power [x ** y].  Neither has a rational
    value in general, so both are parameters. *)

Class NumLib : Type := {
  rsqrt : Qc → Qc;
  fpow : pyfloat → pyfloat → pyfloat
}.

Section Numeric.
Context {numlib : NumLib}.

(** [np.sqrt]: the IEEE special cases are fixed, [rsqrt] is consulted
    on positive finite arguments only. *)
Definition fsqrt (x : pyfloat) : pyfloat :=
  match x with
  | NaN => NaN
  | Inf true => NaN
  | Inf false => Inf false
  | Fin q =>
      if qneg q then NaN
      else if decide (q = 0) then Fin 0
      else Fin (rsqrt q)
  end.

(** [s.std()]: [skipna=True], [ddof=1]; [NaN] unless at least two
    values are left (pandas [nanvar]: mean, squared deviations, their
    sum over [count - ddof], then the root). *)
Definition std (s : Series) : pyfloat :=
  let v := dropna s in
  let n := length v in
  if (n <=? 1)%nat then NaN
  else
    let avg := (fsum v / fz (Z.of_nat n))%F in
    let sqr := map (fun x => ((avg - x) * (avg - x))%F) v in
    fsqrt (fsum sqr / fz (Z.of_nat (n - 1)))%F.
End Numeric.

(** ** Data model *)

Inductive pydate : Type := NaT | Date (d : Z).

Global Instance pydate_eq_dec : EqDecision pydate.
Proof. solve_decision. Defined.

(** A row of the input frame, columns
    ['date', 'open', 'high', 'low', 'close', 'volume']. *)
Record PriceBar : Type := {
  date : pydate;
  open : pyfloat;
  high : pyfloat;
  low : pyfloat;
  close : pyfloat;
  volume : pyfloat
}.

Global Instance PriceBar_eq_dec : EqDecision PriceBar.
Proof. solve_decision. Defined.

(** The input frame, row [i] carrying label [i]. *)
Abbreviation DataFrame := (list PriceBar).

Definition nan_bar : PriceBar :=
  {| date := NaT; open := NaN; high := NaN; low := NaN; close := NaN;
     volume := NaN |}.

(** [DataFrame._ensure_valid_index], run by every [df[col] = value]: a
    frame without rows takes over the index of a non-empty value, its
    existing columns being filled with [NaN]. *)
Definition ensure_valid_index (rows : DataFrame) (value : Series) : DataFrame :=
  match rows, value with
  | [], _ :: _ => replicate (length value) nan_bar
  | _, _ => rows
  end.

(** The working frame [df] of [run] once all its columns are set. *)
Record Frame : Type := {
  rows : DataFrame;
  signal : Series;
  ret : Series;
  strategy_ret : Series;
  trade_change : Series;
  costs : Series;
  net_ret : Series;
  equity : Series
}.

(** What the loop reads of a row yielded by [df.iterrows()]. *)
Record Row : Type := {
  row_date : pydate;
  row_close : pyfloat;
  row_signal : pyfloat
}.

Fixpoint zip_rows (ds : list pydate) (cs ss : Series) : list Row :=
  match ds, cs, ss with
  | d :: ds, c :: cs, s :: ss =>
      {| row_date := d; row_close := c; row_signal := s |}
        :: zip_rows ds cs ss
  | _, _, _ => []
  end.

Definition iterrows (df : Frame) : list Row :=
  zip_rows (map date (rows df)) (map close (rows df)) (signal df).

(** One dict appended to [trades]. *)
Record Trade : Type := {
  entry_date : option pydate;
  exit_date : pydate;
  entry_price : pyfloat;
  exit_price : pyfloat;
  pnl : pyfloat
}.

Global Instance Trade_eq_dec : EqDecision Trade.
Proof. solve_decision. Defined.

(** The [stats] dict. *)
Record Stats : Type := {
  CAGR : pyfloat;
  Volatility : pyfloat;
  Sharpe : pyfloat;
  Sortino : pyfloat;
  MaxDD : pyfloat;
  Winrate : pyfloat;
  Final_Equity : pyfloat
}.

Record BacktestResult : Type := {
  equity_curve : Series;
  trades : list Trade;
  stats : Stats
}.

(** The local variables of the trade loop of [run]. *)
Record Locals : Type := {
  l_trades : list Trade;
  l_position : pyfloat;
  l_entry_price : option pyfloat;
  l_entry_date : option pydate
}.

Definition locals0 : Locals :=
  {| l_trades := []; l_position := Fin 0; l_entry_price := None;
     l_entry_date := None |}.

(** A [for] loop whose body may raise. *)
Fixpoint for_each {S A : Type} (body : S → A → result S) (xs : list A) (st : S)
  : result S :=
  match xs with
  | [] => Ok st
  | x :: r => st' ← body st x; for_each body r st'
  end.

(** [(trades["pnl"] > 0).mean()]: the share of [True] entries. *)
Definition share_positive (ts : list Trade) : pyfloat :=
  (fz (Z.of_nat (length (filter (fun t => fgtb (pnl t) (Fin 0) = true) ts)))
   / fz (Z.of_nat (length ts)))%F.

(** ** [Backtester] (src/backtest.py) *)

Module Backtester.

Record t : Type := {
  data : DataFrame;
  commission : pyfloat;
  slippage : pyfloat
}.

Definition default_commission : pyfloat := fq 4 1000.
Definition default_slippage : pyfloat := fq 5 10000.
Definition default_initial_capital : pyfloat := fz 1000000.

(** [__init__]: [data.copy().reset_index(drop=True)] is the same rows
    under the default index. *)
Definition init (data : DataFrame) (commission slippage : pyfloat) : t :=
  {| data := data; commission := commission; slippage := slippage |}.

Section WithNumLib.
Context {numlib : NumLib}.

(** Lines 28-43 of [run]: the columns of [df]. *)
Definition build_frame (self : t) (signals : Series)
    (initial_capital : pyfloat) : Frame :=
  let value := fillna (Fin 0) (shift1 signals) in
  let rows := ensure_valid_index (data self) value in
  let signal := reindex (length rows) value in
  let ret := fillna (Fin 0) (pct_change (map close rows)) in
  let strategy_ret := series_mul signal ret in
  let trade_change := fillna (Fin 0) (series_abs (diff signal)) in
  let costs :=
    series_mul_scalar trade_change (commission self + slippage self)%F in
  let net_ret := series_sub strategy_ret costs in
  let equity :=
    series_mul_scalar (cumprod (series_add_scalar (Fin 1) net_ret))
                      initial_capital in
  {| rows := rows; signal := signal; ret := ret;
     strategy_ret := strategy_ret; trade_change := trade_change;
     costs := costs; net_ret := net_ret; equity := equity |}.

(** Lines 52-70: the body of the trade loop.  [entry_price] is [None]
    until a position is opened; dividing by it then would be a
    [TypeError] (the loop never gets there, see [entry_set]). *)
Definition loop_body (st : Locals) (row : Row) : result Locals :=
  if feqb (l_position st) (Fin 0) && fneb (row_signal row) (Fin 0) then
    Ok {| l_trades := l_trades st;
          l_position := row_signal row;
          l_entry_price := Some (row_close row);
          l_entry_date := Some (row_date row) |}
  else if fneb (l_position st) (Fin 0)
          && fneb (row_signal row) (l_position st) then
    let exit_price := row_close row in
    match l_entry_price st with
    | None => Raise TypeError
    | Some entry_price =>
        q ← pydiv exit_price entry_price;
        let pnl := ((q - Fin 1) * l_position st)%F in
        let position := row_signal row in
        Ok {| l_trades :=
                l_trades st ++
                  [ {| entry_date := l_entry_date st;
                       exit_date := row_date row;
                       entry_price := entry_price;
                       exit_price := exit_price;
                       pnl := pnl |} ];
              l_position := position;
              l_entry_price := Some (row_close row);
              l_entry_date :=
                if fneb position (Fin 0) then Some (row_date row)
                else None |}
    end
  else Ok st.

(** Lines 79-97. *)
Definition _calc_stats (returns : Series) (trades : list Trade)
    (initial_capital : pyfloat) : result Stats :=
  let equity := cumprod (series_add_scalar (Fin 1) returns) in
  final ← iloc_last equity;
  let cagr :=
    (fpow final (fz 252 / fz (Z.of_nat (length equity))) - Fin 1)%F in
  let vol := (std returns * fsqrt (fz 252))%F in
  let sharpe :=
    if fgtb vol (Fin 0)
    then (mean returns / std returns * fsqrt (fz 252))%F
    else Fin 0 in
  let downside := (std (select_lt returns (Fin 0)) * fsqrt (fz 252))%F in
  let sortino :=
    if fgtb downside (Fin 0) then (mean returns / downside)%F
    else Fin 0 in
  let max_dd :=
    series_min
      (series_sub_scalar (series_div equity (cummax equity)) (Fin 1)) in
  let winrate :=
    match trades with
    | [] => Fin 0
    | _ :: _ => share_positive trades
    end in
  Ok {| CAGR := cagr; Volatility := vol; Sharpe := sharpe;
        Sortino := sortino; MaxDD := max_dd; Winrate := winrate;
        Final_Equity := (final * initial_capital)%F |}.

(** Lines 23-77. *)
Definition run (self : t) (signals : Series) (initial_capital : pyfloat)
  : result BacktestResult :=
  let df := build_frame self signals initial_capital in
  st ← for_each loop_body (iterrows df) locals0;
  let trades := l_trades st in
  stats ← _calc_stats (net_ret df) trades initial_capital;
  Ok {| equity_curve := equity df; trades := trades; stats := stats |}.
End WithNumLib.

End Backtester.



(** ** [BacktesterMin] (src/backtest_min.py) *)

Module BacktesterMin.

Record t : Type := {
  data : DataFrame;
  commission : pyfloat;
  slippage : pyfloat;
  bars_per_year : Z
}.

Definition default_commission : pyfloat := fq 1 1000.
Definition default_slippage : pyfloat := fq 5 10000.
Definition default_bars_per_year : Z := 97500.
Definition default_initial_capital : pyfloat := fz 1000000.

Definition init (data : DataFrame) (commission slippage : pyfloat)
    (bars_per_year : Z) : t :=
  {| data := data; commission := commission; slippage := slippage;
     bars_per_year := bars_per_year |}.

Section WithNumLib.
Context {numlib : NumLib}.

(** Lines 31-46 of [run]. *)
Definition build_frame (self : t) (signals : Series)
    (initial_capital : pyfloat) : Frame :=
  let value := fillna (Fin 0) (shift1 signals) in
  let rows := ensure_valid_index (data self) value in
  let signal := reindex (length rows) value in
  let ret := fillna (Fin 0) (pct_change (map close rows)) in
  let strategy_ret := series_mul signal ret in
  let trade_change := fillna (Fin 0) (series_abs (diff signal)) in
  let costs :=
    series_mul_scalar trade_change (commission self + slippage self)%F in
  let net_ret := series_sub strategy_ret costs in
  let equity :=
    series_mul_scalar (cumprod (series_add_scalar (Fin 1) net_ret))
                      initial_capital in
  {| rows := rows; signal := signal; ret := ret;
     strategy_ret := strategy_ret; trade_change := trade_change;
     costs := costs; net_ret := net_ret; equity := equity |}.

(** Lines 54-72. *)
Definition loop_body (st : Locals) (row : Row) : result Locals :=
  if feqb (l_position st) (Fin 0) && fneb (row_signal row) (Fin 0) then
    Ok {| l_trades := l_trades st;
          l_position := row_signal row;
          l_entry_price := Some (row_close row);
          l_entry_date := Some (row_date row) |}
  else if fneb (l_position st) (Fin 0)
          && fneb (row_signal row) (l_position st) then
    let exit_price := row_close row in
    match l_entry_price st with
    | None => Raise TypeError
    | Some entry_price =>
        q ← pydiv exit_price entry_price;
        let pnl := ((q - Fin 1) * l_position st)%F in
        let position := row_signal row in
        Ok {| l_trades :=
                l_trades st ++
                  [ {| entry_date := l_entry_date st;
                       exit_date := row_date row;
                       entry_price := entry_price;
                       exit_price := exit_price;
                       pnl := pnl |} ];
              l_position := position;
              l_entry_price := Some (row_close row);
              l_entry_date :=
                if fneb position (Fin 0) then Some (row_date row)
                else None |}
    end
  else Ok st.

(** Lines 81-100. *)
Definition _calc_stats (self : t) (returns : Series) (trades : list Trade)
    (initial_capital : pyfloat) : result Stats :=
  let equity := cumprod (series_add_scalar (Fin 1) returns) in
  final ← iloc_last equity;
  let cagr :=
    (fpow final
          (fz (bars_per_year self) / fz (Z.of_nat (length equity)))
     - Fin 1)%F in
  let vol := (std returns * fsqrt (fz (bars_per_year self)))%F in
  let sharpe :=
    if fgtb vol (Fin 0)
    then (mean returns / std returns * fsqrt (fz (bars_per_year self)))%F
    else Fin 0 in
  let downside :=
    (std (select_lt returns (Fin 0)) * fsqrt (fz (bars_per_year self)))%F in
  let sortino :=
    if fgtb downside (Fin 0) then (mean returns / downside)%F
    else Fin 0 in
  let max_dd :=
    series_min
      (series_sub_scalar (series_div equity (cummax equity)) (Fin 1)) in
  let winrate :=
    match trades with
    | [] => Fin 0
    | _ :: _ => share_positive trades
    end in
  Ok {| CAGR := cagr; Volatility := vol; Sharpe := sharpe;
        Sortino := sortino; MaxDD := max_dd; Winrate := winrate;
        Final_Equity := (final * initial_capital)%F |}.

(** Lines 26-79. *)
Definition run (self : t) (signals : Series) (initial_capital : pyfloat)
  : result BacktestResult :=
  let df := build_frame self signals initial_capital in
  st ← for_each loop_body (iterrows df) locals0;
  let trades := l_trades st in
  stats ← _calc_stats self (net_ret df) trades initial_capital;
  Ok {| equity_curve := equity df; trades := trades; stats := stats |}.
End WithNumLib.

End BacktesterMin.

(** ** The quantities of the specification

    Written after the specification's own formulas (sections 3, 4.2 and
    8), to be compared with what the code computes. *)

Module Spec.

(** [LaggedPosition[t] = Signal[t-1]] for [t > 0], [0] for [t = 0]. *)
Definition LaggedPosition (sig : Series) (t : nat) : pyfloat :=
  match t with
  | O => Fin 0
  | S k => nth k sig NaN
  end.

(** [MarketReturn[0] = 0], [MarketReturn[t] = close[t]/close[t-1] - 1]. *)
Definition MarketReturn (closes : Series) (t : nat) : pyfloat :=
  match t with
  | O => Fin 0
  | S k => (nth t closes NaN / nth k closes NaN - Fin 1)%F
  end.

(** [Π_t (1 + LaggedPosition[t] * MarketReturn[t])] over the [n] bars. *)
Definition GrossProduct (sig closes : Series) (n : nat) : pyfloat :=
  foldl fmul (Fin 1)
    (map (fun t => (Fin 1 + LaggedPosition sig t * MarketReturn closes t)%F)
         (seq 0 n)).

End Spec.

(** ** A numeric library to run the model with

    A coarse stand-in for [np.sqrt] and [**], used to evaluate the model
    on concrete inputs: six decimals of the root, and the power
    linearised at base 1, [x ** y ≈ 1 + y * (x - 1)]. *)

Definition approx_rsqrt (q : Qc) : Qc :=
  Q2Qc (Z.sqrt (Qnum q * Z.pos (Qden q) * 10 ^ 12) # (Qden q * 10 ^ 6)).

Definition approx_fpow (x y : pyfloat) : pyfloat :=
  (Fin 1 + y * (x - Fin 1))%F.

Definition approx_numlib : NumLib :=
  {| rsqrt := approx_rsqrt; fpow := approx_fpow |}.

(** ** The engine on an object store

    [run] mutates the frame [df] it works on ([df[col] = value]), and
    Python hands frames and series around by reference.  This rendering
    keeps the objects in a store, so that it can be said which of them
    a call writes to.  Series built by [shift], [fillna], arithmetic and
    the like are new objects nobody else holds; they are kept as values. *)

Module Store.

Definition loc : Type := positive.

(** A frame object: its rows under the input columns, and the columns
    added by [df[col] = value]. *)
Record FrameObj : Type := {
  fo_rows : DataFrame;
  fo_cols : gmap string Series
}.

Inductive obj : Type :=
  | OFrame (f : FrameObj)
  | OSeries (s : Series).

Abbreviation heap := (gmap loc obj).

(** Computations that read and write the store and may raise. *)
Definition M (A : Type) : Type := heap → result A * heap.

Definition ret {A} (a : A) : M A := fun h => (Ok a, h).

Definition bind {A B} (m : M A) (k : A → M B) : M B := fun h =>
  match m h with
  | (Ok a, h') => k a h'
  | (Raise e, h') => (Raise e, h')
  end.

Definition lift {A} (r : result A) : M A := fun h => (r, h).

Notation "x ⇐ m ; k" := (bind m (fun x => k))
  (at level 100, m at next level, right associativity,
   format "x  ⇐  m ; '//' k").

Definition alloc (o : obj) : M loc := fun h =>
  let l := fresh (dom h) in (Ok l, <[l := o]> h).

Definition read_frame (l : loc) : M FrameObj := fun h =>
  match h !! l with
  | Some (OFrame f) => (Ok f, h)
  | _ => (Raise TypeError, h)
  end.

Definition read_series (l : loc) : M Series := fun h =>
  match h !! l with
  | Some (OSeries s) => (Ok s, h)
  | _ => (Raise TypeError, h)
  end.

Definition write_frame (l : loc) (f : FrameObj) : M unit := fun h =>
  (Ok tt, <[l := OFrame f]> h).

(** [df[k]] *)
Definition getitem (f : FrameObj) (k : string) : result Series :=
  match fo_cols f !! k with
  | Some s => Ok s
  | None =>
      if decide (k = "open"%string) then Ok (map open (fo_rows f))
      else if decide (k = "high"%string) then Ok (map high (fo_rows f))
      else if decide (k = "low"%string) then Ok (map low (fo_rows f))
      else if decide (k = "close"%string) then Ok (map close (fo_rows f))
      else if decide (k = "volume"%string) then Ok (map volume (fo_rows f))
      else Raise KeyError
  end.

(** [df[k] = value], on the frame's content. *)
Definition setitem (f : FrameObj) (k : string) (value : Series) : FrameObj :=
  let rows := ensure_valid_index (fo_rows f) value in
  let cols :=
    match fo_rows f, value with
    | [], _ :: _ => (fun _ => replicate (length value) NaN) <$> fo_cols f
    | _, _ => fo_cols f
    end in
  {| fo_rows := rows;
     fo_cols := <[k := reindex (length rows) value]> cols |}.

(** [df.copy()]: a new object. *)
Definition frame_copy (l : loc) : M loc :=
  f ⇐ read_frame l; alloc (OFrame f).

Definition frame_getitem (l : loc) (k : string) : M Series :=
  f ⇐ read_frame l; lift (getitem f k).

(** [df[k] = value]: writes to the object [l] itself. *)
Definition frame_setitem (l : loc) (k : string) (value : Series) : M unit :=
  f ⇐ read_frame l; write_frame l (setitem f k value).

Definition frame_iterrows (l : loc) : M (list Row) :=
  f ⇐ read_frame l;
  sig ⇐ lift (getitem f "signal");
  cl ⇐ lift (getitem f "close");
  ret (zip_rows (map date (fo_rows f)) cl sig).

(** A [Backtester] object: [self.data] is a reference. *)
Record backtester : Type := {
  bt_data : loc;
  bt_commission : pyfloat;
  bt_slippage : pyfloat
}.

(** A [BacktesterMin] object. *)
Record backtester_min : Type := {
  bm_data : loc;
  bm_commission : pyfloat;
  bm_slippage : pyfloat;
  bm_bars_per_year : Z
}.

(** The values the two objects stand for, their frame being [rows]. *)
Definition backtester_value (self : backtester) (rows : DataFrame)
  : Backtester.t :=
  Backtester.init rows (bt_commission self) (bt_slippage self).

Definition backtester_min_value (self : backtester_min) (rows : DataFrame)
  : BacktesterMin.t :=
  BacktesterMin.init rows (bm_commission self) (bm_slippage self)
    (bm_bars_per_year self).

(** [Backtester.__init__]:
    [self.data = data.copy().reset_index(drop=True)] *)
Definition Backtester_init (data : loc) (commission slippage : pyfloat)
  : M backtester :=
  l ⇐ frame_copy data;
  ret {| bt_data := l; bt_commission := commission;
         bt_slippage := slippage |}.

(** [BacktesterMin.__init__] *)
Definition BacktesterMin_init (data : loc) (commission slippage : pyfloat)
    (bars_per_year : Z) : M backtester_min :=
  l ⇐ frame_copy data;
  ret {| bm_data := l; bm_commission := commission;
         bm_slippage := slippage; bm_bars_per_year := bars_per_year |}.

Section WithNumLib.
Context {numlib : NumLib}.

(** [Backtester.run], statement by statement. *)
Definition Backtester_run (self : backtester) (signals : loc)
    (initial_capital : pyfloat) : M BacktestResult :=
  df ⇐ frame_copy (bt_data self);
  s ⇐ read_series signals;
  _ ⇐ frame_setitem df "signal" (fillna (Fin 0) (shift1 s));
  cl ⇐ frame_getitem df "close";
  _ ⇐ frame_setitem df "ret" (fillna (Fin 0) (pct_change cl));
  sg ⇐ frame_getitem df "signal";
  rt ⇐ frame_getitem df "ret";
  _ ⇐ frame_setitem df "strategy_ret" (series_mul sg rt);
  sg ⇐ frame_getitem df "signal";
  _ ⇐ frame_setitem df "trade_change"
        (fillna (Fin 0) (series_abs (diff sg)));
  tc ⇐ frame_getitem df "trade_change";
  _ ⇐ frame_setitem df "costs"
        (series_mul_scalar tc (bt_commission self + bt_slippage self)%F);
  sr ⇐ frame_getitem df "strategy_ret";
  cs ⇐ frame_getitem df "costs";
  _ ⇐ frame_setitem df "net_ret" (series_sub sr cs);
  nr ⇐ frame_getitem df "net_ret";
  _ ⇐ frame_setitem df "equity"
        (series_mul_scalar (cumprod (series_add_scalar (Fin 1) nr))
                           initial_capital);
  rows ⇐ frame_iterrows df;
  st ⇐ lift (for_each Backtester.loop_body rows locals0);
  nr ⇐ frame_getitem df "net_ret";
  stats ⇐ lift (Backtester._calc_stats nr (l_trades st) initial_capital);
  eq ⇐ frame_getitem df "equity";
  ret {| equity_curve := eq; trades := l_trades st; stats := stats |}.

(** [BacktesterMin.run], statement by statement.  Of [self],
    [_calc_stats] reads [bars_per_year] only. *)
Definition BacktesterMin_run (self : backtester_min) (signals : loc)
    (initial_capital : pyfloat) : M BacktestResult :=
  df ⇐ frame_copy (bm_data self);
  s ⇐ read_series signals;
  _ ⇐ frame_setitem df "signal" (fillna (Fin 0) (shift1 s));
  cl ⇐ frame_getitem df "close";
  _ ⇐ frame_setitem df "ret" (fillna (Fin 0) (pct_change cl));
  sg ⇐ frame_getitem df "signal";
  rt ⇐ frame_getitem df "ret";
  _ ⇐ frame_setitem df "strategy_ret" (series_mul sg rt);
  sg ⇐ frame_getitem df "signal";
  _ ⇐ frame_setitem df "trade_change"
        (fillna (Fin 0) (series_abs (diff sg)));
  tc ⇐ frame_getitem df "trade_change";
  _ ⇐ frame_setitem df "costs"
        (series_mul_scalar tc (bm_commission self + bm_slippage self)%F);
  sr ⇐ frame_getitem df "strategy_ret";
  cs ⇐ frame_getitem df "costs";
  _ ⇐ frame_setitem df "net_ret" (series_sub sr cs);
  nr ⇐ frame_getitem df "net_ret";
  _ ⇐ frame_setitem df "equity"
        (series_mul_scalar (cumprod (series_add_scalar (Fin 1) nr))
                           initial_capital);
  rows ⇐ frame_iterrows df;
  st ⇐ lift (for_each BacktesterMin.loop_body rows locals0);
  nr ⇐ frame_getitem df "net_ret";
  stats ⇐ lift (BacktesterMin._calc_stats
                  (backtester_min_value self []) nr (l_trades st)
                  initial_capital);
  eq ⇐ frame_getitem df "equity";
  ret {| equity_curve := eq; trades := l_trades st; stats := stats |}.
End WithNumLib.

(** [h'] agrees with [h] on every object of [h]. *)
Definition preserved (h h' : heap) : Prop :=
  ∀ l, l ∈ dom h → h' !! l = h !! l.

(** [m] writes to the locations of [D] at most: every other location,
    allocated or not, is left as it was. *)
Definition only_writes {A} (D : gset loc) (m : M A) : Prop :=
  ∀ h a h', m h = (a, h') → ∀ l, l ∉ D → h' !! l = h !! l.

End Store.

(** ** [Config] (src/config.py)

    The class reads the process state: the environment [os.environ],
    the file system (is there a file at [env_file]?) and the standard
    output it prints its warning to.  [self._vars] is a dict object of
    its own, handed out by reference by [all()]; dict objects live in a
    store.  [load_dotenv] is python-dotenv's; what it makes of
    [os.environ] given the file is a parameter of the development. *)

Module Config.

Definition loc : Type := positive.

Record World : Type := {
  environ : gmap string string;
  files : gmap string string;
  stdout : list string;
  dicts : gmap loc (gmap string string)
}.

(** [load_dotenv(dotenv_path=p)], as a function of the content of the
    file at [p] and of [os.environ]. *)
Class Dotenv : Type := {
  load_dotenv : string → gmap string string → gmap string string
}.

(** A [Config] object: [self._vars] is a reference. *)
Record t : Type := { _vars : loc }.

Inductive error : Type := AttributeError (message : string).

Definition default_env_file : string := "../.env".

Definition warning (env_file : string) : string :=
  "⚠️ Файл " +:+ env_file +:+ " не найден, используем только системные env".

Definition not_found (item : string) : string :=
  "Переменная '" +:+ item +:+ "' не найдена".

Section WithDotenv.
Context {dotenv : Dotenv}.

(** Lines 10-19: [__init__]. *)
Definition __init__ (env_file : string) (w : World) : t * World :=
  let w1 :=
    match files w !! env_file with
    | Some content =>
        {| environ := load_dotenv content (environ w); files := files w;
           stdout := stdout w; dicts := dicts w |}
    | None =>
        {| environ := environ w; files := files w;
           stdout := stdout w ++ [warning env_file]; dicts := dicts w |}
    end in
  let l := fresh (dom (dicts w1)) in
  ({| _vars := l |},
   {| environ := environ w1; files := files w1; stdout := stdout w1;
      dicts := <[l := environ w1]> (dicts w1) |}).
End WithDotenv.

(** Lines 21-23: [get]; [inl] a value of the dict, [inr] the default.
    [None] where [self._vars] is no dict of the store. *)
Definition get {A : Type} (self : t) (key : string) (default : A) (w : World)
  : option (string + A) :=
  vars ← dicts w !! _vars self;
  Some (match vars !! key with
        | Some v => inl v
        | None => inr default
        end).

(** Lines 25-29: [__getattr__], which Python calls for the attribute
    names its normal lookup does not find. *)
Definition __getattr__ (self : t) (item : string) (w : World)
  : option (string + error) :=
  vars ← dicts w !! _vars self;
  Some (match vars !! item with
        | Some v => inl v
        | None => inr (AttributeError (not_found item))
        end).

(** Lines 31-33: [all] returns the dict itself. *)
Definition all (self : t) : loc := _vars self.

(** [d[key] = value] on a dict object, as a holder of the reference
    may do. *)
Definition dict_setitem (d : loc) (key value : string) (w : World) : World :=
  {| environ := environ w; files := files w; stdout := stdout w;
     dicts := alter (fun m => <[key := value]> m) d (dicts w) |}.

(** [os.environ[key] = value] *)
Definition environ_setitem (key value : string) (w : World) : World :=
  {| environ := <[key := value]> (environ w); files := files w;
     stdout := stdout w; dicts := dicts w |}.

End Config.

(** ** A dotenv reader to run the model with

    Lines [KEY=VALUE]; a variable the environment already has is kept
    (python-dotenv's [override=False]). *)

Fixpoint split_lines (s : string) : list string :=
  match s with
  | EmptyString => [EmptyString]
  | String c r =>
      if Ascii.eqb c "010"%char then EmptyString :: split_lines r
      else match split_lines r with
           | [] => [String c EmptyString]
           | l :: ls => String c l :: ls
           end
  end.

Fixpoint cut_at_equals (s : string) : option (string * string) :=
  match s with
  | EmptyString => None
  | String c r =>
      if Ascii.eqb c "="%char then Some (EmptyString, r)
      else '(k, v) ← cut_at_equals r; Some (String c k, v)
  end.

Definition setdefault (env : gmap string string) (kv : string * string)
  : gmap string string :=
  match env !! kv.1 with
  | Some _ => env
  | None => <[kv.1 := kv.2]> env
  end.

Definition sample_load_dotenv (content : string) (env : gmap string string)
  : gmap string string :=
  foldl setdefault env (omap cut_at_equals (split_lines content)).

Definition sample_dotenv : Config.Dotenv :=
  {| Config.load_dotenv := sample_load_dotenv |}.

(** ** Vocabulary of the statements *)

(** The trade appended when the position held in [st] is closed at
    [row], [ep] being the entry price. *)
Definition closing_trade (st : Locals) (ep : pyfloat) (row : Row) : Trade :=
  {| entry_date := l_entry_date st;
     exit_date := row_date row;
     entry_price := ep;
     exit_price := row_close row;
     pnl := ((row_close row / ep - Fin 1) * l_position st)%F |}.

(** While a position is held, the entry price and date are set. *)
Definition entry_set (st : Locals) : Prop :=
  fneb (l_position st) (Fin 0) = true →
  is_Some (l_entry_price st) ∧ is_Some (l_entry_date st).

(** A finite number above zero: what a price has to be. *)
Definition pos_finite (x : pyfloat) : bool := is_finite x && fltb (Fin 0) x.

(** Order on dates; a missing date [NaT] is not ordered. *)
Definition date_lt (a b : pydate) : Prop :=
  match a, b with
  | Date x, Date y => (x < y)%Z
  | _, _ => False
  end.

(** The position held once the rows [rs] have gone by. *)
Definition pos_after (rs : list Row) : pyfloat :=
  match last rs with
  | Some r => row_signal r
  | None => Fin 0
  end.

(** The number of bars at which the lagged position leaves a
    non-zero value, [prev] being the position before the first bar. *)
Fixpoint closings (prev : pyfloat) (sig : Series) : nat :=
  match sig with
  | [] => 0
  | x :: r =>
      (if fneb prev (Fin 0) && fneb x prev then 1 else 0)%nat + closings x r
  end.

(** [tr] was closed at a bar where the lagged position moved away from
    the non-zero value it had at the bar before. *)
Definition closed_by_transition (rs : list Row) (tr : Trade) : Prop :=
  ∃ (i : nat) (prev cur : Row),
    rs !! i = Some prev ∧ rs !! S i = Some cur ∧
    fneb (row_signal prev) (Fin 0) = true ∧
    fneb (row_signal cur) (row_signal prev) = true ∧
    exit_date tr = row_date cur ∧ exit_price tr = row_close cur.

(** Dates: a held position was entered at a bar before the ones still
    to come. *)
Definition entered_before (st : Locals) (rs : list Row) : Prop :=
  fneb (l_position st) (Fin 0) = true →
  ∃ d, l_entry_date st = Some d ∧
       Forall (fun r => date_lt d (row_date r)) rs.

(** The entry date of [tr] is set and strictly before its exit date. *)
Definition trade_dates_ordered (tr : Trade) : Prop :=
  ∃ d, entry_date tr = Some d ∧ date_lt d (exit_date tr).

(** [tr] is the trade of the position entered at bar [i] and closed at
    bar [j]: the lagged position became non-zero at [i], kept that value
    up to [j - 1] and left it at [j]; the dates and prices of [tr] are
    those of the two bars, its pnl the price ratio less 1 times the
    position held. *)
Definition spans (rs : list Row) (tr : Trade) (i j : nat) : Prop :=
  ∃ rin rout,
    rs !! i = Some rin ∧ rs !! j = Some rout ∧ (i < j)%nat ∧
    fneb (row_signal rin) (Fin 0) = true ∧
    (∀ m row, (i ≤ m < j)%nat → rs !! m = Some row →
              row_signal row = row_signal rin) ∧
    fneb (row_signal rout) (row_signal rin) = true ∧
    entry_date tr = Some (row_date rin) ∧
    entry_price tr = row_close rin ∧
    exit_date tr = row_date rout ∧
    exit_price tr = row_close rout ∧
    pnl tr = ((row_close rout / row_close rin - Fin 1) * row_signal rin)%F.

(** Entry and exit bars of successive trades: the next entry is not
    before the exit. *)
Definition chained (ix : list (nat * nat)) : Prop :=
  ∀ k a b, ix !! k = Some a → ix !! S k = Some b → (a.2 ≤ b.1)%nat.

(** The state of the trade loop once the rows [rs] have gone by: the
    trades appended so far span bars of [rs], in order, and a position
    still held was entered at a bar of [rs] not before the last exit. *)
Definition loop_inv (rs : list Row) (st : Locals) : Prop :=
  ∃ ix,
    Forall2 (fun tr p => spans rs tr p.1 p.2) (l_trades st) ix ∧
    chained ix ∧
    (fneb (l_position st) (Fin 0) = true →
     ∃ i rin,
       rs !! i = Some rin ∧
       l_position st = row_signal rin ∧
       l_entry_price st = Some (row_close rin) ∧
       l_entry_date st = Some (row_date rin) ∧
       (∀ m row, (i ≤ m)%nat → rs !! m = Some row →
                 row_signal row = row_signal rin) ∧
       (∀ p, last ix = Some p → (p.2 ≤ i)%nat)).

(** The net return of bar [t] in closed form: nothing at the first
    bar, then the lagged position times the market return, less [rate]
    times the absolute change of the lagged position. *)
Definition bar_net_return (sig closes : Series) (rate : pyfloat) (t : nat)
  : pyfloat :=
  match t with
  | O => Fin 0
  | S k =>
      (Spec.LaggedPosition sig t * Spec.MarketReturn closes t
       - fabs (Spec.LaggedPosition sig t - Spec.LaggedPosition sig k) * rate)%F
  end.

(** The growth of one unit of capital over bars [0 .. t]. *)
Definition growth (sig closes : Series) (rate : pyfloat) (t : nat) : pyfloat :=
  foldl fmul (Fin 1)
    (map (fun i => (Fin 1 + bar_net_return sig closes rate i)%F)
         (seq 0 (S t))).

(** ** Sample inputs *)

(** Daily bars with the given closes, dated [0, 1, 2, ...]. *)
Definition daily_bars (closes : list Z) : DataFrame :=
  imap (fun i c => {| date := Date (Z.of_nat i); open := fz c; high := fz c;
                      low := fz c; close := fz c; volume := fz 1000 |})
       closes.

(** A [Backtester] on such bars, with the default cost rates. *)
Definition default_backtester (closes : list Z) : Backtester.t :=
  Backtester.init (daily_bars closes)
    Backtester.default_commission Backtester.default_slippage.

(** * Facts *)

(** Reduce the binds of the exception monad once the head is known. *)
Ltac simpl_bind := cbv beta iota delta [mbind result_bind].

(** Closed decidable goals, by evaluation. *)
Ltac by_compute := apply (bool_decide_unpack _); vm_compute; exact I.

(** ** Floats *)

Lemma fmul_comm (x y : pyfloat) : (x * y = y * x)%F.
Proof.
  destruct x as [|a|p], y as [|b|q]; simpl; try done.
  - by rewrite xorb_comm.
  - case_decide; [done | by rewrite xorb_comm].
  - case_decide; [done | by rewrite xorb_comm].
  - f_equal. ring.
Qed.


(** ** Series: the pandas operations on small inputs *)

Example shift1_example :
  shift1 [fz 1; fz 2; fz 3] = [NaN; fz 1; fz 2].
Proof. by_compute. Qed.

Example lagged_signal_example :
  fillna (Fin 0) (shift1 [fz 0; fz 1; fz 1; fz 0]) = [fz 0; fz 0; fz 1; fz 1].
Proof. by_compute. Qed.

Example pct_change_example :
  pct_change [fz 100; fz 110; fz 121] = [NaN; fq 1 10; fq 1 10].
Proof. by_compute. Qed.

Example pct_change_zero_price_example :
  pct_change [fz 0; fz 5; fz 0; fz 0]
  = [NaN; Inf false; fz (-1); NaN].
Proof. by_compute. Qed.

Example diff_example :
  fillna (Fin 0) (series_abs (diff [fz 0; fz 1; fz (-1); fz (-1)]))
  = [fz 0; fz 1; fz 2; fz 0].
Proof. by_compute. Qed.

Example cumprod_skipna_example :
  cumprod [fz 2; NaN; fz 3] = [fz 2; NaN; fz 6].
Proof. by_compute. Qed.

Example reindex_short_example :
  reindex 3 [fz 7] = [fz 7; NaN; NaN].
Proof. by_compute. Qed.

Example reindex_long_example :
  reindex 2 [fz 7; fz 8; fz 9] = [fz 7; fz 8].
Proof. by_compute. Qed.

Example ensure_valid_index_example :
  ensure_valid_index [] [fz 0; fz 1] = [nan_bar; nan_bar].
Proof. by_compute. Qed.

Example pydiv_zero_example :
  pydiv (fz 121) (fz 0) = Raise ZeroDivisionError.
Proof. by_compute. Qed.
Lemma fmul_1_l (x : pyfloat) : (Fin 1 * x)%F = x.
Proof.
  destruct x as [|b|q]; simpl; try done.
  f_equal. ring.
Qed.

Lemma fsub_0_r (x : pyfloat) : (x - Fin 0)%F = x.
Proof.
  destruct x as [|b|q]; simpl; try done.
  unfold fsub; simpl. f_equal. ring.
Qed.

Lemma fmul_0_l_finite (x : pyfloat) :
  is_finite x = true → (Fin 0 * x)%F = Fin 0.
Proof. destruct x as [|b|q]; simpl; try done. intros _. f_equal. ring. Qed.

Lemma fmul_0_r_finite (x : pyfloat) :
  is_finite x = true → (x * Fin 0)%F = Fin 0.
Proof. intros. by rewrite fmul_comm, fmul_0_l_finite. Qed.

Lemma fadd_finite (x y : pyfloat) :
  is_finite x = true → is_finite y = true → is_finite (x + y)%F = true.
Proof. by destruct x, y. Qed.

Lemma fadd_0_l (x : pyfloat) : (Fin 0 + x)%F = x.
Proof. destruct x as [|b|q]; simpl; try done. f_equal. ring. Qed.

Lemma feqb_eq (x y : pyfloat) : feqb x y = true → x = y.
Proof.
  destruct x as [|a|p], y as [|b|q]; simpl; try done.
  - by intros ->%bool_decide_eq_true.
  - by intros ->%bool_decide_eq_true.
Qed.

Lemma fneb_false_eq (x y : pyfloat) : fneb x y = false → x = y.
Proof. unfold fneb. intros H%negb_false_iff. by apply feqb_eq. Qed.

(** ** Series: lengths *)

Lemma length_shift1 (s : Series) : length (shift1 s) = length s.
Proof. unfold shift1. rewrite length_take. simpl. lia. Qed.

Lemma length_fillna (v : pyfloat) (s : Series) : length (fillna v s) = length s.
Proof. apply length_map. Qed.

Lemma length_reindex (n : nat) (s : Series) : length (reindex n s) = n.
Proof.
  unfold reindex. rewrite length_take, length_app, length_replicate. lia.
Qed.

Lemma reindex_id (s : Series) : reindex (length s) s = s.
Proof.
  unfold reindex. rewrite Nat.sub_diag. simpl. rewrite app_nil_r.
  apply firstn_all.
Qed.

Lemma length_ffill_from (p : pyfloat) (s : Series) :
  length (ffill_from p s) = length s.
Proof. revert p; induction s as [|x s IH]; intros p; simpl; [done | by rewrite IH]. Qed.

Lemma length_pct_change (s : Series) : length (pct_change s) = length s.
Proof.
  unfold pct_change, series_sub_scalar, series_div, ffill.
  rewrite length_map, length_zip_with, length_shift1, length_ffill_from. lia.
Qed.

Lemma length_diff (s : Series) : length (diff s) = length s.
Proof.
  unfold diff, series_sub. rewrite length_zip_with, length_shift1. lia.
Qed.

Lemma length_cumprod_from (a : pyfloat) (s : Series) :
  length (cumprod_from a s) = length s.
Proof.
  revert a; induction s as [|x s IH]; intros a; simpl; [done|].
  destruct (is_nan x); simpl; by rewrite IH.
Qed.

Lemma length_cumprod (s : Series) : length (cumprod s) = length s.
Proof. apply length_cumprod_from. Qed.



(** ** The trade loop *)


Lemma for_each_app {S A} (body : S → A → result S) (xs ys : list A) (st : S) :
  for_each body (xs ++ ys) st = (st' ← for_each body xs st; for_each body ys st').
Proof.
  revert st; induction xs as [|x xs IH]; intros st; simpl; [done|].
  destruct (body st x) as [st1|e]; simpl; [apply IH | done].
Qed.

Lemma for_each_snoc {S A} (body : S → A → result S) (xs : list A) (x : A)
    (st st' : S) :
  for_each body (xs ++ [x]) st = Ok st' ↔
  ∃ st1, for_each body xs st = Ok st1 ∧ body st1 x = Ok st'.
Proof.
  rewrite for_each_app. split.
  - destruct (for_each body xs st) as [st1|e]; simpl; [|done].
    intros H. exists st1. split; [done|].
    by destruct (body st1 x).
  - intros (st1 & -> & H). simpl. by rewrite H.
Qed.

(** The three ways through the loop body: open, close (and perhaps
    reopen), or leave the variables alone. *)
Lemma loop_body_cases (st st' : Locals) (row : Row) :
  Backtester.loop_body st row = Ok st' →
  (l_position st = Fin 0 ∧ fneb (row_signal row) (Fin 0) = true ∧
   st' = {| l_trades := l_trades st; l_position := row_signal row;
            l_entry_price := Some (row_close row);
            l_entry_date := Some (row_date row) |})
  ∨ (fneb (l_position st) (Fin 0) = true ∧
     fneb (row_signal row) (l_position st) = true ∧
     ∃ ep, l_entry_price st = Some ep ∧ ep ≠ Fin 0 ∧
       st' = {| l_trades := l_trades st ++ [closing_trade st ep row];
                l_position := row_signal row;
                l_entry_price := Some (row_close row);
                l_entry_date :=
                  if fneb (row_signal row) (Fin 0) then Some (row_date row)
                  else None |})
  ∨ (st' = st ∧ l_position st = row_signal row ∧
     fneb (l_position st) (Fin 0)
       && fneb (row_signal row) (l_position st) = false).
Proof.
  unfold Backtester.loop_body.
  destruct (feqb (l_position st) (Fin 0)) eqn:Hz; simpl.
  - apply feqb_eq in Hz as Hp.
    destruct (fneb (row_signal row) (Fin 0)) eqn:Hs; simpl.
    + intros [= <-]. by left.
    + unfold fneb at 1. rewrite Hz. simpl. intros [= <-].
      right; right. split; [done|]. apply fneb_false_eq in Hs.
      split; [congruence|]. unfold fneb at 1. by rewrite Hz.
  - unfold fneb at 1. rewrite Hz. simpl.
    destruct (fneb (row_signal row) (l_position st)) eqn:Hs; simpl.
    + destruct (l_entry_price st) as [ep|] eqn:Hep; [|done].
      unfold pydiv. destruct (feqb ep (Fin 0)) eqn:He; simpl; [done|].
      intros [= <-]. right; left.
      split; [by unfold fneb; rewrite Hz|]. split; [done|]. exists ep.
      split; [done|]. split; [by intros ->|done].
    + intros [= <-]. right; right. split; [done|].
      split; [by apply fneb_false_eq in Hs|].
      apply andb_false_r.
Qed.

Lemma loop_body_position (st st' : Locals) (row : Row) :
  Backtester.loop_body st row = Ok st' → l_position st' = row_signal row.
Proof.
  intros [(_ & _ & ->) | [(_ & _ & ep & _ & _ & ->) | (-> & ? & _)]]%loop_body_cases;
    done.
Qed.

Lemma entry_set_locals0 : entry_set locals0.
Proof. intros H. done. Qed.

Lemma loop_body_entry_set (st st' : Locals) (row : Row) :
  entry_set st → Backtester.loop_body st row = Ok st' → entry_set st'.
Proof.
  intros Hinv
    [(_ & Hs & ->) | [(_ & _ & ep & _ & _ & ->) | (-> & _ & _)]]%loop_body_cases;
    [| |done].
  - intros _. simpl. eauto.
  - intros Hp. simpl in *. rewrite Hp. eauto.
Qed.

(** The loop raises only when a trade closes on a zero entry price. *)
Lemma loop_body_ok (st : Locals) (row : Row) :
  entry_set st →
  (∀ ep, l_entry_price st = Some ep → ep ≠ Fin 0) →
  ∃ st', Backtester.loop_body st row = Ok st'.
Proof.
  intros Hinv Hnz. unfold Backtester.loop_body.
  destruct (feqb (l_position st) (Fin 0) && fneb (row_signal row) (Fin 0));
    [eauto|].
  destruct (fneb (l_position st) (Fin 0)) eqn:Hp; simpl; [|eauto].
  destruct (fneb (row_signal row) (l_position st)); [|eauto].
  destruct (Hinv Hp) as [[ep Hep] _]. rewrite Hep.
  unfold pydiv. destruct (feqb ep (Fin 0)) eqn:He; simpl; [|eauto].
  apply feqb_eq in He. by destruct (Hnz ep Hep).
Qed.

Lemma loop_body_trades (st st' : Locals) (row : Row) :
  Backtester.loop_body st row = Ok st' →
  ∃ new, l_trades st' = l_trades st ++ new.
Proof.
  intros [(_ & _ & ->) | [(_ & _ & ep & _ & _ & ->) | (-> & _ & _)]]%loop_body_cases;
    simpl; [exists [] | eauto | exists []]; by rewrite app_nil_r.
Qed.

Lemma loop_entry_set (rs : list Row) (st st' : Locals) :
  entry_set st → for_each Backtester.loop_body rs st = Ok st' → entry_set st'.
Proof.
  revert st; induction rs as [|r rs IH]; intros st Hinv; simpl.
  - by intros [= <-].
  - destruct (Backtester.loop_body st r) as [st1|e] eqn:Hb; simpl; [|done].
    apply IH. by eapply loop_body_entry_set.
Qed.

Lemma loop_trades_grow (rs : list Row) (st st' : Locals) :
  for_each Backtester.loop_body rs st = Ok st' →
  ∃ new, l_trades st' = l_trades st ++ new.
Proof.
  revert st; induction rs as [|r rs IH]; intros st; simpl.
  - intros [= <-]. exists []. by rewrite app_nil_r.
  - destruct (Backtester.loop_body st r) as [st1|e] eqn:Hb; simpl; [|done].
    intros (new2 & ->)%IH. apply loop_body_trades in Hb as (new1 & ->).
    exists (new1 ++ new2). by rewrite app_assoc.
Qed.

Lemma pos_after_snoc (rs : list Row) (r : Row) :
  pos_after (rs ++ [r]) = row_signal r.
Proof. unfold pos_after. by rewrite last_snoc. Qed.

Lemma loop_pos_after (rs : list Row) (st : Locals) :
  for_each Backtester.loop_body rs locals0 = Ok st →
  l_position st = pos_after rs.
Proof.
  destruct rs as [|r rs _] using rev_ind.
  - by intros [= <-].
  - intros (st1 & _ & Hb)%for_each_snoc. rewrite pos_after_snoc.
    by eapply loop_body_position.
Qed.

(** As many trades are appended as there are bars at which the lagged
    position leaves a non-zero value. *)
Lemma loop_count (rs : list Row) (st st' : Locals) :
  for_each Backtester.loop_body rs st = Ok st' →
  length (l_trades st') =
  (length (l_trades st) + closings (l_position st) (map row_signal rs))%nat.
Proof.
  revert st; induction rs as [|r rs IH]; intros st; simpl.
  - intros [= <-]. lia.
  - destruct (Backtester.loop_body st r) as [st1|e] eqn:Hb; simpl; [|done].
    intros ->%IH. rewrite (loop_body_position _ _ _ Hb).
    apply loop_body_cases in Hb
      as [(Hp & _ & ->) | [(Hp & Hs & ep & _ & _ & ->) | (-> & _ & Hc)]];
      simpl.
    + rewrite Hp. simpl. lia.
    + rewrite Hp, Hs, length_app. simpl. lia.
    + rewrite Hc. lia.
Qed.

Lemma closed_by_transition_snoc (rs : list Row) (r : Row) (tr : Trade) :
  closed_by_transition rs tr → closed_by_transition (rs ++ [r]) tr.
Proof.
  intros (i & prev & cur & Hi & HSi & ?).
  exists i, prev, cur. split_and!; try tauto.
  - apply lookup_app_l_Some. tauto.
  - by apply lookup_app_l_Some.
Qed.

Lemma loop_closed_by_transition (rs : list Row) (st : Locals) :
  for_each Backtester.loop_body rs locals0 = Ok st →
  ∀ tr, tr ∈ l_trades st → closed_by_transition rs tr.
Proof.
  revert st. induction rs as [|r rs IH] using rev_ind; intros st.
  - intros [= <-] tr Htr. by apply elem_of_nil in Htr.
  - intros (st1 & Hloop & Hb)%for_each_snoc tr Htr.
    pose proof (loop_pos_after _ _ Hloop) as Hpos.
    apply loop_body_cases in Hb
      as [(_ & _ & ->) | [(Hp & Hs & ep & _ & _ & ->) | (-> & _ & _)]];
      simpl in Htr; try (apply closed_by_transition_snoc; by eapply IH).
    apply elem_of_app in Htr as [Htr | Htr%list_elem_of_singleton].
    { apply closed_by_transition_snoc; by eapply IH. }
    subst tr. rewrite Hpos in Hp, Hs. unfold pos_after in Hp, Hs.
    destruct (last rs) as [prev|] eqn:Hlast; [|done].
    rewrite last_lookup in Hlast.
    assert (length rs ≠ 0%nat) as Hlen.
    { intros Hl. destruct rs; [done | simpl in Hl; lia]. }
    exists (pred (length rs)), prev, r.
    split_and!; try done.
    + by apply lookup_app_l_Some.
    + replace (S (pred (length rs))) with (length rs) by lia.
      by rewrite list_lookup_middle.
Qed.

(** The loop runs through when no close is a zero. *)
Lemma loop_ok (rs : list Row) (st : Locals) :
  entry_set st →
  (∀ ep, l_entry_price st = Some ep → ep ≠ Fin 0) →
  Forall (fun r => row_close r ≠ Fin 0) rs →
  ∃ st', for_each Backtester.loop_body rs st = Ok st'.
Proof.
  revert st; induction rs as [|r rs IH]; intros st Hinv Hnz Hrs; simpl.
  - eauto.
  - apply Forall_cons in Hrs as [Hr Hrs].
    destruct (loop_body_ok st r Hinv Hnz) as [st1 Hb]. rewrite Hb. simpl.
    apply IH; [by eapply loop_body_entry_set | | done].
    apply loop_body_cases in Hb
      as [(_ & _ & ->) | [(_ & _ & ep & _ & _ & ->) | (-> & _ & _)]];
      simpl; [by intros ? [= <-] | by intros ? [= <-] | done].
Qed.

Lemma loop_dates (rs : list Row) (st st' : Locals) :
  StronglySorted (fun a b => date_lt (row_date a) (row_date b)) rs →
  entered_before st rs →
  Forall trade_dates_ordered (l_trades st) →
  for_each Backtester.loop_body rs st = Ok st' →
  Forall trade_dates_ordered (l_trades st').
Proof.
  revert st; induction rs as [|r rs IH]; intros st Hsort Hinv Htr; simpl.
  - by intros [= <-].
  - apply StronglySorted_inv in Hsort as [Hsort Hr].
    destruct (Backtester.loop_body st r) as [st1|e] eqn:Hb; simpl; [|done].
    apply IH; [done | |].
    + apply loop_body_cases in Hb
        as [(_ & _ & ->) | [(_ & _ & ep & _ & _ & ->) | (-> & _ & _)]].
      * intros _. simpl. eauto.
      * intros Hp. simpl in *. rewrite Hp. eauto.
      * intros Hp. destruct (Hinv Hp) as (d & Hd & Hall).
        apply Forall_cons in Hall as [_ Hall]. eauto.
    + apply loop_body_cases in Hb
        as [(_ & _ & ->) | [(Hp & _ & ep & _ & _ & ->) | (-> & _ & _)]];
        simpl; [done | | done].
      apply Forall_app. split; [done|]. apply Forall_singleton.
      destruct (Hinv Hp) as (d & Hd & Hall).
      apply Forall_cons in Hall as [Hdr _].
      exists d. by split.
Qed.

(** ** The frame *)

Lemma lookup_map {A B} (f : A → B) (l : list A) (i : nat) :
  map f l !! i = f <$> (l !! i).
Proof.
  revert i; induction l as [|x l IH]; intros [|i]; simpl; done.
Qed.

Lemma Forall_map {A B} (f : A → B) (P : B → Prop) (l : list A) :
  Forall (fun x => P (f x)) l → Forall P (map f l).
Proof. induction 1; simpl; by constructor. Qed.

Lemma zip_rows_lookup (ds : list pydate) (cs ss : Series) (i : nat) (row : Row) :
  zip_rows ds cs ss !! i = Some row ↔
  ds !! i = Some (row_date row) ∧ cs !! i = Some (row_close row) ∧
  ss !! i = Some (row_signal row).
Proof.
  revert cs ss i; induction ds as [|d ds IH]; intros cs ss i.
  { simpl. rewrite !lookup_nil. split; [done | by intros (? & _)]. }
  destruct cs as [|c cs].
  { simpl. rewrite !lookup_nil. split; [done | by intros (_ & ? & _)]. }
  destruct ss as [|s ss].
  { simpl. rewrite !lookup_nil. split; [done | by intros (_ & _ & ?)]. }
  destruct i as [|i]; simpl; [|apply IH].
  destruct row as [rd rc rs]. simpl. split.
  - by intros [= -> -> ->].
  - by intros ([= ->] & [= ->] & [= ->]).
Qed.

Lemma length_zip_rows (ds : list pydate) (cs ss : Series) :
  length cs = length ds → length ss = length ds →
  length (zip_rows ds cs ss) = length ds.
Proof.
  revert cs ss; induction ds as [|d ds IH]; intros [|c cs] [|s ss];
    simpl; try done.
  intros [= ?] [= ?]. f_equal. by apply IH.
Qed.

Lemma zip_rows_signal (ds : list pydate) (cs ss : Series) :
  length cs = length ds → length ss = length ds →
  map row_signal (zip_rows ds cs ss) = ss.
Proof.
  revert cs ss; induction ds as [|d ds IH]; intros [|c cs] [|s ss];
    simpl; try done.
  intros [= ?] [= ?]. f_equal. by apply IH.
Qed.

Lemma zip_rows_close (ds : list pydate) (cs ss : Series) :
  Forall (fun c => c ≠ Fin 0) cs →
  Forall (fun r => row_close r ≠ Fin 0) (zip_rows ds cs ss).
Proof.
  revert cs ss; induction ds as [|d ds IH]; intros [|c cs] [|s ss];
    simpl; try done.
  intros [? ?]%Forall_cons. apply Forall_cons. split; [done | by apply IH].
Qed.

Lemma zip_rows_sorted (ds : list pydate) (cs ss : Series) :
  StronglySorted date_lt ds →
  StronglySorted (fun a b => date_lt (row_date a) (row_date b))
                 (zip_rows ds cs ss).
Proof.
  revert cs ss; induction ds as [|d ds IH]; intros [|c cs] [|s ss] Hs;
    simpl; try constructor.
  - apply IH. by apply StronglySorted_inv in Hs as [? _].
  - apply StronglySorted_inv in Hs as [_ Hd].
    apply Forall_lookup. intros i row (Hi & _ & _)%zip_rows_lookup.
    by apply (Forall_lookup_1 _ _ _ _ Hd Hi).
Qed.

Section Frame.
Context (self : Backtester.t) (signals : Series) (ic : pyfloat).
Let df := Backtester.build_frame self signals ic.

Lemma frame_rows_nonempty : Backtester.data self ≠ [] → rows df = Backtester.data self.
Proof. simpl. by destruct (Backtester.data self). Qed.

Lemma length_signal : length (signal df) = length (rows df).
Proof. simpl. apply length_reindex. Qed.

Lemma length_ret : length (ret df) = length (rows df).
Proof. simpl. by rewrite length_fillna, length_pct_change, length_map. Qed.

Lemma length_strategy_ret : length (strategy_ret df) = length (rows df).
Proof.
  pose proof length_signal. pose proof length_ret. simpl in *.
  unfold series_mul. rewrite length_zip_with. lia.
Qed.

Lemma length_trade_change : length (trade_change df) = length (rows df).
Proof.
  pose proof length_signal. simpl in *.
  unfold series_abs. by rewrite length_fillna, length_map, length_diff.
Qed.

Lemma length_costs : length (costs df) = length (rows df).
Proof.
  pose proof length_trade_change. simpl in *.
  unfold series_mul_scalar. by rewrite length_map.
Qed.

Lemma length_net_ret : length (net_ret df) = length (rows df).
Proof.
  pose proof length_strategy_ret. pose proof length_costs. simpl in *.
  unfold series_sub. rewrite length_zip_with. lia.
Qed.

Lemma length_equity : length (equity df) = length (rows df).
Proof.
  pose proof length_net_ret. simpl in *.
  unfold series_mul_scalar, series_add_scalar.
  by rewrite length_map, length_cumprod, length_map.
Qed.

Lemma length_iterrows : length (iterrows df) = length (rows df).
Proof.
  unfold iterrows. rewrite length_zip_rows; rewrite ?length_map; try done.
  apply length_signal.
Qed.

Lemma iterrows_signal : map row_signal (iterrows df) = signal df.
Proof.
  unfold iterrows. apply zip_rows_signal; rewrite ?length_map; try done.
  apply length_signal.
Qed.

Lemma iterrows_lookup (i : nat) (row : Row) :
  iterrows df !! i = Some row →
  signal df !! i = Some (row_signal row) ∧
  ∃ bar, rows df !! i = Some bar ∧ date bar = row_date row ∧
         close bar = row_close row.
Proof.
  unfold iterrows. intros (Hd & Hc & Hs)%zip_rows_lookup. split; [done|].
  rewrite lookup_map in Hd. rewrite lookup_map in Hc.
  destruct (rows df !! i) as [bar|]; [|done].
  simpl in *. exists bar. split; [done|]. split; congruence.
Qed.
End Frame.

(** ** When [run] returns *)

Section Returns.
Context {numlib : NumLib}.

Lemma calc_stats_ok (returns : Series) (ts : list Trade) (ic : pyfloat) :
  returns ≠ [] → ∃ s, Backtester._calc_stats returns ts ic = Ok s.
Proof.
  intros Hne. unfold Backtester._calc_stats, iloc_last.
  set (eq := cumprod (series_add_scalar (Fin 1) returns)).
  assert (is_Some (last eq)) as [x Hx].
  { rewrite last_lookup. apply lookup_lt_is_Some. subst eq.
    unfold series_add_scalar. rewrite length_cumprod, length_map.
    destruct returns; [done | simpl; lia]. }
  rewrite Hx. simpl. eauto.
Qed.

Lemma frame_rows_closes (self : Backtester.t) (signals : Series) (ic : pyfloat) :
  Forall (fun b => close b ≠ Fin 0) (Backtester.data self) →
  Forall (fun b => close b ≠ Fin 0)
         (rows (Backtester.build_frame self signals ic)).
Proof.
  intros Hall. simpl. unfold ensure_valid_index.
  destruct (Backtester.data self) as [|b bs]; [|done].
  destruct (fillna (Fin 0) (shift1 signals)); [done|].
  by apply Forall_replicate.
Qed.

Lemma frame_rows_empty (self : Backtester.t) (signals : Series) (ic : pyfloat) :
  rows (Backtester.build_frame self signals ic) = [] ↔
  Backtester.data self = [] ∧ signals = [].
Proof.
  simpl. unfold ensure_valid_index. split.
  - destruct (Backtester.data self) as [|b bs]; [|done].
    destruct signals as [|s ss]; [done|]. done.
  - by intros [-> ->].
Qed.

Lemma run_ok (self : Backtester.t) (signals : Series) (ic : pyfloat) :
  Backtester.data self ≠ [] ∨ signals ≠ [] →
  Forall (fun b => close b ≠ Fin 0) (Backtester.data self) →
  ∃ r, Backtester.run self signals ic = Ok r.
Proof.
  intros Hne Hcl. unfold Backtester.run.
  set (df := Backtester.build_frame self signals ic).
  destruct (loop_ok (iterrows df) locals0) as [st Hst].
  { apply entry_set_locals0. }
  { done. }
  { unfold iterrows. apply zip_rows_close, Forall_map.
    by apply frame_rows_closes. }
  rewrite Hst. simpl_bind.
  destruct (calc_stats_ok (net_ret df) (l_trades st) ic) as [s Hs].
  { intros Hnil. apply (f_equal length) in Hnil. subst df.
    rewrite length_net_ret in Hnil. apply length_zero_iff_nil in Hnil.
    apply frame_rows_empty in Hnil as [? ?]. by destruct Hne. }
  rewrite Hs. simpl_bind. eauto.
Qed.
End Returns.

(** ** Shape of the input, dates of the trades *)


(** C2, as stated, fails: [run] validates no shape.  With two bars and
    three signals it returns a result (the surplus signal is dropped
    when the lagged series is aligned on the frame's index). *)
Lemma C2_counterexample :
  let self := default_backtester [100; 110]%Z in
  let signals := [fz 0; fz 0; fz 0] in
  length (Backtester.data self) ≠ length signals ∧
  ¬ ∃ e, Backtester.run (numlib := approx_numlib) self signals
           Backtester.default_initial_capital = Raise e.
Proof.
  split; [done|]. intros [e He]. vm_compute in He. discriminate He.
Qed.

(** C2, amended.  [run] validates no shape.  With the price frame and
    the signal series both empty it aborts, but with the [IndexError]
    of [equity.iloc[-1]] in [_calc_stats], after the columns of [df]
    and the trade list have been built.  With a non-empty price frame
    it returns a result whatever the length of the signal series
    (provided no close is zero, which would make the closing of a trade
    divide by zero). *)
Theorem C2_no_shape_validation {numlib : NumLib} (self : Backtester.t)
    (signals : Series) (ic : pyfloat) :
  (Backtester.data self = [] → signals = [] →
   equity (Backtester.build_frame self signals ic) = [] ∧
   for_each Backtester.loop_body
     (iterrows (Backtester.build_frame self signals ic)) locals0
     = Ok locals0 ∧
   Backtester.run self signals ic = Raise IndexError)
  ∧ (Backtester.data self ≠ [] →
     Forall (fun b => close b ≠ Fin 0) (Backtester.data self) →
     ∃ r, Backtester.run self signals ic = Ok r).
Proof.
  split.
  - intros Hd ->. unfold Backtester.run, Backtester.build_frame, iterrows.
    rewrite Hd. done.
  - intros Hne. apply run_ok. by left.
Qed.

Lemma C2_no_shape_validation_witness :
  Backtester.run (numlib := approx_numlib) (default_backtester []) []
    Backtester.default_initial_capital = Raise IndexError
  ∧ ∃ r, Backtester.run (numlib := approx_numlib)
           (default_backtester [100; 110]%Z)
           [fz 0; fz 0; fz 0] Backtester.default_initial_capital = Ok r.
Proof.
  split.
  - apply (proj1 (C2_no_shape_validation (numlib := approx_numlib)
                    (default_backtester []) []
                    Backtester.default_initial_capital));
      reflexivity.
  - apply (proj2 (C2_no_shape_validation (numlib := approx_numlib)
                    (default_backtester [100; 110]%Z) [fz 0; fz 0; fz 0]
                    Backtester.default_initial_capital)).
    + by_compute.
    + by_compute.
Defined.

(** C9.  When the dates of the (non-empty) price frame are strictly
    increasing, every trade [run] returns has an entry date that
    strictly precedes its exit date. *)
Theorem C9_entry_before_exit {numlib : NumLib} (self : Backtester.t)
    (signals : Series) (ic : pyfloat) (r : BacktestResult) :
  Backtester.data self ≠ [] →
  StronglySorted date_lt (map date (Backtester.data self)) →
  Backtester.run self signals ic = Ok r →
  ∀ tr, tr ∈ trades r →
    ∃ d, entry_date tr = Some d ∧ date_lt d (exit_date tr).
Proof.
  intros Hne Hsort Hrun. unfold Backtester.run in Hrun.
  set (df := Backtester.build_frame self signals ic) in *.
  destruct (for_each Backtester.loop_body (iterrows df) locals0)
    as [st|e] eqn:Hloop; [|done].
  revert Hrun. simpl_bind.
  destruct (Backtester._calc_stats (net_ret df) (l_trades st) ic)
    as [s|e]; [|done].
  intros [= <-]. simpl.
  apply Forall_forall.
  eapply (loop_dates (iterrows df) locals0 st);
    [| by intros Hp; vm_compute in Hp | by constructor | done].
  unfold iterrows. apply zip_rows_sorted.
  subst df. by rewrite frame_rows_nonempty.
Qed.

Lemma C9_entry_before_exit_witness :
  ∃ r, Backtester.run (numlib := approx_numlib)
         (default_backtester [100; 110; 121; 121; 130]%Z)
         [fz 1; fz 1; fz 0; fz 0; fz 0] Backtester.default_initial_capital
       = Ok r ∧
       length (trades r) = 1%nat ∧
       ∀ tr, tr ∈ trades r →
         ∃ d, entry_date tr = Some d ∧ date_lt d (exit_date tr).
Proof.
  eexists. split; [vm_compute; reflexivity|]. split; [reflexivity|].
  apply (C9_entry_before_exit (numlib := approx_numlib)
           (default_backtester [100; 110; 121; 121; 130]%Z)
           [fz 1; fz 1; fz 0; fz 0; fz 0] Backtester.default_initial_capital).
  - by_compute.
  - simpl. repeat constructor; simpl; lia.
  - vm_compute; reflexivity.
Defined.

Lemma run_inv {numlib : NumLib} (self : Backtester.t) (signals : Series)
    (ic : pyfloat) (r : BacktestResult) :
  Backtester.run self signals ic = Ok r →
  ∃ st s,
    for_each Backtester.loop_body
      (iterrows (Backtester.build_frame self signals ic)) locals0 = Ok st ∧
    Backtester._calc_stats
      (net_ret (Backtester.build_frame self signals ic)) (l_trades st) ic
      = Ok s ∧
    r = {| equity_curve := equity (Backtester.build_frame self signals ic);
           trades := l_trades st; stats := s |}.
Proof.
  unfold Backtester.run.
  set (df := Backtester.build_frame self signals ic).
  destruct (for_each Backtester.loop_body (iterrows df) locals0)
    as [st|e]; simpl_bind; [|intros [=]].
  destruct (Backtester._calc_stats (net_ret df) (l_trades st) ic)
    as [s|e] eqn:Hs; simpl_bind; [|intros [=]].
  intros [= <-]. by exists st, s.
Qed.

(** Without a closing transition the loop cannot raise. *)
Lemma loop_no_close (rs : list Row) (st : Locals) :
  closings (l_position st) (map row_signal rs) = 0%nat →
  ∃ st', for_each Backtester.loop_body rs st = Ok st'.
Proof.
  revert st; induction rs as [|r rs IH]; intros st; simpl; [eauto|].
  intros Hc.
  assert (fneb (l_position st) (Fin 0)
          && fneb (row_signal r) (l_position st) = false) as Hno.
  { destruct (_ && _); [simpl in Hc; lia | done]. }
  assert (∃ st1, Backtester.loop_body st r = Ok st1) as [st1 Hb].
  { unfold Backtester.loop_body. rewrite Hno.
    destruct (feqb _ _ && _); simpl; eauto. }
  rewrite Hb. simpl_bind. apply IH.
  rewrite (loop_body_position _ _ _ Hb). rewrite Hno in Hc. exact Hc.
Qed.

Lemma shift1_replicate (n : nat) (x : pyfloat) :
  shift1 (replicate (S n) x) = NaN :: replicate n x.
Proof.
  unfold shift1. rewrite length_replicate.
  change (NaN :: take n (replicate (S n) x) = NaN :: replicate n x).
  rewrite take_replicate. do 2 f_equal. lia.
Qed.

Lemma fillna_replicate (v x : pyfloat) (n : nat) :
  is_nan x = false → fillna v (replicate n x) = replicate n x.
Proof.
  intros Hx. induction n as [|n IH]; [done|].
  simpl. rewrite Hx. f_equal. exact IH.
Qed.

Lemma reindex_length (n : nat) (s : Series) :
  length s = n → reindex n s = s.
Proof. intros <-. apply reindex_id. Qed.

Lemma lagged_replicate (n : nat) (x : pyfloat) :
  is_nan x = false →
  reindex (S n) (fillna (Fin 0) (shift1 (replicate (S n) x)))
  = Fin 0 :: replicate n x.
Proof.
  intros Hx. rewrite shift1_replicate.
  change (fillna (Fin 0) (NaN :: replicate n x))
    with (Fin 0 :: fillna (Fin 0) (replicate n x)).
  rewrite fillna_replicate by done.
  apply reindex_length. simpl. by rewrite length_replicate.
Qed.

Lemma closings_hold (n : nat) :
  closings (Fin 1) (replicate n (Fin 1)) = 0%nat.
Proof. induction n as [|n IH]; [done|]. simpl. by rewrite IH. Qed.

Lemma closings_flat_then_long (n : nat) :
  closings (Fin 0) (Fin 0 :: replicate n (Fin 1)) = 0%nat.
Proof. destruct n as [|n]; [done|]. simpl. by rewrite closings_hold. Qed.

(** C4.  When the lagged position is non-zero at the last bar, the loop
    ends with a position held (entry price and date set) and that trade
    is not in the returned list: every trade returned was closed at a bar
    where the lagged position left the non-zero value of the bar before,
    and there are exactly as many trades as such bars.  In particular,
    with signal 1 on every bar the trade list is empty. *)
Theorem C4_open_trade_not_emitted {numlib : NumLib} (self : Backtester.t)
    (signals : Series) (ic : pyfloat) :
  let df := Backtester.build_frame self signals ic in
  (∀ r final_row,
     Backtester.run self signals ic = Ok r →
     last (iterrows df) = Some final_row →
     fneb (row_signal final_row) (Fin 0) = true →
     ∃ st,
       for_each Backtester.loop_body (iterrows df) locals0 = Ok st ∧
       trades r = l_trades st ∧
       l_position st = row_signal final_row ∧
       is_Some (l_entry_price st) ∧ is_Some (l_entry_date st) ∧
       (∀ tr, tr ∈ trades r → closed_by_transition (iterrows df) tr) ∧
       length (trades r) = closings (Fin 0) (signal df))
  ∧ (Backtester.data self ≠ [] →
     signals = replicate (length (Backtester.data self)) (Fin 1) →
     ∃ r, Backtester.run self signals ic = Ok r ∧ trades r = []).
Proof.
  intros df. split.
  - intros r final_row (st & s & Hloop & _ & ->)%run_inv Hlast Hnz.
    fold df in Hloop. exists st. simpl.
    pose proof (loop_pos_after _ _ Hloop) as Hpos.
    unfold pos_after in Hpos. rewrite Hlast in Hpos.
    assert (entry_set st) as Hset.
    { eapply loop_entry_set; [apply entry_set_locals0 | exact Hloop]. }
    rewrite <- Hpos in Hnz. destruct (Hset Hnz) as [? ?].
    split_and!; try done.
    + by apply loop_closed_by_transition.
    + rewrite (loop_count _ _ _ Hloop). unfold df.
      by rewrite iterrows_signal.
  - intros Hne Hsig.
    assert (closings (Fin 0) (signal df) = 0%nat) as Hc.
    { subst df. simpl. rewrite Hsig.
      destruct (Backtester.data self) as [|b bs]; [done|].
      simpl length. simpl ensure_valid_index.
      rewrite lagged_replicate by done. apply closings_flat_then_long. }
    destruct (loop_no_close (iterrows df) locals0) as [st Hloop].
    { simpl. subst df. by rewrite iterrows_signal. }
    destruct (calc_stats_ok (net_ret df) (l_trades st) ic) as [s Hs].
    { intros Hnil. apply (f_equal length) in Hnil. subst df.
      rewrite length_net_ret in Hnil. apply length_zero_iff_nil in Hnil.
      by apply frame_rows_empty in Hnil as [? ?]. }
    eexists. split.
    + unfold Backtester.run. fold df. rewrite Hloop. simpl_bind.
      rewrite Hs. simpl_bind. reflexivity.
    + simpl. apply length_zero_iff_nil.
      rewrite (loop_count _ _ _ Hloop). unfold df.
      by rewrite iterrows_signal.
Qed.

Lemma C4_open_trade_not_emitted_witness :
  let self := default_backtester [100; 110; 121; 133; 140]%Z in
  let signals := [fz 1; fz 0; fz 1; fz 1; fz 1] in
  let ic := Backtester.default_initial_capital in
  let df := Backtester.build_frame self signals ic in
  (∃ r, Backtester.run (numlib := approx_numlib) self signals ic = Ok r ∧
        length (trades r) = 1%nat ∧
        ∃ st,
          for_each Backtester.loop_body (iterrows df) locals0 = Ok st ∧
          trades r = l_trades st ∧
          l_position st = fz 1 ∧
          is_Some (l_entry_price st) ∧ is_Some (l_entry_date st) ∧
          (∀ tr, tr ∈ trades r → closed_by_transition (iterrows df) tr) ∧
          length (trades r) = closings (Fin 0) (signal df))
  ∧ (∃ r, Backtester.run (numlib := approx_numlib)
            (default_backtester [100; 110; 121]%Z)
            [Fin 1; Fin 1; Fin 1] ic = Ok r ∧
          trades r = []).
Proof.
  intros self signals ic df. split.
  - eexists. split; [vm_compute; reflexivity|]. split; [reflexivity|].
    apply (proj1 (C4_open_trade_not_emitted (numlib := approx_numlib)
                    self signals ic) _
             {| row_date := Date 4; row_close := fz 140;
                row_signal := fz 1 |}).
    + vm_compute; reflexivity.
    + vm_compute; reflexivity.
    + vm_compute; reflexivity.
  - apply (proj2 (C4_open_trade_not_emitted (numlib := approx_numlib)
                    (default_backtester [100; 110; 121]%Z)
                    [Fin 1; Fin 1; Fin 1] ic)).
    + by_compute.
    + reflexivity.
Defined.

(** ** The flip *)

Lemma shift1_lookup_S (s : Series) (i : nat) :
  (S i < length s)%nat → shift1 s !! S i = s !! i.
Proof. intros Hi. unfold shift1. by rewrite lookup_take_lt. Qed.

Lemma diff_lookup_S (s : Series) (i : nat) (a b : pyfloat) :
  s !! i = Some a → s !! S i = Some b → diff s !! S i = Some (b - a)%F.
Proof.
  intros Ha Hb. unfold diff, series_sub.
  rewrite lookup_zip_with, Hb, shift1_lookup_S, Ha; [done|].
  by apply lookup_lt_Some in Hb.
Qed.

Lemma trade_change_lookup_S (self : Backtester.t) (signals : Series)
    (ic : pyfloat) (i : nat) (a b : pyfloat) :
  let df := Backtester.build_frame self signals ic in
  signal df !! i = Some a → signal df !! S i = Some b →
  trade_change df !! S i
  = Some (if is_nan (fabs (b - a)) then Fin 0 else fabs (b - a)).
Proof.
  intros df Ha Hb.
  change (trade_change df)
    with (fillna (Fin 0) (series_abs (diff (signal df)))).
  unfold fillna, series_abs.
  rewrite !lookup_map, (diff_lookup_S _ _ _ _ Ha Hb). done.
Qed.

Lemma loop_prefix (rs : list Row) (k : nat) (st st' : Locals) :
  for_each Backtester.loop_body rs st = Ok st' →
  ∃ st1, for_each Backtester.loop_body (take k rs) st = Ok st1 ∧
         for_each Backtester.loop_body (drop k rs) st1 = Ok st'.
Proof.
  rewrite <- (take_drop k rs) at 1. rewrite for_each_app.
  destruct (for_each Backtester.loop_body (take k rs) st) as [st1|e];
    simpl_bind; [|intros [=]].
  intros H. by exists st1.
Qed.

(** C7.  Where the lagged position goes from 1 at one bar straight to
    -1 at the next, the loop, holding the long position, closes it at
    that next bar (exit date and price are the bar's) and in the same
    step opens the short one (position -1, entry date and price are
    the same bar's); the closing trade is in the list [run] returns,
    and the bar's [trade_change] is 2. *)
Theorem C7_flip {numlib : NumLib} (self : Backtester.t) (signals : Series)
    (ic : pyfloat) (r : BacktestResult) (i : nat) (prev cur : Row) :
  let df := Backtester.build_frame self signals ic in
  Backtester.run self signals ic = Ok r →
  iterrows df !! i = Some prev → iterrows df !! S i = Some cur →
  row_signal prev = fz 1 → row_signal cur = fz (-1) →
  trade_change df !! S i = Some (fz 2) ∧
  ∃ st ep,
    for_each Backtester.loop_body (take (S i) (iterrows df)) locals0 = Ok st ∧
    l_position st = fz 1 ∧ l_entry_price st = Some ep ∧
    Backtester.loop_body st cur
    = Ok {| l_trades := l_trades st ++ [closing_trade st ep cur];
            l_position := fz (-1);
            l_entry_price := Some (row_close cur);
            l_entry_date := Some (row_date cur) |} ∧
    exit_date (closing_trade st ep cur) = row_date cur ∧
    exit_price (closing_trade st ep cur) = row_close cur ∧
    closing_trade st ep cur ∈ trades r.
Proof.
  intros df (stf & s & Hloop & _ & ->)%run_inv Hprev Hcur Hp Hc.
  fold df in Hloop. split.
  - apply (iterrows_lookup self signals ic) in Hprev as [Hprev _].
    apply (iterrows_lookup self signals ic) in Hcur as [Hcur _].
    rewrite Hp in Hprev. rewrite Hc in Hcur. unfold df.
    rewrite (trade_change_lookup_S _ _ _ _ _ _ Hprev Hcur).
    by_compute.
  - destruct (loop_prefix _ (S i) _ _ Hloop) as (st & Hpre & Hpost).
    rewrite (drop_S _ _ _ Hcur) in Hpost. simpl in Hpost.
    destruct (Backtester.loop_body st cur) as [st2|e] eqn:Hb;
      revert Hpost; simpl_bind; [|intros [=]].
    intros Hpost.
    assert (l_position st = fz 1) as Hpos.
    { rewrite (loop_pos_after _ _ Hpre). unfold pos_after.
      rewrite last_lookup, length_take.
      apply lookup_lt_Some in Hprev as Hlt.
      replace (pred (S i `min` length (iterrows df))) with i by lia.
      rewrite lookup_take_lt by lia. by rewrite Hprev. }
    apply loop_body_cases in Hb as Hcases.
    destruct Hcases
      as [(Hz & _) | [(_ & _ & ep & Hep & _ & Hst2) | (_ & Heq & _)]].
    + rewrite Hpos in Hz. by apply (f_equal (feqb (fz 1))) in Hz.
    + exists st, ep. split; [done|]. split; [done|]. split; [done|].
      assert (st2 = {| l_trades := l_trades st ++ [closing_trade st ep cur];
                       l_position := fz (-1);
                       l_entry_price := Some (row_close cur);
                       l_entry_date := Some (row_date cur) |}) as Hst2'.
      { rewrite Hst2, Hc. done. }
      split; [by rewrite <- Hst2'|]. split; [done|]. split; [done|].
      apply loop_trades_grow in Hpost as [new Hnew].
      simpl. rewrite Hnew, Hst2'. simpl.
      apply elem_of_app. left. apply elem_of_app. right.
      by apply list_elem_of_singleton.
    + rewrite Hpos, Hc in Heq. by apply (f_equal (feqb (fz 1))) in Heq.
Qed.

Lemma C7_flip_witness :
  let self := default_backtester [100; 110; 121; 110; 99]%Z in
  let signals := [fz 1; fz 1; fz (-1); fz (-1); fz 0] in
  let ic := Backtester.default_initial_capital in
  let df := Backtester.build_frame self signals ic in
  let cur := {| row_date := Date 3; row_close := fz 110;
                row_signal := fz (-1) |} in
  trade_change df !! 3%nat = Some (fz 2) ∧
  ∃ st ep,
    for_each Backtester.loop_body (take 3 (iterrows df)) locals0 = Ok st ∧
    l_position st = fz 1 ∧ l_entry_price st = Some ep ∧
    Backtester.loop_body st cur
    = Ok {| l_trades := l_trades st ++ [closing_trade st ep cur];
            l_position := fz (-1);
            l_entry_price := Some (row_close cur);
            l_entry_date := Some (row_date cur) |} ∧
    exit_date (closing_trade st ep cur) = row_date cur ∧
    exit_price (closing_trade st ep cur) = row_close cur ∧
    ∃ r, Backtester.run (numlib := approx_numlib) self signals ic = Ok r ∧
         closing_trade st ep cur ∈ trades r.
Proof.
  intros self signals ic df cur.
  assert (∃ r, Backtester.run (numlib := approx_numlib) self signals ic = Ok r)
    as [r Hr] by (eexists; vm_compute; reflexivity).
  destruct (C7_flip (numlib := approx_numlib) self signals ic r 2
              {| row_date := Date 2; row_close := fz 121;
                 row_signal := fz 1 |} cur Hr)
    as (Htc & st & ep & H1 & H2 & H3 & H4 & H5 & H6 & H7);
    [vm_compute; reflexivity | vm_compute; reflexivity
    | reflexivity | reflexivity |].
  split; [exact Htc|]. exists st, ep. repeat (split; [assumption|]).
  exists r. by split.
Defined.

(** ** The round trip of the specification's example *)

(** C1, as stated, fails.  With closes [100, 110, 121, 121] and signal
    [0, 1, 1, 0] no trade is returned at all, so there is none entered
    at 110 and left at 121. *)
Lemma C1_counterexample :
  let self := default_backtester [100; 110; 121; 121]%Z in
  let signals := [fz 0; fz 1; fz 1; fz 0] in
  let ic := Backtester.default_initial_capital in
  let df := Backtester.build_frame self signals ic in
  ¬ (signal df = [fz 0; fz 0; fz 1; fz 1] ∧
     (∃ r tr, Backtester.run (numlib := approx_numlib) self signals ic = Ok r ∧
              trades r = [tr] ∧
              entry_price tr = fz 110 ∧ exit_price tr = fz 121 ∧
              pnl tr = fq 1 10) ∧
     (∀ i c, costs df !! i = Some c →
             c ≠ Fin 0 ↔ (i = 1 ∨ i = 3)%nat)).
Proof.
  intros self signals ic df (_ & (r & tr & Hrun & Htr & _) & _).
  vm_compute in Hrun. injection Hrun as <-. discriminate Htr.
Qed.

(** C1, amended.  For closes [100, 110, 121, 121] and signal
    [0, 1, 1, 0] the lagged position is [0, 0, 1, 1]; it changes at bar
    index 2 only, so the cost term is non-zero at index 2 only (and
    zero at indices 0, 1 and 3); the loop opens a long position at
    index 2 (entry price 121) which is still held at the end, and [run]
    returns an empty trade list. *)
Theorem C1_round_trip {numlib : NumLib} (ic : pyfloat) :
  let self := default_backtester [100; 110; 121; 121]%Z in
  let signals := [fz 0; fz 1; fz 1; fz 0] in
  let df := Backtester.build_frame self signals ic in
  signal df = [fz 0; fz 0; fz 1; fz 1] ∧
  trade_change df = [fz 0; fz 0; fz 1; fz 0] ∧
  costs df = [fz 0; fz 0; fq 9 2000; fz 0] ∧
  for_each Backtester.loop_body (iterrows df) locals0
  = Ok {| l_trades := []; l_position := fz 1;
          l_entry_price := Some (fz 121);
          l_entry_date := Some (Date 2) |} ∧
  ∃ r, Backtester.run self signals ic = Ok r ∧ trades r = [].
Proof.
  intros self signals df.
  split; [by_compute|]. split; [by_compute|]. split; [by_compute|].
  split; [vm_compute; reflexivity|].
  eexists. split; [vm_compute; reflexivity | reflexivity].
Qed.

(** ** Volatility of a single bar *)

Section Degenerate.
Context {numlib : NumLib}.

Lemma length_dropna (s : Series) : (length (dropna s) ≤ length s)%nat.
Proof. apply length_filter. Qed.

Lemma std_short (s : Series) : (length s ≤ 1)%nat → std s = NaN.
Proof.
  intros Hs. unfold std. pose proof (length_dropna s).
  destruct (Nat.leb_spec (length (dropna s)) 1); [done | lia].
Qed.

(** C3.  The code does not do what the claim says: on a single bar
    [returns.std()] is [NaN] (one observation, [ddof=1]) and, there
    being no guard on it, [NaN] is what [run] reports as Volatility,
    for any bar, signal series, capital and cost rates. *)
Theorem C3_volatility_single_bar (bar : PriceBar) (signals : Series)
    (ic c s : pyfloat) :
  ∃ r, Backtester.run (Backtester.init [bar] c s) signals ic = Ok r ∧
       Volatility (stats r) = NaN.
Proof.
  set (self := Backtester.init [bar] c s).
  set (df := Backtester.build_frame self signals ic).
  assert (length (net_ret df) = 1%nat) as Hlen.
  { unfold df. by rewrite length_net_ret. }
  destruct (loop_no_close (iterrows df) locals0) as [st Hloop].
  { unfold df. rewrite iterrows_signal.
    pose proof (length_signal self signals ic) as Hs. fold df in Hs.
    change (length (rows df)) with 1%nat in Hs. fold df.
    destruct (signal df) as [|x [|y l]]; try done. }
  destruct (calc_stats_ok (net_ret df) (l_trades st) ic) as [sts Hsts].
  { intros Hnil. by rewrite Hnil in Hlen. }
  eexists. split.
  - unfold Backtester.run. fold self df. rewrite Hloop. simpl_bind.
    rewrite Hsts. simpl_bind. reflexivity.
  - cbn [stats]. revert Hsts. unfold Backtester._calc_stats.
    destruct (iloc_last _) as [final|e]; simpl_bind; [|intros [=]].
    intros [= <-]. cbn [Volatility].
    rewrite std_short; [done|].
    change (length (net_ret df) ≤ 1)%nat. lia.
Qed.
End Degenerate.

(** ** The two variants *)

(** C8.  With the same cost rates and [bars_per_year = 252],
    [BacktesterMin.run] returns what [Backtester.run] returns: the same
    equity curve, trades and statistics, or the same exception. *)
Theorem C8_variants_agree {numlib : NumLib} (data : DataFrame)
    (signals : Series) (ic c s : pyfloat) :
  BacktesterMin.run (BacktesterMin.init data c s 252) signals ic
  = Backtester.run (Backtester.init data c s) signals ic.
Proof.
  unfold BacktesterMin.run, Backtester.run.
  assert (BacktesterMin.build_frame (BacktesterMin.init data c s 252)
            signals ic
          = Backtester.build_frame (Backtester.init data c s) signals ic)
    as -> by reflexivity.
  assert (BacktesterMin.loop_body = Backtester.loop_body) as ->
    by reflexivity.
  destruct (for_each _ _ _) as [st|e]; simpl_bind; [|done].
  assert (∀ returns ts,
            BacktesterMin._calc_stats (BacktesterMin.init data c s 252)
              returns ts ic
            = Backtester._calc_stats returns ts ic) as ->
    by reflexivity.
  done.
Qed.

(** ** Series without gaps *)

Lemma map_fmap {A B} (f : A → B) (l : list A) : map f l = f <$> l.
Proof. reflexivity. Qed.

Lemma ffill_from_id (p : pyfloat) (s : Series) :
  Forall (fun x => is_nan x = false) s → ffill_from p s = s.
Proof.
  intros Hs. revert p. induction Hs as [|x s Hx _ IH]; intros p; [done|].
  simpl. rewrite Hx. f_equal. apply IH.
Qed.

Lemma finite_not_nan (x : pyfloat) : is_finite x = true → is_nan x = false.
Proof. by destruct x. Qed.

Lemma pos_finite_inv (x : pyfloat) :
  pos_finite x = true → ∃ q, x = Fin q ∧ q ≠ 0.
Proof.
  destruct x as [|b|q]; try done. unfold pos_finite. simpl.
  intros Hq%bool_decide_eq_true. exists q. split; [done|].
  intros ->. by apply Qclt_not_eq in Hq.
Qed.

Lemma pos_finite_not_nan (s : Series) :
  Forall (fun x => pos_finite x = true) s →
  Forall (fun x => is_nan x = false) s.
Proof.
  intros Hs. eapply Forall_impl; [exact Hs|].
  intros x (q & -> & _)%pos_finite_inv. done.
Qed.

Lemma shift1_lookup_0 (s : Series) : s ≠ [] → shift1 s !! 0%nat = Some NaN.
Proof. destruct s; [done|]. done. Qed.

(** The market return: [0] at the first bar, [close[t]/close[t-1] - 1]
    after it. *)
Lemma ret_lookup_0 (cl : Series) :
  cl ≠ [] → fillna (Fin 0) (pct_change cl) !! 0%nat = Some (Fin 0).
Proof.
  intros Hne. unfold fillna, pct_change, series_sub_scalar, series_div.
  rewrite !lookup_map, lookup_zip_with.
  destruct cl as [|x cl]; [done|]. simpl.
  by destruct (if is_nan x then NaN else x).
Qed.

Lemma ret_lookup_S (cl : Series) (k : nat) (a b : pyfloat) :
  Forall (fun x => pos_finite x = true) cl →
  cl !! k = Some a → cl !! S k = Some b →
  fillna (Fin 0) (pct_change cl) !! S k = Some (b / a - Fin 1)%F ∧
  is_finite (b / a - Fin 1)%F = true.
Proof.
  intros Hpos Ha Hb.
  pose proof (Forall_lookup_1 _ _ _ _ Hpos Ha) as (qa & -> & Hqa)%pos_finite_inv.
  pose proof (Forall_lookup_1 _ _ _ _ Hpos Hb) as (qb & -> & Hqb)%pos_finite_inv.
  assert (is_finite (Fin qb / Fin qa - Fin 1)%F = true) as Hfin.
  { simpl. by destruct (decide (qa = 0)). }
  split; [|done].
  unfold fillna, pct_change, series_sub_scalar, series_div, ffill.
  rewrite ffill_from_id by by apply pos_finite_not_nan.
  rewrite !lookup_map, lookup_zip_with, Hb, shift1_lookup_S, Ha.
  - simpl. by destruct (decide (qa = 0)).
  - by apply lookup_lt_Some in Hb.
Qed.

Lemma ret_finite (cl : Series) :
  Forall (fun x => pos_finite x = true) cl →
  Forall (fun x => is_finite x = true) (fillna (Fin 0) (pct_change cl)).
Proof.
  intros Hpos. apply Forall_lookup. intros i x Hi.
  assert (i < length cl)%nat as Hlt.
  { apply lookup_lt_Some in Hi.
    by rewrite length_fillna, length_pct_change in Hi. }
  destruct i as [|k].
  - rewrite ret_lookup_0 in Hi; [by injection Hi as <-|].
    intros ->. simpl in Hlt. lia.
  - destruct (lookup_lt_is_Some_2 cl k) as [a Ha]; [lia|].
    destruct (lookup_lt_is_Some_2 cl (S k)) as [b Hb]; [lia|].
    destruct (ret_lookup_S cl k a b Hpos Ha Hb) as [Heq Hfin].
    rewrite Heq in Hi. by injection Hi as <-.
Qed.

(** ** The flat signal *)

Lemma fmul_0_map (r : Series) :
  Forall (fun x => is_finite x = true) r →
  map (fmul (Fin 0)) r = replicate (length r) (Fin 0).
Proof.
  induction 1 as [|x r Hx _ IH]; [done|].
  cbn [map length replicate]. by rewrite fmul_0_l_finite, IH.
Qed.

Lemma series_mul_zeros (n : nat) (r : Series) :
  length r = n → Forall (fun x => is_finite x = true) r →
  series_mul (replicate n (Fin 0)) r = replicate n (Fin 0).
Proof.
  intros Hlen Hr. unfold series_mul.
  rewrite zip_with_replicate_l by lia.
  rewrite <- map_fmap, fmul_0_map by done. by rewrite Hlen.
Qed.

Lemma trade_change_zeros (n : nat) :
  fillna (Fin 0) (series_abs (diff (replicate n (Fin 0))))
  = replicate n (Fin 0).
Proof.
  destruct n as [|n]; [done|].
  unfold diff, series_sub. rewrite shift1_replicate, replicate_S.
  cbn [zip_with]. rewrite zip_with_replicate.
  unfold series_abs, fillna. cbn [map]. f_equal.
  rewrite !map_fmap, !fmap_replicate. by f_equal.
Qed.

Lemma series_mul_scalar_zeros (n : nat) (c : pyfloat) :
  is_finite c = true →
  series_mul_scalar (replicate n (Fin 0)) c = replicate n (Fin 0).
Proof.
  intros Hc. unfold series_mul_scalar.
  by rewrite map_fmap, fmap_replicate, fmul_0_l_finite.
Qed.

Lemma series_sub_zeros (n : nat) :
  series_sub (replicate n (Fin 0)) (replicate n (Fin 0))
  = replicate n (Fin 0).
Proof.
  unfold series_sub. rewrite zip_with_replicate. by f_equal.
Qed.

Lemma cumprod_from_ones (n : nat) :
  cumprod_from (Fin 1) (replicate n (Fin 1)) = replicate n (Fin 1).
Proof.
  induction n as [|n IH]; [done|].
  cbn [replicate cumprod_from is_nan]. rewrite fmul_1_l. f_equal. exact IH.
Qed.

Lemma gross_zeros (n : nat) :
  cumprod (series_add_scalar (Fin 1) (replicate n (Fin 0)))
  = replicate n (Fin 1).
Proof.
  unfold cumprod, series_add_scalar. rewrite map_fmap, fmap_replicate.
  assert ((Fin 1 + Fin 0)%F = Fin 1) as -> by by_compute.
  apply cumprod_from_ones.
Qed.

Lemma cummax_from_ones (n : nat) :
  cummax_from (Some (Fin 1)) (replicate n (Fin 1)) = replicate n (Fin 1).
Proof. induction n as [|n IH]; [done|]. simpl. f_equal. exact IH. Qed.

Lemma cummax_ones (n : nat) :
  cummax (replicate n (Fin 1)) = replicate n (Fin 1).
Proof.
  destruct n as [|n]; [done|]. unfold cummax. simpl. f_equal.
  apply cummax_from_ones.
Qed.

Lemma dropna_replicate (n : nat) (x : pyfloat) :
  is_nan x = false → dropna (replicate n x) = replicate n x.
Proof.
  intros Hx. unfold dropna. induction n as [|n IH]; [done|].
  simpl. rewrite filter_cons_True by done. f_equal. exact IH.
Qed.

Lemma fsum_zeros (n : nat) : fsum (replicate n (Fin 0)) = Fin 0.
Proof.
  unfold fsum. induction n as [|n IH]; [done|].
  cbn [replicate foldl]. by rewrite fadd_0_l.
Qed.

Lemma foldl_fmin_zeros (n : nat) :
  foldl fmin (Fin 0) (replicate n (Fin 0)) = Fin 0.
Proof. induction n as [|n IH]; [done|]. simpl. exact IH. Qed.

Lemma series_min_zeros (n : nat) : series_min (replicate (S n) (Fin 0)) = Fin 0.
Proof.
  unfold series_min. rewrite dropna_replicate by done.
  simpl. apply foldl_fmin_zeros.
Qed.

Lemma fz_nat_nonzero (n : nat) :
  Q2Qc (inject_Z (Z.of_nat (S n))) ≠ 0.
Proof.
  intros H. apply Q2Qc_eq_iff in H.
  unfold Qeq in H. simpl in H. lia.
Qed.

Lemma fdiv_0_nat (n : nat) : (Fin 0 / fz (Z.of_nat (S n)))%F = Fin 0.
Proof.
  unfold fz, fdiv.
  destruct (decide (Q2Qc (inject_Z (Z.of_nat (S n))) = 0)) as [H|_].
  - by apply fz_nat_nonzero in H.
  - f_equal. unfold Qcdiv. ring.
Qed.

Section FlatStats.
Context {numlib : NumLib}.

Lemma std_zeros (n : nat) :
  std (replicate n (Fin 0)) = if (n <=? 1)%nat then NaN else Fin 0.
Proof.
  unfold std. rewrite dropna_replicate by done.
  rewrite length_replicate.
  destruct n as [|[|n]]; [done | done |].
  change (S (S n) <=? 1)%nat with false. cbv iota.
  rewrite fsum_zeros, fdiv_0_nat.
  rewrite map_fmap, fmap_replicate.
  assert (((Fin 0 - Fin 0) * (Fin 0 - Fin 0))%F = Fin 0) as -> by by_compute.
  rewrite fsum_zeros.
  replace (S (S n) - 1)%nat with (S n) by lia.
  rewrite fdiv_0_nat. by_compute.
Qed.

Lemma calc_stats_zeros (n : nat) (ic : pyfloat) :
  ∃ s, Backtester._calc_stats (replicate (S n) (Fin 0)) [] ic = Ok s ∧
       Volatility s = (if (S n <=? 1)%nat then NaN else Fin 0) ∧
       Sharpe s = Fin 0 ∧ Sortino s = Fin 0 ∧ MaxDD s = Fin 0 ∧
       Winrate s = Fin 0 ∧ Final_Equity s = ic.
Proof.
  unfold Backtester._calc_stats. rewrite gross_zeros.
  assert (iloc_last (replicate (S n) (Fin 1)) = Ok (Fin 1)) as ->.
  { unfold iloc_last. rewrite replicate_S_end. by rewrite last_snoc. }
  simpl_bind. eexists. split; [reflexivity|]. cbn [Volatility Sharpe Sortino MaxDD Winrate Final_Equity].
  assert (is_finite (fsqrt (fz 252)) = true) as Hsq by reflexivity.
  assert ((std (replicate (S n) (Fin 0)) * fsqrt (fz 252))%F
          = if (S n <=? 1)%nat then NaN else Fin 0) as Hvol.
  { rewrite std_zeros. destruct (S n <=? 1)%nat; [done|].
    by apply fmul_0_l_finite. }
  assert (select_lt (replicate (S n) (Fin 0)) (Fin 0) = []) as Hneg.
  { unfold select_lt. generalize (S n). intros m.
    induction m as [|m IH]; [done|]. simpl.
    rewrite filter_cons_False; [exact IH|]. by_compute. }
  rewrite Hvol, Hneg. split; [done|].
  split; [by destruct (S n <=? 1)%nat|]. split; [done|].
  split.
  - rewrite cummax_ones. unfold series_div. rewrite zip_with_replicate.
    assert ((Fin 1 / Fin 1)%F = Fin 1) as -> by by_compute.
    unfold series_sub_scalar. rewrite map_fmap, fmap_replicate.
    assert ((Fin 1 - Fin 1)%F = Fin 0) as -> by by_compute.
    apply series_min_zeros.
  - split; [done|]. apply fmul_1_l.
Qed.
End FlatStats.

Lemma closings_zeros (n : nat) :
  closings (Fin 0) (replicate n (Fin 0)) = 0%nat.
Proof. induction n as [|n IH]; [done|]. simpl. exact IH. Qed.

Section Flat.
Context {numlib : NumLib}.
Context (self : Backtester.t) (ic : pyfloat).
Let n := length (Backtester.data self).
Let df := Backtester.build_frame self (replicate n (Fin 0)) ic.

Hypothesis data_nonempty : Backtester.data self ≠ [].
Hypothesis closes_positive :
  Forall (fun b => pos_finite (close b) = true) (Backtester.data self).
Hypothesis commission_finite : is_finite (Backtester.commission self) = true.
Hypothesis slippage_finite : is_finite (Backtester.slippage self) = true.

Lemma flat_rows : rows df = Backtester.data self.
Proof. by apply frame_rows_nonempty. Qed.

Lemma flat_signal : signal df = replicate n (Fin 0).
Proof.
  unfold df, Backtester.build_frame. cbn [signal]. subst n.
  destruct (Backtester.data self) as [|b bs]; [done|].
  cbn [length ensure_valid_index]. by rewrite lagged_replicate.
Qed.

Lemma flat_net_ret : net_ret df = replicate n (Fin 0).
Proof.
  pose proof flat_signal as Hsig. pose proof flat_rows as Hrows.
  unfold df, Backtester.build_frame in *. cbn [signal rows net_ret] in *.
  rewrite Hsig, Hrows.
  rewrite series_mul_zeros.
  - rewrite trade_change_zeros, series_mul_scalar_zeros.
    + apply series_sub_zeros.
    + by apply fadd_finite.
  - by rewrite length_fillna, length_pct_change, length_map.
  - apply ret_finite. by apply Forall_map.
Qed.

Lemma flat_equity : equity df = replicate n ic.
Proof.
  pose proof flat_net_ret as Hnet.
  unfold df, Backtester.build_frame in *. cbn [equity net_ret] in *.
  rewrite Hnet, gross_zeros. unfold series_mul_scalar.
  by rewrite map_fmap, fmap_replicate, fmul_1_l.
Qed.

Lemma flat_trades :
  ∃ st, for_each Backtester.loop_body (iterrows df) locals0 = Ok st ∧
        l_trades st = [].
Proof.
  assert (closings (Fin 0) (map row_signal (iterrows df)) = 0%nat) as Hc.
  { unfold df. rewrite iterrows_signal. fold df.
    rewrite flat_signal. apply closings_zeros. }
  destruct (loop_no_close (iterrows df) locals0 Hc) as [st Hst].
  exists st. split; [done|]. apply length_zero_iff_nil.
  rewrite (loop_count _ _ _ Hst). exact Hc.
Qed.

End Flat.

(** C6.  On the flat signal, for positive finite closes and finite cost
    rates, [run] returns the equity curve constant at the initial
    capital, no trade, Sharpe, Sortino, MaxDD and Winrate equal to 0
    and the initial capital as Final Equity.  Volatility is 0 from two
    bars on; on a single bar the code reports [NaN], against the claim
    (the unguarded [returns.std()] of C3). *)
Theorem C6_all_flat {numlib : NumLib} (self : Backtester.t) (ic : pyfloat) :
  let n := length (Backtester.data self) in
  Backtester.data self ≠ [] →
  Forall (fun b => pos_finite (close b) = true) (Backtester.data self) →
  is_finite (Backtester.commission self) = true →
  is_finite (Backtester.slippage self) = true →
  ∃ r, Backtester.run self (replicate n (Fin 0)) ic = Ok r ∧
       equity_curve r = replicate n ic ∧
       trades r = [] ∧
       Volatility (stats r) = (if (n <=? 1)%nat then NaN else Fin 0) ∧
       Sharpe (stats r) = Fin 0 ∧
       Sortino (stats r) = Fin 0 ∧
       MaxDD (stats r) = Fin 0 ∧
       Winrate (stats r) = Fin 0 ∧
       Final_Equity (stats r) = ic.
Proof.
  intros n Hne Hpos Hc Hs.
  set (df := Backtester.build_frame self (replicate n (Fin 0)) ic).
  destruct (flat_trades self ic) as (st & Hloop & Htr); [done..|].
  fold n df in Hloop.
  assert (∃ m, n = S m) as [m Hn].
  { subst n. destruct (Backtester.data self); [done | eauto]. }
  destruct (calc_stats_zeros m ic) as (s & Hstats & Hvalues).
  exists {| equity_curve := equity df; trades := l_trades st; stats := s |}.
  split.
  - unfold Backtester.run. fold df. rewrite Hloop. simpl_bind.
    unfold df. rewrite flat_net_ret by done. fold n df.
    rewrite Htr, Hn, Hstats. by simpl_bind.
  - cbn [equity_curve trades stats]. unfold df.
    rewrite flat_equity by done. fold n. rewrite Hn.
    split; [done|]. split; [done|]. exact Hvalues.
Qed.

Lemma C6_all_flat_witness :
  let self := default_backtester [100]%Z in
  ∃ r, Backtester.run (numlib := approx_numlib) self [Fin 0]
         Backtester.default_initial_capital = Ok r ∧
       equity_curve r = [Backtester.default_initial_capital] ∧
       trades r = [] ∧
       Volatility (stats r) = NaN ∧
       Sharpe (stats r) = Fin 0 ∧
       Sortino (stats r) = Fin 0 ∧
       MaxDD (stats r) = Fin 0 ∧
       Winrate (stats r) = Fin 0 ∧
       Final_Equity (stats r) = Backtester.default_initial_capital.
Proof.
  intros self.
  apply (C6_all_flat (numlib := approx_numlib) self
           Backtester.default_initial_capital).
  - by_compute.
  - by_compute.
  - reflexivity.
  - reflexivity.
Defined.

(** On three bars the flat signal gives Volatility 0. *)
Lemma all_flat_three_bars :
  ∃ r, Backtester.run (numlib := approx_numlib)
         (default_backtester [100; 110; 121]%Z) [Fin 0; Fin 0; Fin 0]
         Backtester.default_initial_capital = Ok r ∧
       Volatility (stats r) = Fin 0.
Proof. eexists. split; [vm_compute; reflexivity | by_compute]. Qed.

(** ** Without costs *)

Lemma series_sub_zeros_r (s : Series) (n : nat) :
  length s = n → series_sub s (replicate n (Fin 0)) = s.
Proof.
  intros Hlen. unfold series_sub. rewrite zip_with_replicate_r_eq by done.
  rewrite <- (list_fmap_id s) at 2. apply list_fmap_ext.
  intros i x _. apply fsub_0_r.
Qed.

Lemma shift1_elem (s : Series) (i : nat) (y : pyfloat) :
  shift1 s !! i = Some y → y = NaN ∨ y ∈ s.
Proof.
  unfold shift1. intros [Hy _]%lookup_take_Some.
  destruct i as [|i]; simpl in Hy.
  - left. by injection Hy as <-.
  - right. by eapply list_elem_of_lookup_2.
Qed.

Lemma trade_change_finite (s : Series) :
  Forall (fun x => is_finite x = true) s →
  Forall (fun x => is_finite x = true)
         (fillna (Fin 0) (series_abs (diff s))).
Proof.
  intros Hs. unfold fillna, series_abs, diff, series_sub.
  apply Forall_map, Forall_map, Forall_lookup.
  intros i z (x & y & -> & Hx & Hy)%lookup_zip_with_Some.
  pose proof (Forall_lookup_1 _ _ _ _ Hs Hx) as Hfx.
  destruct (shift1_elem _ _ _ Hy) as [-> | Hin].
  - by destruct x.
  - rewrite Forall_forall in Hs. specialize (Hs _ Hin).
    by destruct x, y.
Qed.

Lemma costs_zero (tc : Series) :
  Forall (fun x => is_finite x = true) tc →
  series_mul_scalar tc (Fin 0 + Fin 0)%F = replicate (length tc) (Fin 0).
Proof.
  assert ((Fin 0 + Fin 0)%F = Fin 0) as -> by by_compute.
  unfold series_mul_scalar.
  induction 1 as [|x tc Hx _ IH]; [done|].
  cbn [map length replicate]. by rewrite fmul_0_r_finite, IH.
Qed.

(** Without [NaN] entries the last entry of [cumprod] is the plain
    product. *)
Lemma cumprod_from_last (a : pyfloat) (s : Series) :
  s ≠ [] → Forall (fun x => is_nan x = false) s →
  last (cumprod_from a s) = Some (foldl fmul a s).
Proof.
  intros Hne Hs. revert a.
  induction Hs as [|x s Hx Hs IH]; intros a; [done|].
  cbn [cumprod_from foldl]. rewrite Hx.
  destruct s as [|y s]; [done|].
  rewrite <- IH by done. cbn [cumprod_from].
  by destruct (is_nan y).
Qed.

Lemma lagged_lookup_0 (sig : Series) :
  sig ≠ [] →
  reindex (length sig) (fillna (Fin 0) (shift1 sig)) !! 0%nat
  = Some (Spec.LaggedPosition sig 0).
Proof.
  intros Hne. rewrite reindex_length
    by by rewrite length_fillna, length_shift1.
  unfold fillna. rewrite lookup_map, shift1_lookup_0 by done. done.
Qed.

Lemma lagged_lookup_S (sig : Series) (k : nat) :
  Forall (fun x => is_finite x = true) sig →
  (S k < length sig)%nat →
  reindex (length sig) (fillna (Fin 0) (shift1 sig)) !! S k
  = Some (Spec.LaggedPosition sig (S k)).
Proof.
  intros Hfin Hk. rewrite reindex_length
    by by rewrite length_fillna, length_shift1.
  unfold fillna. rewrite lookup_map, shift1_lookup_S by done.
  destruct (lookup_lt_is_Some_2 sig k) as [x Hx]; [lia|].
  rewrite Hx. cbn [fmap option_fmap option_map Spec.LaggedPosition].
  rewrite (nth_lookup_Some _ _ _ _ Hx).
  by rewrite (finite_not_nan _ (Forall_lookup_1 _ _ _ _ Hfin Hx)).
Qed.

Lemma market_return_lookup (cl : Series) (i : nat) :
  Forall (fun x => pos_finite x = true) cl → (i < length cl)%nat →
  fillna (Fin 0) (pct_change cl) !! i = Some (Spec.MarketReturn cl i).
Proof.
  intros Hpos Hi. destruct i as [|k].
  - apply ret_lookup_0. intros ->. simpl in Hi. lia.
  - destruct (lookup_lt_is_Some_2 cl k) as [a Ha]; [lia|].
    destruct (lookup_lt_is_Some_2 cl (S k)) as [b Hb]; [lia|].
    destruct (ret_lookup_S cl k a b Hpos Ha Hb) as [-> _].
    cbn [Spec.MarketReturn].
    by rewrite (nth_lookup_Some _ _ _ _ Ha), (nth_lookup_Some _ _ _ _ Hb).
Qed.

Lemma lagged_finite (sig : Series) (i : nat) :
  Forall (fun x => is_finite x = true) sig → (i < length sig)%nat →
  is_finite (Spec.LaggedPosition sig i) = true.
Proof.
  intros Hfin Hi. destruct i as [|k]; [done|].
  destruct (lookup_lt_is_Some_2 sig k) as [x Hx]; [lia|].
  cbn [Spec.LaggedPosition]. rewrite (nth_lookup_Some _ _ _ _ Hx).
  by apply (Forall_lookup_1 _ _ _ _ Hfin Hx).
Qed.

Lemma market_return_finite (cl : Series) (i : nat) :
  Forall (fun x => pos_finite x = true) cl → (i < length cl)%nat →
  is_finite (Spec.MarketReturn cl i) = true.
Proof.
  intros Hpos Hi.
  pose proof (market_return_lookup cl i Hpos Hi) as Hl.
  by apply (Forall_lookup_1 _ _ _ _ (ret_finite cl Hpos) Hl).
Qed.

Lemma fmul_finite (x y : pyfloat) :
  is_finite x = true → is_finite y = true → is_finite (x * y)%F = true.
Proof. by destruct x, y. Qed.

Section NoCosts.
Context {numlib : NumLib}.
Context (data : DataFrame) (signals : Series) (ic : pyfloat).
Let self := Backtester.init data (Fin 0) (Fin 0).
Let df := Backtester.build_frame self signals ic.
Let n := length data.

Hypothesis data_nonempty : data ≠ [].
Hypothesis same_length : length signals = length data.
Hypothesis closes_positive :
  Forall (fun b => pos_finite (close b) = true) data.
Hypothesis signals_finite : Forall (fun x => is_finite x = true) signals.

Lemma nocost_rows : rows df = data.
Proof. by apply (frame_rows_nonempty self). Qed.

Lemma nocost_signal_lookup (i : nat) :
  (i < n)%nat → signal df !! i = Some (Spec.LaggedPosition signals i).
Proof.
  intros Hi.
  assert (ensure_valid_index (Backtester.data self)
            (fillna (Fin 0) (shift1 signals)) = data) as Hrows
    by apply nocost_rows.
  unfold df, Backtester.build_frame. cbn [signal].
  rewrite Hrows. rewrite <- same_length. subst n.
  destruct i as [|k].
  - apply lagged_lookup_0. intros ->. simpl in same_length.
    destruct data; [done | simpl in *; lia].
  - apply lagged_lookup_S; [done | lia].
Qed.

Lemma nocost_signal_finite : Forall (fun x => is_finite x = true) (signal df).
Proof.
  apply Forall_lookup. intros i x Hi.
  assert (i < n)%nat as Hlt.
  { apply lookup_lt_Some in Hi. unfold df in Hi.
    rewrite length_signal in Hi. fold df in Hi.
    by rewrite nocost_rows in Hi. }
  rewrite nocost_signal_lookup in Hi by done. injection Hi as <-.
  apply lagged_finite; [done | subst n; lia].
Qed.

Lemma nocost_net_ret : net_ret df = strategy_ret df.
Proof.
  change (net_ret df) with (series_sub (strategy_ret df) (costs df)).
  change (costs df)
    with (series_mul_scalar (trade_change df) (Fin 0 + Fin 0)%F).
  rewrite costs_zero.
  - apply series_sub_zeros_r. unfold df.
    by rewrite length_strategy_ret, length_trade_change.
  - apply trade_change_finite, nocost_signal_finite.
Qed.

Lemma nocost_gross :
  series_add_scalar (Fin 1) (strategy_ret df)
  = map (fun t => (Fin 1 + Spec.LaggedPosition signals t
                           * Spec.MarketReturn (map close data) t)%F)
        (seq 0 n).
Proof.
  apply list_eq. intros i.
  unfold series_add_scalar. rewrite !lookup_map.
  change (strategy_ret df) with (series_mul (signal df) (ret df)).
  unfold series_mul. rewrite lookup_zip_with.
  destruct (decide (i < n)%nat) as [Hi|Hi].
  - rewrite nocost_signal_lookup by done.
    change (ret df)
      with (fillna (Fin 0) (pct_change (map close (rows df)))).
    rewrite nocost_rows, market_return_lookup.
    + by rewrite lookup_seq_lt.
    + by apply Forall_map.
    + by rewrite length_map.
  - rewrite lookup_seq_ge by lia.
    rewrite (proj2 (lookup_ge_None (signal df) i)); [done|].
    unfold df. rewrite length_signal. fold df.
    rewrite nocost_rows. subst n. lia.
Qed.

Lemma nocost_gross_not_nan :
  Forall (fun x => is_nan x = false)
         (series_add_scalar (Fin 1) (strategy_ret df)).
Proof.
  rewrite nocost_gross. apply Forall_map, Forall_forall.
  intros t [_ Ht]%elem_of_seq. apply finite_not_nan, fadd_finite; [done|].
  apply fmul_finite.
  - apply lagged_finite; [done | subst n; lia].
  - apply market_return_finite; [by apply Forall_map|].
    rewrite length_map. subst n. lia.
Qed.

End NoCosts.

(** C5.  With both cost rates 0, on a non-empty frame of positive
    finite closes and as many finite signals, the Final Equity [run]
    reports is the initial capital times the product over all bars of
    [1 + LaggedPosition[t] * MarketReturn[t]]. *)
Theorem C5_cost_invariance {numlib : NumLib} (data : DataFrame)
    (signals : Series) (ic : pyfloat) :
  data ≠ [] →
  length signals = length data →
  Forall (fun b => pos_finite (close b) = true) data →
  Forall (fun x => is_finite x = true) signals →
  ∃ r, Backtester.run (Backtester.init data (Fin 0) (Fin 0)) signals ic
       = Ok r ∧
       Final_Equity (stats r)
       = (ic * Spec.GrossProduct signals (map close data) (length data))%F.
Proof.
  intros Hne Hlen Hpos Hfin.
  set (self := Backtester.init data (Fin 0) (Fin 0)).
  set (df := Backtester.build_frame self signals ic).
  destruct (run_ok self signals ic) as [r Hr].
  { by left. }
  { eapply Forall_impl; [exact Hpos|].
    intros b (q & -> & Hq)%pos_finite_inv [= ->]. done. }
  exists r. split; [done|].
  apply run_inv in Hr as (st & s & _ & Hs & ->). fold df in Hs.
  cbn [stats]. revert Hs. unfold Backtester._calc_stats.
  unfold df, self. rewrite nocost_net_ret by done. fold self df.
  unfold iloc_last, cumprod. rewrite cumprod_from_last.
  - simpl_bind. intros Hs.
    assert (Final_Equity s
            = (foldl fmul (Fin 1)
                 (series_add_scalar (Fin 1) (strategy_ret df)) * ic)%F)
      as -> by (by injection Hs as <-).
    rewrite fmul_comm. unfold Spec.GrossProduct, df, self.
    by rewrite nocost_gross.
  - unfold df, self. rewrite nocost_gross by done.
    destruct data; [done|]. done.
  - by apply nocost_gross_not_nan.
Qed.

Lemma C5_cost_invariance_witness :
  let data := daily_bars [100; 110; 121; 110]%Z in
  let signals := [fz 1; fz 1; fz (-1); fz 0] in
  ∃ r, Backtester.run (numlib := approx_numlib)
         (Backtester.init data (Fin 0) (Fin 0)) signals (fz 1000) = Ok r ∧
       Final_Equity (stats r)
       = (fz 1000 * Spec.GrossProduct signals (map close data) 4)%F ∧
       Final_Equity (stats r) = fz 1320.
Proof.
  intros data signals.
  destruct (C5_cost_invariance (numlib := approx_numlib) data signals
              (fz 1000))
    as (r & Hr & Hfe); [by_compute | reflexivity | by_compute | by_compute |].
  exists r. split; [exact Hr|]. split; [exact Hfe|].
  rewrite Hfe. by_compute.
Defined.

(** ** The object store *)

Lemma only_writes_ret {A} (D : gset Store.loc) (a : A) :
  Store.only_writes D (Store.ret a).
Proof. by intros h a' h' [= <- <-] l _. Qed.

Lemma only_writes_lift {A} (D : gset Store.loc) (r : result A) :
  Store.only_writes D (Store.lift r).
Proof. by intros h a' h' [= <- <-] l _. Qed.

Lemma only_writes_bind {A B} (D : gset Store.loc) (m : Store.M A)
    (k : A → Store.M B) :
  Store.only_writes D m → (∀ a, Store.only_writes D (k a)) →
  Store.only_writes D (Store.bind m k).
Proof.
  intros Hm Hk h b h'. unfold Store.bind.
  destruct (m h) as [[a|e] h1] eqn:Hmh.
  - intros Hkh l Hl. rewrite (Hk a _ _ _ Hkh l Hl). by eapply Hm.
  - intros [= <- <-] l Hl. by eapply Hm.
Qed.

Lemma only_writes_read_frame (D : gset Store.loc) (l : Store.loc) :
  Store.only_writes D (Store.read_frame l).
Proof.
  intros h a h'. unfold Store.read_frame.
  destruct (h !! l) as [[f|s]|]; by intros [= <- <-].
Qed.

Lemma only_writes_read_series (D : gset Store.loc) (l : Store.loc) :
  Store.only_writes D (Store.read_series l).
Proof.
  intros h a h'. unfold Store.read_series.
  destruct (h !! l) as [[f|s]|]; by intros [= <- <-].
Qed.

Lemma only_writes_getitem (D : gset Store.loc) (l : Store.loc) (k : string) :
  Store.only_writes D (Store.frame_getitem l k).
Proof.
  apply only_writes_bind; [apply only_writes_read_frame|].
  intros f. apply only_writes_lift.
Qed.

Lemma only_writes_iterrows (D : gset Store.loc) (l : Store.loc) :
  Store.only_writes D (Store.frame_iterrows l).
Proof.
  apply only_writes_bind; [apply only_writes_read_frame|]. intros f.
  apply only_writes_bind; [apply only_writes_lift|]. intros sg.
  apply only_writes_bind; [apply only_writes_lift|]. intros cl.
  apply only_writes_ret.
Qed.

Lemma only_writes_setitem (D : gset Store.loc) (l : Store.loc) (k : string)
    (v : Series) :
  l ∈ D → Store.only_writes D (Store.frame_setitem l k v).
Proof.
  intros Hl. apply only_writes_bind; [apply only_writes_read_frame|].
  intros f h a h' [= <- <-] l' Hl'.
  apply lookup_insert_ne. by intros ->.
Qed.

(** [df.copy()] allocates: the objects of the store stay as they are,
    and the new location is none of theirs. *)
Lemma frame_copy_fresh (l : Store.loc) (h h' : gmap Store.loc Store.obj)
    (a : result Store.loc) :
  Store.frame_copy l h = (a, h') →
  Store.preserved h h' ∧ ∀ df, a = Ok df → df ∉ dom h.
Proof.
  unfold Store.frame_copy, Store.bind, Store.read_frame, Store.alloc.
  destruct (h !! l) as [[f|s]|]; intros [= <- <-].
  - split.
    + intros l' Hl'. apply lookup_insert_ne. intros <-.
      by apply (is_fresh (dom h)).
    + intros df [= <-]. apply is_fresh.
  - by split.
  - by split.
Qed.

(** Each statement after [df = self.data.copy()] reads, or writes to
    [df]. *)
Ltac only_writes_df Hin :=
  repeat first
    [ apply only_writes_ret
    | apply only_writes_lift
    | apply only_writes_read_series
    | apply only_writes_getitem
    | apply only_writes_iterrows
    | apply only_writes_setitem; exact Hin
    | apply only_writes_bind; [|intros ?] ].

Ltac run_preserves_tac :=
  let df := fresh "df" in
  let h1 := fresh "h1" in
  let Hcopy := fresh "Hcopy" in
  let Hpres := fresh "Hpres" in
  let Hfresh := fresh "Hfresh" in
  let Hrest := fresh "Hrest" in
  let Hin := fresh "Hin" in
  let Hw := fresh "Hw" in
  unfold Store.bind at 1;
  match goal with
  | |- context [Store.frame_copy ?l ?h] =>
      destruct (Store.frame_copy l h) as [[df|?] h1] eqn:Hcopy;
      apply frame_copy_fresh in Hcopy as [Hpres Hfresh];
      [ specialize (Hfresh df eq_refl); intros Hrest;
        assert (df ∈ ({[df]} : gset Store.loc)) as Hin by set_solver;
        match type of Hrest with
        | ?m h1 = _ =>
            assert (Store.only_writes {[df]} m) as Hw
              by only_writes_df Hin
        end;
        intros l' Hl'; rewrite (Hw _ _ _ Hrest l');
        [by apply Hpres | set_solver]
      | by intros [= <- <-] ]
  end.

Section StoreRun.
Context {numlib : NumLib}.

Lemma Backtester_run_preserves (self : Store.backtester)
    (signals : Store.loc) (ic : pyfloat)
    (h h' : gmap Store.loc Store.obj) (a : result BacktestResult) :
  Store.Backtester_run self signals ic h = (a, h') → Store.preserved h h'.
Proof. unfold Store.Backtester_run. run_preserves_tac. Qed.

Lemma BacktesterMin_run_preserves (self : Store.backtester_min)
    (signals : Store.loc) (ic : pyfloat)
    (h h' : gmap Store.loc Store.obj) (a : result BacktestResult) :
  Store.BacktesterMin_run self signals ic h = (a, h') → Store.preserved h h'.
Proof. unfold Store.BacktesterMin_run. run_preserves_tac. Qed.

(** C10.  A call of [run], of either variant and whether it returns or
    raises, leaves every object of the store as it was, the frame held
    by the backtester and the signal series among them; what it writes
    to is the copy it has made. *)
Theorem C10_run_leaves_inputs (signals : Store.loc) (ic : pyfloat)
    (h h' : gmap Store.loc Store.obj) (a : result BacktestResult) :
  (∀ self : Store.backtester,
     Store.Backtester_run self signals ic h = (a, h') →
     Store.preserved h h' ∧
     (Store.bt_data self ∈ dom h →
      h' !! Store.bt_data self = h !! Store.bt_data self) ∧
     (signals ∈ dom h → h' !! signals = h !! signals))
  ∧ (∀ self : Store.backtester_min,
       Store.BacktesterMin_run self signals ic h = (a, h') →
       Store.preserved h h' ∧
       (Store.bm_data self ∈ dom h →
        h' !! Store.bm_data self = h !! Store.bm_data self) ∧
       (signals ∈ dom h → h' !! signals = h !! signals)).
Proof.
  split.
  - intros self Hrun%Backtester_run_preserves. split; [done|].
    split; apply Hrun.
  - intros self Hrun%BacktesterMin_run_preserves. split; [done|].
    split; apply Hrun.
Qed.
End StoreRun.

Lemma C10_run_leaves_inputs_witness :
  let h : gmap Store.loc Store.obj :=
    {[ 1%positive :=
         Store.OFrame {| Store.fo_rows := daily_bars [100; 110; 121; 121]%Z;
                         Store.fo_cols := ∅ |};
       2%positive := Store.OSeries [fz 0; fz 1; fz 1; fz 0] ]} in
  let self := {| Store.bt_data := 1%positive;
                 Store.bt_commission := Backtester.default_commission;
                 Store.bt_slippage := Backtester.default_slippage |} in
  let self_min :=
    {| Store.bm_data := 1%positive;
       Store.bm_commission := BacktesterMin.default_commission;
       Store.bm_slippage := BacktesterMin.default_slippage;
       Store.bm_bars_per_year := BacktesterMin.default_bars_per_year |} in
  let out := Store.Backtester_run (numlib := approx_numlib) self 2%positive
               Backtester.default_initial_capital h in
  let out_min :=
    Store.BacktesterMin_run (numlib := approx_numlib) self_min 2%positive
      BacktesterMin.default_initial_capital h in
  (snd out !! 1%positive = h !! 1%positive ∧
   snd out !! 2%positive = h !! 2%positive) ∧
  (snd out_min !! 1%positive = h !! 1%positive ∧
   snd out_min !! 2%positive = h !! 2%positive).
Proof.
  intros h self self_min out out_min. split.
  - destruct (proj1 (C10_run_leaves_inputs (numlib := approx_numlib)
                       2%positive Backtester.default_initial_capital
                       h (snd out) (fst out)) self)
      as (_ & Hdata & Hsig).
    + symmetry. apply surjective_pairing.
    + split; [apply Hdata | apply Hsig]; by_compute.
  - destruct (proj2 (C10_run_leaves_inputs (numlib := approx_numlib)
                       2%positive BacktesterMin.default_initial_capital
                       h (snd out_min) (fst out_min)) self_min)
      as (_ & Hdata & Hsig).
    + symmetry. apply surjective_pairing.
    + split; [apply Hdata | apply Hsig]; by_compute.
Defined.

(** The call of the witness returns, and its frame is a new object. *)
Example store_run_example :
  let h : gmap Store.loc Store.obj :=
    {[ 1%positive :=
         Store.OFrame {| Store.fo_rows := daily_bars [100; 110; 121; 121]%Z;
                         Store.fo_cols := ∅ |};
       2%positive := Store.OSeries [fz 0; fz 1; fz 1; fz 0] ]} in
  let self := {| Store.bt_data := 1%positive;
                 Store.bt_commission := Backtester.default_commission;
                 Store.bt_slippage := Backtester.default_slippage |} in
  let out := Store.Backtester_run (numlib := approx_numlib) self 2%positive
               Backtester.default_initial_capital h in
  (∃ r, fst out = Ok r ∧ trades r = []) ∧
  dom (snd out) = {[ 1%positive; 2%positive; 3%positive ]}.
Proof.
  intros h self out. split.
  - eexists. split; [vm_compute; reflexivity | reflexivity].
  - by_compute.
Qed.

(** ** The store rendering computes what the value rendering does *)

Lemma bind_ok {A B} (m : Store.M A) (k : A → Store.M B)
    (h h1 : gmap Store.loc Store.obj) (a : A) :
  m h = (Ok a, h1) → Store.bind m k h = k a h1.
Proof. intros Hm. unfold Store.bind. by rewrite Hm. Qed.

Lemma getitem_at (df : Store.loc) (f : Store.FrameObj)
    (h : gmap Store.loc Store.obj) (k : string) :
  Store.frame_getitem df k (<[df := Store.OFrame f]> h)
  = (Store.getitem f k, <[df := Store.OFrame f]> h).
Proof.
  unfold Store.frame_getitem, Store.bind, Store.read_frame.
  by rewrite lookup_insert_eq.
Qed.

Lemma setitem_at (df : Store.loc) (f : Store.FrameObj)
    (h : gmap Store.loc Store.obj) (k : string) (v : Series) :
  Store.frame_setitem df k v (<[df := Store.OFrame f]> h)
  = (Ok tt, <[df := Store.OFrame (Store.setitem f k v)]> h).
Proof.
  unfold Store.frame_setitem, Store.bind, Store.read_frame, Store.write_frame.
  by rewrite lookup_insert_eq, insert_insert_eq.
Qed.

Lemma setitem_same_length (f : Store.FrameObj) (k : string) (v : Series) :
  length v = length (Store.fo_rows f) →
  Store.setitem f k v
  = {| Store.fo_rows := Store.fo_rows f;
       Store.fo_cols := <[k := v]> (Store.fo_cols f) |}.
Proof.
  intros Hlen. unfold Store.setitem, ensure_valid_index.
  destruct (Store.fo_rows f) as [|b bs] eqn:Hrows.
  - destruct v; [done | simpl in Hlen; lia].
  - rewrite <- Hlen, reindex_id. by destruct v.
Qed.

Lemma setitem_first (rows0 : DataFrame) (v : Series) :
  Store.setitem {| Store.fo_rows := rows0; Store.fo_cols := ∅ |} "signal" v
  = {| Store.fo_rows := ensure_valid_index rows0 v;
       Store.fo_cols :=
         {[ "signal"%string :=
              reindex (length (ensure_valid_index rows0 v)) v ]} |}.
Proof.
  unfold Store.setitem. cbn [Store.fo_rows Store.fo_cols]. f_equal.
  rewrite <- insert_empty. f_equal.
  by destruct rows0, v.
Qed.

Lemma getitem_at_ok (df : Store.loc) (f : Store.FrameObj)
    (h : gmap Store.loc Store.obj) (k : string) (col : Series) :
  Store.getitem f k = Ok col →
  Store.frame_getitem df k (<[df := Store.OFrame f]> h)
  = (Ok col, <[df := Store.OFrame f]> h).
Proof. intros Hcol. by rewrite getitem_at, Hcol. Qed.

Lemma iterrows_at_ok (df : Store.loc) (f : Store.FrameObj)
    (h : gmap Store.loc Store.obj) (sg cl : Series) :
  Store.getitem f "signal" = Ok sg →
  Store.getitem f "close" = Ok cl →
  Store.frame_iterrows df (<[df := Store.OFrame f]> h)
  = (Ok (zip_rows (map date (Store.fo_rows f)) cl sg),
     <[df := Store.OFrame f]> h).
Proof.
  intros Hsg Hcl.
  unfold Store.frame_iterrows, Store.bind, Store.read_frame, Store.lift.
  by rewrite lookup_insert_eq, Hsg, Hcl.
Qed.

Lemma lift_bind {A B} (r : result A) (k : A → Store.M B)
    (h : gmap Store.loc Store.obj) :
  Store.bind (Store.lift r) k h
  = match r with
    | Ok a => k a h
    | Raise e => (Raise e, h)
    end.
Proof. by destruct r. Qed.

(** A column added to the frame, or an input column, read back. *)
Ltac solve_getitem :=
  unfold Store.getitem; cbn [Store.fo_cols Store.fo_rows];
  repeat (rewrite lookup_insert_ne by done);
  rewrite ?lookup_insert_eq, ?lookup_empty;
  reflexivity.

Ltac step_get :=
  erewrite bind_ok; [|apply getitem_at_ok; solve_getitem].

Ltac step_set Hlen :=
  rewrite (bind_ok _ _ _ _ tt (setitem_at _ _ _ _ _));
  rewrite setitem_same_length by (cbn [Store.fo_rows]; apply Hlen);
  cbn [Store.fo_rows Store.fo_cols].

Section StoreValue.
Context {numlib : NumLib}.

(** On a frame with the input columns only and a signal series in the
    store, [Backtester.run] on the store returns (or raises) what
    [Backtester.run] on their values does. *)
Lemma Backtester_run_value (self : Store.backtester) (signals : Store.loc)
    (ic : pyfloat) (h : gmap Store.loc Store.obj)
    (rows0 : DataFrame) (sig : Series) :
  h !! Store.bt_data self
  = Some (Store.OFrame {| Store.fo_rows := rows0; Store.fo_cols := ∅ |}) →
  h !! signals = Some (Store.OSeries sig) →
  fst (Store.Backtester_run self signals ic h)
  = Backtester.run (Store.backtester_value self rows0) sig ic.
Proof.
  intros Hdata Hsig.
  set (pure := Store.backtester_value self rows0).
  set (dfp := Backtester.build_frame pure sig ic).
  set (df := fresh (dom h)).
  unfold Store.Backtester_run.
  rewrite (bind_ok _ _ h
             (<[df := Store.OFrame {| Store.fo_rows := rows0;
                                      Store.fo_cols := ∅ |}]> h) df).
  2: { unfold Store.frame_copy, Store.bind, Store.read_frame, Store.alloc.
       by rewrite Hdata. }
  erewrite (bind_ok (Store.read_series signals)).
  2: { unfold Store.read_series. rewrite lookup_insert_ne, Hsig; [done|].
       intros Heq. apply (is_fresh (dom h)). fold df. rewrite Heq.
       apply elem_of_dom. eauto. }
  rewrite (bind_ok _ _ _ _ tt (setitem_at _ _ _ _ _)).
  rewrite setitem_first.
  change (ensure_valid_index rows0 (fillna (Fin 0) (shift1 sig)))
    with (rows dfp).
  change (reindex (length (rows dfp)) (fillna (Fin 0) (shift1 sig)))
    with (signal dfp).
  rewrite <- insert_empty.
  step_get. step_set (length_ret pure sig ic).
  step_get. step_get. step_set (length_strategy_ret pure sig ic).
  step_get. step_set (length_trade_change pure sig ic).
  step_get. step_set (length_costs pure sig ic).
  step_get. step_get. step_set (length_net_ret pure sig ic).
  step_get. step_set (length_equity pure sig ic).
  erewrite bind_ok; [|apply iterrows_at_ok; solve_getitem].
  cbn [Store.fo_rows]. fold (iterrows dfp).
  rewrite lift_bind. unfold Backtester.run. fold pure dfp.
  destruct (for_each Backtester.loop_body (iterrows dfp) locals0)
    as [st|e]; simpl_bind; [|done].
  step_get.
  match goal with
  | |- context [Store.lift (Backtester._calc_stats ?nr _ _)] =>
      change nr with (net_ret dfp)
  end.
  rewrite lift_bind.
  destruct (Backtester._calc_stats (net_ret dfp) (l_trades st) ic)
    as [s|e]; simpl_bind; [|reflexivity].
  step_get. reflexivity.
Qed.

Lemma BacktesterMin_run_value (self : Store.backtester_min)
    (signals : Store.loc) (ic : pyfloat) (h : gmap Store.loc Store.obj)
    (rows0 : DataFrame) (sig : Series) :
  h !! Store.bm_data self
  = Some (Store.OFrame {| Store.fo_rows := rows0; Store.fo_cols := ∅ |}) →
  h !! signals = Some (Store.OSeries sig) →
  fst (Store.BacktesterMin_run self signals ic h)
  = BacktesterMin.run (Store.backtester_min_value self rows0) sig ic.
Proof.
  intros Hdata Hsig.
  set (pure := Backtester.init rows0 (Store.bm_commission self)
                 (Store.bm_slippage self)).
  set (dfp := Backtester.build_frame pure sig ic).
  set (df := fresh (dom h)).
  unfold Store.BacktesterMin_run.
  rewrite (bind_ok _ _ h
             (<[df := Store.OFrame {| Store.fo_rows := rows0;
                                      Store.fo_cols := ∅ |}]> h) df).
  2: { unfold Store.frame_copy, Store.bind, Store.read_frame, Store.alloc.
       by rewrite Hdata. }
  erewrite (bind_ok (Store.read_series signals)).
  2: { unfold Store.read_series. rewrite lookup_insert_ne, Hsig; [done|].
       intros Heq. apply (is_fresh (dom h)). fold df. rewrite Heq.
       apply elem_of_dom. eauto. }
  rewrite (bind_ok _ _ _ _ tt (setitem_at _ _ _ _ _)).
  rewrite setitem_first.
  change (ensure_valid_index rows0 (fillna (Fin 0) (shift1 sig)))
    with (rows dfp).
  change (reindex (length (rows dfp)) (fillna (Fin 0) (shift1 sig)))
    with (signal dfp).
  rewrite <- insert_empty.
  step_get. step_set (length_ret pure sig ic).
  step_get. step_get. step_set (length_strategy_ret pure sig ic).
  step_get. step_set (length_trade_change pure sig ic).
  step_get. step_set (length_costs pure sig ic).
  step_get. step_get. step_set (length_net_ret pure sig ic).
  step_get. step_set (length_equity pure sig ic).
  erewrite bind_ok; [|apply iterrows_at_ok; solve_getitem].
  cbn [Store.fo_rows]. fold (iterrows dfp).
  rewrite lift_bind. unfold BacktesterMin.run.
  change (BacktesterMin.build_frame
            (Store.backtester_min_value self rows0) sig ic) with dfp.
  destruct (for_each BacktesterMin.loop_body (iterrows dfp) locals0)
    as [st|e]; simpl_bind; [|done].
  step_get.
  match goal with
  | |- context [Store.lift (BacktesterMin._calc_stats _ ?nr _ _)] =>
      change nr with (net_ret dfp)
  end.
  rewrite lift_bind.
  change (BacktesterMin._calc_stats (Store.backtester_min_value self [])
            (net_ret dfp) (l_trades st) ic)
    with (BacktesterMin._calc_stats (Store.backtester_min_value self rows0)
            (net_ret dfp) (l_trades st) ic).
  destruct (BacktesterMin._calc_stats _ (net_ret dfp) (l_trades st) ic)
    as [s|e]; simpl_bind; [|reflexivity].
  step_get. reflexivity.
Qed.
End StoreValue.

(** * Further properties of the engine *)

(** ** What [run] can raise *)

Lemma loop_body_raise (st : Locals) (row : Row) (e : exn) :
  entry_set st → Backtester.loop_body st row = Raise e →
  e = ZeroDivisionError ∧ l_entry_price st = Some (Fin 0).
Proof.
  intros Hinv. unfold Backtester.loop_body.
  destruct (feqb (l_position st) (Fin 0) && fneb (row_signal row) (Fin 0));
    [done|].
  destruct (fneb (l_position st) (Fin 0)) eqn:Hp; simpl; [|done].
  destruct (fneb (row_signal row) (l_position st)); [|done].
  destruct (Hinv Hp) as [[ep Hep] _]. rewrite Hep.
  unfold pydiv. destruct (feqb ep (Fin 0)) eqn:He; simpl; [|done].
  apply feqb_eq in He as ->. by intros [= <-].
Qed.

Lemma loop_raise (rs : list Row) (st : Locals) (e : exn) :
  entry_set st → for_each Backtester.loop_body rs st = Raise e →
  e = ZeroDivisionError.
Proof.
  revert st; induction rs as [|r rs IH]; intros st Hinv; simpl; [done|].
  destruct (Backtester.loop_body st r) as [st1|e1] eqn:Hb; simpl_bind.
  - apply IH. by eapply loop_body_entry_set.
  - intros [= <-]. by apply loop_body_raise in Hb as [-> _].
Qed.

(** X1.  [run] raises nothing but [IndexError] and [ZeroDivisionError]:
    the first only when the frame is empty, the second only when some
    bar of the frame has close 0.  The [TypeError] of a division by an
    unset entry price is never met. *)
Theorem run_raises_only {numlib : NumLib} (self : Backtester.t)
    (signals : Series) (ic : pyfloat) (e : exn) :
  Backtester.run self signals ic = Raise e →
  (e = IndexError ∧ Backtester.data self = [])
  ∨ (e = ZeroDivisionError ∧
     ∃ b, b ∈ Backtester.data self ∧ close b = Fin 0).
Proof.
  unfold Backtester.run.
  set (df := Backtester.build_frame self signals ic).
  destruct (for_each Backtester.loop_body (iterrows df) locals0)
    as [st|e1] eqn:Hloop; simpl_bind.
  - unfold Backtester._calc_stats, iloc_last.
    destruct (last _) as [x|] eqn:Hlast; simpl_bind; [done|].
    intros [= <-]. left. split; [done|].
    apply last_None in Hlast. apply (f_equal length) in Hlast.
    unfold series_add_scalar in Hlast.
    rewrite length_cumprod, length_map in Hlast. unfold df in Hlast.
    rewrite length_net_ret in Hlast. apply length_zero_iff_nil in Hlast.
    by apply frame_rows_empty in Hlast as [? _].
  - intros [= <-]. right.
    split; [by eapply loop_raise; [apply entry_set_locals0 | exact Hloop]|].
    destruct (decide (Forall (fun b => close b ≠ Fin 0)
                             (Backtester.data self))) as [Hall|Hex].
    + destruct (loop_ok (iterrows df) locals0) as [st Hst].
      * apply entry_set_locals0.
      * done.
      * unfold iterrows. apply zip_rows_close, Forall_map.
        by apply frame_rows_closes.
      * congruence.
    + apply not_Forall_Exists in Hex; [|apply _].
      apply Exists_exists in Hex as (b & Hb & Hc).
      exists b. split; [done|]. simpl in Hc.
      by destruct (decide (close b = Fin 0)).
Qed.

Lemma run_raises_only_witness :
  Backtester.run (numlib := approx_numlib) (default_backtester [100; 0; 50]%Z)
    [fz 1; fz 0; fz 0] Backtester.default_initial_capital
  = Raise ZeroDivisionError
  ∧ ((ZeroDivisionError = IndexError ∧
      Backtester.data (default_backtester [100; 0; 50]%Z) = [])
     ∨ (ZeroDivisionError = ZeroDivisionError ∧
        ∃ b, b ∈ Backtester.data (default_backtester [100; 0; 50]%Z) ∧
             close b = Fin 0)).
Proof.
  assert (Backtester.run (numlib := approx_numlib)
            (default_backtester [100; 0; 50]%Z) [fz 1; fz 0; fz 0]
            Backtester.default_initial_capital = Raise ZeroDivisionError)
    as Hrun by (vm_compute; reflexivity).
  split; [exact Hrun|].
  exact (run_raises_only (numlib := approx_numlib) _ _ _ _ Hrun).
Defined.

(** ** The equity curve *)

Lemma cumprod_lookup_0 (s : Series) (y : pyfloat) :
  s !! 0%nat = Some y → is_nan y = false →
  cumprod s !! 0%nat = Some (Fin 1 * y)%F.
Proof.
  destruct s as [|x s]; [done|]. intros [= ->] Hy.
  unfold cumprod. cbn [cumprod_from]. by rewrite Hy.
Qed.

Section FirstBar.
Context (self : Backtester.t) (signals : Series) (ic : pyfloat).
Let df := Backtester.build_frame self signals ic.

Hypothesis data_nonempty : Backtester.data self ≠ [].
Hypothesis signals_nonempty : signals ≠ [].

Lemma first_signal : signal df !! 0%nat = Some (Fin 0).
Proof.
  unfold df, Backtester.build_frame. cbn [signal].
  destruct (Backtester.data self) as [|b bs]; [done|].
  destruct signals as [|x xs]; [done|]. done.
Qed.

Lemma first_ret : ret df !! 0%nat = Some (Fin 0).
Proof.
  unfold df, Backtester.build_frame. cbn [ret].
  apply ret_lookup_0.
  destruct (Backtester.data self) as [|b bs]; [done|]. done.
Qed.

Lemma first_trade_change : trade_change df !! 0%nat = Some (Fin 0).
Proof.
  change (trade_change df)
    with (fillna (Fin 0) (series_abs (diff (signal df)))).
  unfold fillna, series_abs, diff, series_sub.
  rewrite !lookup_map, lookup_zip_with, first_signal.
  rewrite shift1_lookup_0; [done|].
  intros Hnil. pose proof first_signal as Hs. by rewrite Hnil in Hs.
Qed.

Lemma first_net_ret :
  is_finite (Backtester.commission self + Backtester.slippage self)%F = true →
  net_ret df !! 0%nat = Some (Fin 0).
Proof.
  intros Hfin.
  change (net_ret df) with (series_sub (strategy_ret df) (costs df)).
  change (costs df)
    with (series_mul_scalar (trade_change df)
            (Backtester.commission self + Backtester.slippage self)%F).
  change (strategy_ret df) with (series_mul (signal df) (ret df)).
  unfold series_sub, series_mul, series_mul_scalar.
  rewrite !lookup_zip_with, lookup_map.
  rewrite first_signal, first_ret, first_trade_change.
  cbn [mbind option_bind fmap option_fmap option_map].
  rewrite (fmul_0_l_finite
             (Backtester.commission self + Backtester.slippage self)%F)
    by done.
  by f_equal.
Qed.

Lemma first_equity :
  is_finite (Backtester.commission self + Backtester.slippage self)%F = true →
  equity df !! 0%nat = Some ic.
Proof.
  intros Hfin.
  change (equity df)
    with (series_mul_scalar
            (cumprod (series_add_scalar (Fin 1) (net_ret df))) ic).
  unfold series_mul_scalar. rewrite lookup_map.
  rewrite (cumprod_lookup_0 _ (Fin 1 + Fin 0)%F).
  - cbn [fmap option_fmap option_map]. f_equal.
    assert ((Fin 1 * (Fin 1 + Fin 0))%F = Fin 1) as -> by by_compute.
    apply fmul_1_l.
  - unfold series_add_scalar. by rewrite lookup_map, first_net_ret.
  - done.
Qed.
End FirstBar.

(** X2.  Whatever [run] returns, the equity curve it returns ends at
    the Final Equity it reports, and (on a non-empty frame) has one
    point per bar of the frame, whatever the length of the signal
    series. *)
Theorem equity_curve_ends_at_final_equity {numlib : NumLib}
    (self : Backtester.t) (signals : Series) (ic : pyfloat)
    (r : BacktestResult) :
  Backtester.run self signals ic = Ok r →
  last (equity_curve r) = Some (Final_Equity (stats r)) ∧
  (Backtester.data self ≠ [] →
   length (equity_curve r) = length (Backtester.data self)).
Proof.
  intros (st & s & _ & Hs & ->)%run_inv. cbn [equity_curve stats]. split.
  - revert Hs. unfold Backtester._calc_stats, iloc_last.
    destruct (last (cumprod _)) as [final|] eqn:Hlast; simpl_bind;
      [|intros [=]].
    intros [= <-]. cbn [Final_Equity].
    change (equity (Backtester.build_frame self signals ic))
      with (series_mul_scalar
              (cumprod (series_add_scalar (Fin 1)
                 (net_ret (Backtester.build_frame self signals ic)))) ic).
    unfold series_mul_scalar. by rewrite map_fmap, fmap_last, Hlast.
  - intros Hne. by rewrite length_equity, frame_rows_nonempty.
Qed.

Lemma equity_curve_ends_at_final_equity_witness :
  ∃ r, Backtester.run (numlib := approx_numlib)
         (default_backtester [100; 110; 121]%Z) [fz 1]
         Backtester.default_initial_capital = Ok r ∧
       last (equity_curve r) = Some (Final_Equity (stats r)) ∧
       length (equity_curve r) = 3%nat.
Proof.
  eexists. split; [vm_compute; reflexivity|].
  destruct (equity_curve_ends_at_final_equity (numlib := approx_numlib)
              (default_backtester [100; 110; 121]%Z) [fz 1]
              Backtester.default_initial_capital _ eq_refl) as [Hlast Hlen].
  split; [exact Hlast|]. apply Hlen. by_compute.
Defined.

(** X3.  On a non-empty frame with a non-empty signal series and finite
    cost rates, the equity curve starts at the initial capital: the
    first bar has no position, no market return and no cost. *)
Theorem equity_curve_starts_at_capital {numlib : NumLib}
    (self : Backtester.t) (signals : Series) (ic : pyfloat)
    (r : BacktestResult) :
  Backtester.data self ≠ [] → signals ≠ [] →
  is_finite (Backtester.commission self + Backtester.slippage self)%F = true →
  Backtester.run self signals ic = Ok r →
  equity_curve r !! 0%nat = Some ic.
Proof.
  intros Hne Hsig Hfin (st & s & _ & _ & ->)%run_inv.
  by apply first_equity.
Qed.

Lemma equity_curve_starts_at_capital_witness :
  ∃ r, Backtester.run (numlib := approx_numlib)
         (default_backtester [100; 110; 121]%Z) [fz 1; fz 1; fz 0]
         (fz 5000) = Ok r ∧
       equity_curve r !! 0%nat = Some (fz 5000).
Proof.
  eexists. split; [vm_compute; reflexivity|].
  apply (equity_curve_starts_at_capital (numlib := approx_numlib)
           (default_backtester [100; 110; 121]%Z) [fz 1; fz 1; fz 0]
           (fz 5000)).
  - by_compute.
  - done.
  - reflexivity.
  - vm_compute; reflexivity.
Defined.

(** ** The initial capital *)

Lemma fmul_1_r (x : pyfloat) : (x * Fin 1)%F = x.
Proof. by rewrite fmul_comm, fmul_1_l. Qed.

Lemma series_mul_scalar_1 (s : Series) : series_mul_scalar s (Fin 1) = s.
Proof.
  unfold series_mul_scalar. rewrite <- (list_fmap_id s) at 2.
  apply list_fmap_ext. intros i x _. apply fmul_1_r.
Qed.

(** X4.  The initial capital is a mere scale: a run with capital [ic]
    returns exactly when the run with capital 1 does, with the same
    trades and the same statistics but for Final Equity, and its
    equity curve and Final Equity are those of the unit run times
    [ic]. *)
Theorem initial_capital_scales {numlib : NumLib} (self : Backtester.t)
    (signals : Series) (ic : pyfloat) (r : BacktestResult) :
  Backtester.run self signals ic = Ok r →
  ∃ r1, Backtester.run self signals (Fin 1) = Ok r1 ∧
        trades r = trades r1 ∧
        equity_curve r = series_mul_scalar (equity_curve r1) ic ∧
        Final_Equity (stats r) = (Final_Equity (stats r1) * ic)%F ∧
        CAGR (stats r) = CAGR (stats r1) ∧
        Volatility (stats r) = Volatility (stats r1) ∧
        Sharpe (stats r) = Sharpe (stats r1) ∧
        Sortino (stats r) = Sortino (stats r1) ∧
        MaxDD (stats r) = MaxDD (stats r1) ∧
        Winrate (stats r) = Winrate (stats r1).
Proof.
  intros (st & s & Hloop & Hs & ->)%run_inv.
  set (df := Backtester.build_frame self signals ic) in *.
  set (df1 := Backtester.build_frame self signals (Fin 1)).
  assert (iterrows df1 = iterrows df) as Hrows by reflexivity.
  assert (net_ret df1 = net_ret df) as Hnet by reflexivity.
  revert Hs. unfold Backtester._calc_stats.
  destruct (iloc_last _) as [final|e] eqn:Hlast; simpl_bind; [|intros [=]].
  intros [= <-]. eexists. split.
  - unfold Backtester.run. fold df1. rewrite Hrows, Hloop. simpl_bind.
    unfold Backtester._calc_stats. rewrite Hnet, Hlast. simpl_bind.
    reflexivity.
  - cbn [trades equity_curve stats Final_Equity CAGR Volatility Sharpe
           Sortino MaxDD Winrate].
    split_and!; try reflexivity.
    + change (equity df1)
        with (series_mul_scalar
                (cumprod (series_add_scalar (Fin 1) (net_ret df))) (Fin 1)).
      by rewrite series_mul_scalar_1.
    + by rewrite fmul_1_r.
Qed.

Lemma initial_capital_scales_witness :
  ∃ r r1,
    Backtester.run (numlib := approx_numlib)
      (default_backtester [100; 110; 121; 110]%Z) [fz 1; fz 1; fz 0; fz 0]
      (fz 5000) = Ok r ∧
    Backtester.run (numlib := approx_numlib)
      (default_backtester [100; 110; 121; 110]%Z) [fz 1; fz 1; fz 0; fz 0]
      (Fin 1) = Ok r1 ∧
    trades r = trades r1 ∧
    equity_curve r = series_mul_scalar (equity_curve r1) (fz 5000) ∧
    Final_Equity (stats r) = (Final_Equity (stats r1) * fz 5000)%F ∧
    length (trades r) = 1%nat.
Proof.
  eexists.
  destruct (initial_capital_scales (numlib := approx_numlib)
              (default_backtester [100; 110; 121; 110]%Z)
              [fz 1; fz 1; fz 0; fz 0] (fz 5000) _ eq_refl)
    as (r1 & Hr1 & Htr & Heq & Hfe & _).
  exists r1. split; [vm_compute; reflexivity|].
  split; [exact Hr1|]. split; [exact Htr|]. split; [exact Heq|].
  split; [exact Hfe|]. reflexivity.
Defined.

(** ** The number of bars per year *)


(** ** No look-ahead *)

Lemma take_shift1 (m : nat) (s s' : Series) :
  length s = length s' → take m s = take m s' →
  take (S m) (shift1 s) = take (S m) (shift1 s').
Proof.
  intros Hlen Heq. unfold shift1.
  rewrite !take_take, <- Hlen, (Nat.min_comm (S m)), <- !take_take.
  cbn [take]. by rewrite Heq.
Qed.

Lemma take_le_eq {A} (m n : nat) (l l' : list A) :
  (m ≤ n)%nat → take n l = take n l' → take m l = take m l'.
Proof.
  intros Hle Heq. rewrite <- (Nat.min_l m n) by done.
  by rewrite <- !take_take, Heq.
Qed.

Lemma take_fillna (m : nat) (v : pyfloat) (s : Series) :
  take m (fillna v s) = fillna v (take m s).
Proof. unfold fillna. by rewrite !map_fmap, fmap_take. Qed.

Lemma take_reindex (m n : nat) (s s' : Series) :
  length s = length s' → take m s = take m s' →
  take m (reindex n s) = take m (reindex n s').
Proof.
  intros Hlen Heq. unfold reindex.
  rewrite !take_take, (Nat.min_comm m), <- !take_take.
  f_equal. rewrite !take_app, Heq, Hlen. done.
Qed.

Lemma take_cumprod_from (m : nat) (a : pyfloat) (s : Series) :
  take m (cumprod_from a s) = cumprod_from a (take m s).
Proof.
  revert m a; induction s as [|x s IH]; intros [|m] a; try done.
  cbn [cumprod_from take]. destruct (is_nan x); cbn [take]; by rewrite IH.
Qed.

Lemma take_diff (m : nat) (s s' : Series) :
  length s = length s' → take m s = take m s' →
  take m (diff s) = take m (diff s').
Proof.
  intros Hlen Heq. unfold diff, series_sub. rewrite !zip_with_take, Heq.
  f_equal. apply (take_le_eq m (S m)); [lia|].
  by apply take_shift1.
Qed.

Lemma ensure_valid_index_length (d : DataFrame) (v v' : Series) :
  length v = length v' → ensure_valid_index d v = ensure_valid_index d v'.
Proof.
  intros Hlen. unfold ensure_valid_index.
  destruct d; [|done]. destruct v, v'; try done. by rewrite Hlen.
Qed.

Section Prefix.
Context (self : Backtester.t) (signals signals' : Series) (ic : pyfloat).
Let df := Backtester.build_frame self signals ic.
Let df' := Backtester.build_frame self signals' ic.

Hypothesis same_length : length signals = length signals'.

Lemma prefix_rows : rows df = rows df'.
Proof.
  unfold df, df', Backtester.build_frame. cbn [rows].
  apply ensure_valid_index_length.
  by rewrite !length_fillna, !length_shift1.
Qed.

Lemma prefix_ret : ret df = ret df'.
Proof.
  change (ret df) with (fillna (Fin 0) (pct_change (map close (rows df)))).
  by rewrite prefix_rows.
Qed.

Lemma prefix_signal (k : nat) :
  take k signals = take k signals' →
  take (S k) (signal df) = take (S k) (signal df').
Proof.
  intros Heq.
  change (signal df)
    with (reindex (length (rows df)) (fillna (Fin 0) (shift1 signals))).
  rewrite prefix_rows.
  apply take_reindex.
  - by rewrite !length_fillna, !length_shift1.
  - rewrite !take_fillna. f_equal. by apply take_shift1.
Qed.

Lemma prefix_net_ret (k : nat) :
  take k signals = take k signals' →
  take (S k) (net_ret df) = take (S k) (net_ret df').
Proof.
  intros Heq%prefix_signal.
  change (net_ret df)
    with (series_sub
            (series_mul (signal df) (ret df))
            (series_mul_scalar
               (fillna (Fin 0) (series_abs (diff (signal df))))
               (Backtester.commission self + Backtester.slippage self)%F)).
  change (net_ret df')
    with (series_sub
            (series_mul (signal df') (ret df'))
            (series_mul_scalar
               (fillna (Fin 0) (series_abs (diff (signal df'))))
               (Backtester.commission self + Backtester.slippage self)%F)).
  unfold series_sub, series_mul, series_mul_scalar, series_abs.
  rewrite !zip_with_take, !map_fmap, <- !fmap_take, <- !map_fmap.
  rewrite !take_fillna, !map_fmap, <- !fmap_take.
  rewrite Heq, prefix_ret. do 4 f_equal.
  apply take_diff; [|done].
  unfold df, df'. rewrite !length_signal. fold df df'.
  by rewrite prefix_rows.
Qed.

Lemma prefix_equity (k : nat) :
  take k signals = take k signals' →
  take (S k) (equity df) = take (S k) (equity df').
Proof.
  intros Heq%prefix_net_ret.
  change (equity df)
    with (series_mul_scalar
            (cumprod (series_add_scalar (Fin 1) (net_ret df))) ic).
  change (equity df')
    with (series_mul_scalar
            (cumprod (series_add_scalar (Fin 1) (net_ret df'))) ic).
  unfold series_mul_scalar, series_add_scalar, cumprod.
  rewrite !map_fmap, <- !fmap_take, !take_cumprod_from, <- !fmap_take.
  by rewrite Heq.
Qed.

(** The whole frame is the same once the signals agree before the last
    bar. *)
Lemma prefix_frame :
  take (length (rows df) - 1) signals = take (length (rows df) - 1) signals' →
  df = df'.
Proof.
  intros Heq.
  assert (signal df = signal df') as Hsig.
  { destruct (rows df) as [|b bs] eqn:Hrows.
    - pose proof (length_signal self signals ic) as Hl.
      pose proof (length_signal self signals' ic) as Hl'.
      fold df in Hl. fold df' in Hl'. rewrite <- prefix_rows, Hrows in Hl'.
      rewrite Hrows in Hl.
      apply length_zero_iff_nil in Hl. apply length_zero_iff_nil in Hl'.
      by rewrite Hl, Hl'.
    - simpl in Heq. rewrite Nat.sub_0_r in Heq.
      apply prefix_signal in Heq.
      rewrite !firstn_all2 in Heq; [done| |].
      + unfold df'. rewrite length_signal. fold df'.
        rewrite <- prefix_rows, Hrows. simpl. lia.
      + unfold df. rewrite length_signal. fold df.
        rewrite Hrows. simpl. lia. }
  pose proof prefix_rows as Hrows.
  unfold df, df', Backtester.build_frame in *. cbn [rows signal] in *.
  by rewrite Hsig, Hrows.
Qed.
End Prefix.

(** X6.  No look-ahead: for two signal series of one length that agree
    on bars [0 .. k-1], the equity curves returned agree on bars
    [0 .. k].  The signal given for a bar acts from the next bar on. *)
Theorem no_lookahead {numlib : NumLib} (self : Backtester.t)
    (signals signals' : Series) (ic : pyfloat) (k : nat)
    (r r' : BacktestResult) :
  length signals = length signals' →
  take k signals = take k signals' →
  Backtester.run self signals ic = Ok r →
  Backtester.run self signals' ic = Ok r' →
  take (S k) (equity_curve r) = take (S k) (equity_curve r').
Proof.
  intros Hlen Heq (st & s & _ & _ & ->)%run_inv
    (st' & s' & _ & _ & ->)%run_inv.
  by apply prefix_equity.
Qed.

Lemma no_lookahead_witness :
  ∃ r r',
    Backtester.run (numlib := approx_numlib)
      (default_backtester [100; 110; 121; 110]%Z) [fz 1; fz 1; fz 0; fz 0]
      (fz 1000) = Ok r ∧
    Backtester.run (numlib := approx_numlib)
      (default_backtester [100; 110; 121; 110]%Z) [fz 1; fz 1; fz 1; fz (-1)]
      (fz 1000) = Ok r' ∧
    take 3 (equity_curve r) = take 3 (equity_curve r') ∧
    equity_curve r !! 3%nat ≠ equity_curve r' !! 3%nat.
Proof.
  do 2 eexists.
  split; [vm_compute; reflexivity|]. split; [vm_compute; reflexivity|].
  split.
  - apply (no_lookahead (numlib := approx_numlib)
             (default_backtester [100; 110; 121; 110]%Z)
             [fz 1; fz 1; fz 0; fz 0] [fz 1; fz 1; fz 1; fz (-1)]
             (fz 1000) 2).
    + reflexivity.
    + reflexivity.
    + vm_compute; reflexivity.
    + vm_compute; reflexivity.
  - by_compute.
Defined.

(** X7.  The signals given for the last bar of the frame and after it
    are never used: two signal series of one length that agree before
    the last bar give the same result, or the same exception. *)
Theorem last_signal_unused {numlib : NumLib} (self : Backtester.t)
    (signals signals' : Series) (ic : pyfloat) :
  Backtester.data self ≠ [] →
  length signals = length signals' →
  take (length (Backtester.data self) - 1) signals
  = take (length (Backtester.data self) - 1) signals' →
  Backtester.run self signals ic = Backtester.run self signals' ic.
Proof.
  intros Hne Hlen Heq. unfold Backtester.run.
  rewrite (prefix_frame self signals signals' ic); [done | done |].
  by rewrite frame_rows_nonempty.
Qed.

Lemma last_signal_unused_witness :
  Backtester.run (numlib := approx_numlib)
    (default_backtester [100; 110; 121]%Z) [fz 1; fz 0; fz 1]
    Backtester.default_initial_capital
  = Backtester.run (numlib := approx_numlib)
      (default_backtester [100; 110; 121]%Z) [fz 1; fz 0; fz (-1)]
      Backtester.default_initial_capital.
Proof.
  apply (last_signal_unused (numlib := approx_numlib)
           (default_backtester [100; 110; 121]%Z)).
  - by_compute.
  - reflexivity.
  - reflexivity.
Defined.

(** ** The range of the statistics *)

Lemma fmin_nonpos (a x : pyfloat) :
  is_nan a = false → is_nan x = false → fltb (Fin 0) a = false →
  is_nan (fmin a x) = false ∧ fltb (Fin 0) (fmin a x) = false.
Proof.
  intros Ha Hx Hle. unfold fmin.
  destruct (fltb x a) eqn:Hlt; [|done]. split; [done|].
  destruct x as [|[|]|p], a as [|[|]|q]; try done.
  simpl in *. apply bool_decide_eq_true in Hlt.
  apply bool_decide_eq_false in Hle. apply bool_decide_eq_false.
  intros Hp. apply Hle. by eapply Qclt_trans.
Qed.

Lemma foldl_fmin_nonpos (l : Series) (a : pyfloat) :
  Forall (fun x => is_nan x = false) l →
  is_nan a = false → fltb (Fin 0) a = false →
  is_nan (foldl fmin a l) = false ∧ fltb (Fin 0) (foldl fmin a l) = false.
Proof.
  intros Hl. revert a. induction Hl as [|x l Hx _ IH]; intros a Ha Hle.
  - done.
  - cbn [foldl]. destruct (fmin_nonpos a x Ha Hx Hle). by apply IH.
Qed.

Lemma dropna_not_nan (s : Series) :
  Forall (fun x => is_nan x = false) (dropna s).
Proof.
  apply Forall_forall. unfold dropna.
  by intros x [Hx _]%list_elem_of_filter.
Qed.

Lemma fdiv_self_sub_1 (q : Qc) :
  q ≠ 0 → (Fin q / Fin q - Fin 1)%F = Fin 0.
Proof.
  intros Hq. unfold fsub. cbn [fdiv fneg fadd].
  destruct (decide (q = 0)); [done|]. cbn [fadd]. f_equal. field. done.
Qed.

(** The drawdown series starts at 0 when the first point of the equity
    is a finite number other than 0. *)
Lemma max_dd_nonpos (q : Qc) (eq : Series) :
  q ≠ 0 →
  let dd := series_min
              (series_sub_scalar
                 (series_div (Fin q :: eq) (cummax (Fin q :: eq))) (Fin 1)) in
  is_nan dd = false ∧ fltb (Fin 0) dd = false.
Proof.
  intros Hq dd. subst dd. unfold cummax. cbn [cummax_from is_nan].
  unfold series_div. cbn [zip_with]. unfold series_sub_scalar. cbn [map].
  rewrite fdiv_self_sub_1 by done.
  unfold series_min, dropna. rewrite filter_cons_True by done.
  apply foldl_fmin_nonpos; [apply dropna_not_nan | done | by_compute].
Qed.

(** X8.  On a non-empty frame with a non-empty signal series and finite
    cost rates, the MaxDD [run] reports is a number that is not above
    0: never [NaN], never positive. *)
Theorem max_drawdown_not_positive {numlib : NumLib} (self : Backtester.t)
    (signals : Series) (ic : pyfloat) (r : BacktestResult) :
  Backtester.data self ≠ [] → signals ≠ [] →
  is_finite (Backtester.commission self + Backtester.slippage self)%F = true →
  Backtester.run self signals ic = Ok r →
  is_nan (MaxDD (stats r)) = false ∧ fgtb (MaxDD (stats r)) (Fin 0) = false.
Proof.
  intros Hne Hsig Hfin (st & s & _ & Hs & ->)%run_inv. cbn [stats].
  pose proof (first_net_ret self signals ic Hne Hsig Hfin) as Hfirst.
  destruct (net_ret (Backtester.build_frame self signals ic))
    as [|x rest]; [done|].
  injection Hfirst as ->. revert Hs. unfold Backtester._calc_stats.
  destruct (iloc_last _) as [final|e]; simpl_bind; [|intros [=]].
  intros [= <-]. cbn [MaxDD]. unfold fgtb.
  apply (max_dd_nonpos (1 * (1 + 0))
           (cumprod_from (Fin 1 * (Fin 1 + Fin 0))
              (map (fun x => Fin 1 + x) rest))%F).
  by_compute.
Qed.

Lemma max_drawdown_not_positive_witness :
  ∃ r, Backtester.run (numlib := approx_numlib)
         (default_backtester [100; 110; 99; 120]%Z) [fz 1; fz 1; fz 1; fz 0]
         Backtester.default_initial_capital = Ok r ∧
       (is_nan (MaxDD (stats r)) = false ∧
        fgtb (MaxDD (stats r)) (Fin 0) = false) ∧
       fltb (MaxDD (stats r)) (Fin 0) = true.
Proof.
  eexists. split; [vm_compute; reflexivity|]. split; [|reflexivity].
  apply (max_drawdown_not_positive (numlib := approx_numlib)
           (default_backtester [100; 110; 99; 120]%Z)
           [fz 1; fz 1; fz 1; fz 0] Backtester.default_initial_capital).
  - by_compute.
  - done.
  - reflexivity.
  - vm_compute; reflexivity.
Defined.

Lemma Qc_of_nat_le (k n : nat) :
  (k ≤ n)%nat → Q2Qc (inject_Z (Z.of_nat k)) <= Q2Qc (inject_Z (Z.of_nat n)).
Proof.
  intros Hkn. unfold Qcle. cbn [this Q2Qc]. rewrite !Qred_correct.
  unfold Qle. simpl. lia.
Qed.

Lemma Qc_of_nat_pos (n : nat) : 0 < Q2Qc (inject_Z (Z.of_nat (S n))).
Proof.
  unfold Qclt. cbn [this Q2Qc]. rewrite !Qred_correct.
  unfold Qlt. simpl. lia.
Qed.

(** A share of a non-empty list is a fraction between 0 and 1. *)
Lemma share_positive_range (t : Trade) (ts : list Trade) :
  ∃ q, share_positive (t :: ts) = Fin q ∧ 0 <= q ∧ q <= 1.
Proof.
  unfold share_positive.
  set (k := length (filter _ (t :: ts))).
  assert (k ≤ length (t :: ts))%nat as Hk by apply length_filter.
  cbn [length] in *. unfold fz, fdiv.
  set (p := Q2Qc (inject_Z (Z.of_nat k))).
  set (d := Q2Qc (inject_Z (Z.of_nat (S (length ts))))).
  assert (0 < d) as Hd by apply Qc_of_nat_pos.
  assert (d ≠ 0) as Hd0 by (intros H0; rewrite H0 in Hd; by apply Qclt_not_eq in Hd).
  destruct (decide (d = 0)); [done|].
  exists (p / d). split; [done|].
  assert (p / d * d = p) as Hpd by (field; done).
  split.
  - apply (Qcmult_lt_0_le_reg_r _ _ d Hd). rewrite Hpd.
    replace (0 * d) with 0 by ring.
    apply (Qc_of_nat_le 0 k). lia.
  - apply (Qcmult_lt_0_le_reg_r _ _ d Hd). rewrite Hpd.
    replace (1 * d) with d by ring. by apply Qc_of_nat_le.
Qed.

(** X9.  The Winrate [run] reports is a fraction between 0 and 1,
    whatever the prices and signals: trades whose pnl is [NaN] or
    infinite are counted, as not won or won, and cannot break it. *)
Theorem winrate_is_a_fraction {numlib : NumLib} (self : Backtester.t)
    (signals : Series) (ic : pyfloat) (r : BacktestResult) :
  Backtester.run self signals ic = Ok r →
  ∃ q, Winrate (stats r) = Fin q ∧ 0 <= q ∧ q <= 1.
Proof.
  intros (st & s & _ & Hs & ->)%run_inv. cbn [stats].
  revert Hs. unfold Backtester._calc_stats.
  destruct (iloc_last _) as [final|e]; simpl_bind; [|intros [=]].
  intros [= <-]. cbn [Winrate].
  destruct (l_trades st) as [|t ts].
  - exists 0. split; [done|]. split; by_compute.
  - apply share_positive_range.
Qed.

Lemma winrate_is_a_fraction_witness :
  ∃ r, Backtester.run (numlib := approx_numlib)
         (default_backtester [100; 110; 121; 110; 99; 120]%Z)
         [fz 1; fz 0; fz 1; fz 0; fz 0; fz 0]
         Backtester.default_initial_capital = Ok r ∧
       Winrate (stats r) = fq 1 2 ∧
       ∃ q, Winrate (stats r) = Fin q ∧ 0 <= q ∧ q <= 1.
Proof.
  eexists. split; [vm_compute; reflexivity|]. split; [by_compute|].
  apply (winrate_is_a_fraction (numlib := approx_numlib)
           (default_backtester [100; 110; 121; 110; 99; 120]%Z)
           [fz 1; fz 0; fz 1; fz 0; fz 0; fz 0]
           Backtester.default_initial_capital).
  vm_compute; reflexivity.
Defined.

(** ** The Sharpe ratio *)

Lemma foldl_fadd_nan (l : Series) : foldl fadd NaN l = NaN.
Proof. induction l as [|x l IH]; [done|]. exact IH. Qed.

Lemma foldl_fadd_finite (l : Series) (a : pyfloat) :
  is_finite a = true → Forall (fun x => is_finite x = true) l →
  is_finite (foldl fadd a l) = true.
Proof.
  intros Ha Hl. revert a Ha. induction Hl as [|x l Hx _ IH]; intros a Ha.
  - done.
  - cbn [foldl]. apply IH. by apply fadd_finite.
Qed.

Lemma foldl_fadd_nan_elem (l : Series) (a : pyfloat) :
  NaN ∈ l → foldl fadd a l = NaN.
Proof.
  revert a. induction l as [|x l IH]; intros a Hin.
  - by apply elem_of_nil in Hin.
  - cbn [foldl]. apply elem_of_cons in Hin as [<- | Hin].
    + assert ((a + NaN)%F = NaN) as -> by by destruct a.
      apply foldl_fadd_nan.
    + by apply IH.
Qed.

(** A sum that comes out infinite has met infinities of that sign
    only. *)
Lemma foldl_fadd_sign (l : Series) (a : pyfloat) (b : bool) :
  foldl fadd a l = Inf b →
  (∀ c, a = Inf c → c = b) ∧ (∀ c, Inf c ∈ l → c = b).
Proof.
  revert a. induction l as [|x l IH]; intros a Hsum.
  - cbn [foldl] in Hsum. subst a. split.
    + by intros c [= ->].
    + intros c Hin. by apply elem_of_nil in Hin.
  - cbn [foldl] in Hsum. destruct (IH _ Hsum) as [Hhead Htail].
    assert ((a + x)%F ≠ NaN) as Hnan.
    { intros Heq. by rewrite Heq, foldl_fadd_nan in Hsum. }
    split.
    + intros c ->. apply Hhead.
      destruct x as [|c'|q]; simpl in *; try done.
      by case_bool_decide.
    + intros c [<-|Hin]%elem_of_cons; [|by apply Htail].
      apply Hhead. destruct a as [|c'|q]; simpl in *; try done.
      case_bool_decide; [by subst | done].
Qed.

Lemma foldl_fadd_fin (l : Series) (a : pyfloat) (q : Qc) :
  foldl fadd a l = Fin q →
  is_finite a = true ∧ Forall (fun x => is_finite x = true) l.
Proof.
  revert a. induction l as [|x l IH]; intros a Hsum.
  - cbn [foldl] in Hsum. by subst a.
  - cbn [foldl] in Hsum. destruct (IH _ Hsum) as [Hhead Htail].
    assert (is_finite a = true ∧ is_finite x = true) as [Ha Hx].
    { destruct a as [|c|p], x as [|c'|p']; simpl in *; try done.
      by case_bool_decide. }
    split; [done|]. by constructor.
Qed.

Lemma fdiv_inf_nat (b : bool) (n : nat) :
  (Inf b / fz (Z.of_nat n))%F = Inf b.
Proof.
  unfold fz. cbn [fdiv]. f_equal.
  assert (qneg (Q2Qc (inject_Z (Z.of_nat n))) = false) as ->.
  { unfold qneg. apply bool_decide_eq_false. apply Qcle_not_lt.
    apply (Qc_of_nat_le 0 n). lia. }
  by destruct b.
Qed.

Section Sharpe.
Context {numlib : NumLib}.

Lemma fsqrt_fin (q : Qc) :
  fsqrt (Fin q) = NaN ∨ ∃ w, fsqrt (Fin q) = Fin w.
Proof.
  cbn [fsqrt]. destruct (qneg q); [by left|].
  destruct (decide (q = 0)); right; eauto.
Qed.

(** The deviation is a number only when every value is finite, and is
    finite then. *)
Lemma std_not_nan (s : Series) :
  is_nan (std s) = false →
  Forall (fun x => is_finite x = true) (dropna s) ∧
  (2 ≤ length (dropna s))%nat ∧ ∃ z, std s = Fin z.
Proof.
  unfold std. set (v := dropna s). set (n := length v).
  destruct (Nat.leb_spec n 1) as [|Hn]; [done|].
  set (avg := (fsum v / fz (Z.of_nat n))%F).
  set (sqr := map (fun x => ((avg - x) * (avg - x))%F) v).
  destruct (decide (Forall (fun x => is_finite x = true) v)) as [Hall|Hex].
  - intros Hnan. split; [done|]. split; [lia|].
    assert (is_finite (fsum v) = true) as Hsum
      by by apply foldl_fadd_finite.
    assert (is_finite avg = true) as Havg.
    { subst avg. destruct (fsum v) as [| |p]; try done.
      destruct n as [|n']; [lia|]. unfold fz. cbn [fdiv].
      destruct (decide _) as [H0|_]; [by apply fz_nat_nonzero in H0 | done]. }
    assert (is_finite (fsum sqr) = true) as Hsqr.
    { apply foldl_fadd_finite; [done|]. subst sqr. apply Forall_map.
      eapply Forall_impl; [exact Hall|]. intros x Hx. cbv beta.
      apply fmul_finite; unfold fsub; apply fadd_finite; try done;
        by destruct x. }
    assert (∃ p, (fsum sqr / fz (Z.of_nat (n - 1)))%F = Fin p) as [p Hp].
    { destruct (fsum sqr) as [| |p]; try done.
      destruct (n - 1)%nat as [|m] eqn:Hm; [lia|]. unfold fz. cbn [fdiv].
      destruct (decide _) as [H0|_]; [by apply fz_nat_nonzero in H0 | eauto]. }
    rewrite Hp in Hnan |- *.
    destruct (fsqrt_fin p) as [Heq | [w Heq]]; rewrite Heq in Hnan |- *;
      [done | eauto].
  - intros Hnan. exfalso.
    apply not_Forall_Exists in Hex; [|apply _].
    apply Exists_exists in Hex as (x & Hin & Hx). simpl in Hx.
    assert (is_nan x = false) as Hxnan.
    { pose proof (dropna_not_nan s) as Hd. rewrite Forall_forall in Hd.
      by apply Hd. }
    destruct x as [|c|q]; try done.
    assert (NaN ∈ sqr) as Hsq.
    { subst sqr. rewrite map_fmap. apply list_elem_of_fmap.
      exists (Inf c). split; [|done]. subst avg.
      destruct (fsum v) as [|b|p] eqn:Hsum.
      - done.
      - rewrite fdiv_inf_nat.
        destruct (foldl_fadd_sign _ _ _ Hsum) as [_ Hsign].
        rewrite (Hsign c Hin). by destruct b.
      - destruct (foldl_fadd_fin _ _ _ Hsum) as [_ Hfin].
        rewrite Forall_forall in Hfin. by specialize (Hfin _ Hin). }
    unfold fsum in Hnan. by rewrite (foldl_fadd_nan_elem _ _ Hsq) in Hnan.
Qed.

Lemma mean_finite (s : Series) :
  Forall (fun x => is_finite x = true) (dropna s) → dropna s ≠ [] →
  is_finite (mean s) = true.
Proof.
  intros Hall Hne. unfold mean.
  destruct (dropna s) as [|x v] eqn:Hv; [done|].
  assert (is_finite (fsum (x :: v)) = true) as Hsum
    by by apply foldl_fadd_finite.
  destruct (fsum (x :: v)) as [| |p]; try done.
  cbn [length]. unfold fz. cbn [fdiv].
  destruct (decide _) as [H0|_]; [by apply fz_nat_nonzero in H0 | done].
Qed.

(** The guarded ratio: finite for any annualisation factor a square
    root can be. *)
Lemma sharpe_finite (returns : Series) (a : pyfloat) :
  (a = NaN ∨ ∃ w, a = Fin w) →
  is_finite (if fgtb (std returns * a)%F (Fin 0)
             then (mean returns / std returns * a)%F else Fin 0) = true.
Proof.
  intros Ha. destruct (fgtb _ _) eqn:Hvol; [|done].
  assert (is_nan (std returns) = false) as Hstd.
  { destruct (std returns); done. }
  destruct (std_not_nan _ Hstd) as (Hall & Hlen & z & Hz).
  assert (is_finite (mean returns) = true) as Hmean.
  { apply mean_finite; [done|]. intros Hnil. rewrite Hnil in Hlen.
    simpl in Hlen. lia. }
  rewrite Hz in Hvol |- *.
  destruct Ha as [-> | [w ->]]; [done|].
  destruct (mean returns) as [| |m]; try done.
  cbn [fdiv]. destruct (decide (z = 0)) as [->|Hz0]; [|done].
  exfalso. unfold fgtb in Hvol. cbn [fmul fltb] in Hvol.
  apply bool_decide_eq_true in Hvol. apply Qclt_not_eq in Hvol.
  apply Hvol. ring.
Qed.

(** X10.  The Sharpe ratio [run] reports is always a finite number,
    in both variants: where the deviation of the returns is [NaN], 0
    or taken over infinite returns, the guard [vol > 0] fails and 0 is
    reported.  (Volatility has no such guard.) *)
Theorem sharpe_is_finite :
  (∀ (self : Backtester.t) (signals : Series) (ic : pyfloat)
     (r : BacktestResult),
     Backtester.run self signals ic = Ok r →
     is_finite (Sharpe (stats r)) = true)
  ∧ (∀ (self : BacktesterMin.t) (signals : Series) (ic : pyfloat)
       (r : BacktestResult),
       BacktesterMin.run self signals ic = Ok r →
       is_finite (Sharpe (stats r)) = true).
Proof.
  split.
  - intros self signals ic r (st & s & _ & Hs & ->)%run_inv. cbn [stats].
    revert Hs. unfold Backtester._calc_stats.
    destruct (iloc_last _) as [final|e]; simpl_bind; [|intros [=]].
    intros [= <-]. cbn [Sharpe].
    apply (sharpe_finite _ (fsqrt (fz 252))), fsqrt_fin.
  - intros self signals ic r. unfold BacktesterMin.run.
    destruct (for_each _ _ _) as [st|e]; simpl_bind; [|intros [=]].
    unfold BacktesterMin._calc_stats.
    destruct (iloc_last _) as [final|e]; simpl_bind; [|intros [=]].
    intros [= <-]. cbn [stats Sharpe].
    apply (sharpe_finite _ (fsqrt (fz (BacktesterMin.bars_per_year self)))),
      fsqrt_fin.
Qed.
End Sharpe.

Lemma sharpe_is_finite_witness :
  (∃ r, Backtester.run (numlib := approx_numlib)
          (default_backtester [100; 0; 50; 60]%Z) [fz 1; fz 1; fz 1; fz 1]
          Backtester.default_initial_capital = Ok r ∧
        Volatility (stats r) = NaN ∧
        is_finite (Sharpe (stats r)) = true)
  ∧ (∃ r, BacktesterMin.run (numlib := approx_numlib)
            (BacktesterMin.init (daily_bars [100; 110; 99; 120]%Z)
               BacktesterMin.default_commission
               BacktesterMin.default_slippage (-4))
            [fz 1; fz 1; fz 1; fz 0]
            BacktesterMin.default_initial_capital = Ok r ∧
          is_finite (Sharpe (stats r)) = true).
Proof.
  split.
  - eexists. split; [vm_compute; reflexivity|]. split; [reflexivity|].
    apply (proj1 (sharpe_is_finite (numlib := approx_numlib))
             (default_backtester [100; 0; 50; 60]%Z)
             [fz 1; fz 1; fz 1; fz 1] Backtester.default_initial_capital).
    vm_compute; reflexivity.
  - eexists. split; [vm_compute; reflexivity|].
    apply (proj2 (sharpe_is_finite (numlib := approx_numlib))
             (BacktesterMin.init (daily_bars [100; 110; 99; 120]%Z)
                BacktesterMin.default_commission
                BacktesterMin.default_slippage (-4))
             [fz 1; fz 1; fz 1; fz 0]
             BacktesterMin.default_initial_capital).
    vm_compute; reflexivity.
Defined.

(** ** The trades and the bars *)

Lemma spans_snoc (rs : list Row) (r : Row) (tr : Trade) (i j : nat) :
  spans rs tr i j → spans (rs ++ [r]) tr i j.
Proof.
  intros (rin & rout & Hi & Hj & Hlt & Hnz & Hheld & Hrest).
  exists rin, rout. split_and!; try tauto.
  - by apply lookup_app_l_Some.
  - by apply lookup_app_l_Some.
  - intros m row Hm Hrow. apply (Hheld m row Hm).
    rewrite lookup_app_l in Hrow; [done|].
    apply lookup_lt_Some in Hj. lia.
Qed.

Lemma chained_snoc (ix : list (nat * nat)) (p : nat * nat) :
  chained ix → (∀ a, last ix = Some a → (a.2 ≤ p.1)%nat) →
  chained (ix ++ [p]).
Proof.
  intros Hch Hlast k a b Ha Hb.
  assert (S k < length (ix ++ [p]))%nat as Hk by by eapply lookup_lt_Some.
  rewrite length_app in Hk. simpl in Hk.
  rewrite lookup_app_l in Ha by lia.
  destruct (decide (S k < length ix)%nat) as [Hin|Hout].
  - rewrite lookup_app_l in Hb by lia. by eapply Hch.
  - assert (S k = length ix) as Hlen by lia.
    rewrite Hlen, list_lookup_middle in Hb by done. injection Hb as <-.
    apply Hlast. rewrite last_lookup. by rewrite <- Hlen.
Qed.

Lemma spans_exit_bound (rs : list Row) (ts : list Trade)
    (ix : list (nat * nat)) (p : nat * nat) :
  Forall2 (fun tr p => spans rs tr p.1 p.2) ts ix →
  last ix = Some p → (p.2 < length rs)%nat.
Proof.
  intros Hall Hp. rewrite last_lookup in Hp.
  destruct (Forall2_lookup_r _ _ _ _ _ Hall Hp)
    as (tr & _ & rin & rout & _ & Hj & _).
  by eapply lookup_lt_Some.
Qed.

Lemma loop_inv_locals0 : loop_inv [] locals0.
Proof.
  exists []. split; [constructor|]. split; [|done].
  intros k a b Ha. by rewrite lookup_nil in Ha.
Qed.

Lemma loop_body_inv (rs : list Row) (st st' : Locals) (row : Row) :
  loop_inv rs st → Backtester.loop_body st row = Ok st' →
  loop_inv (rs ++ [row]) st'.
Proof.
  intros (ix & Hall & Hch & Hheld) Hb.
  assert (Forall2 (fun tr p => spans (rs ++ [row]) tr p.1 p.2)
                  (l_trades st) ix) as Hall'.
  { eapply Forall2_impl; [exact Hall|]. intros tr p. apply spans_snoc. }
  apply loop_body_cases in Hb
    as [(Hp & Hs & ->) | [(Hp & Hs & ep & Hep & _ & ->) | (-> & Hp & _)]].
  - exists ix. split; [done|]. split; [done|]. intros _. cbn.
    exists (length rs), row. split_and!; try done.
    + by apply list_lookup_middle.
    + intros m r' Hm Hr'.
      assert (m < length (rs ++ [row]))%nat as Hlt
        by by eapply lookup_lt_Some.
      rewrite length_app in Hlt. simpl in Hlt.
      assert (m = length rs) as -> by lia.
      rewrite list_lookup_middle in Hr' by done. by injection Hr' as <-.
    + intros p Hlast.
      pose proof (spans_exit_bound _ _ _ _ Hall Hlast). lia.
  - destruct (Hheld Hp) as (i & rin & Hi & Hpos & Hprice & Hdate & Hconst
                              & Hlast).
    rewrite Hprice in Hep. injection Hep as <-.
    exists (ix ++ [(i, length rs)]). cbn [l_trades l_position l_entry_price
                                          l_entry_date].
    split; [|split].
    + apply Forall2_app; [done|]. constructor; [|constructor].
      cbn [fst snd]. exists rin, row. unfold closing_trade.
      cbn [entry_date entry_price exit_date exit_price pnl].
      rewrite Hpos in Hp, Hs. split_and!; try done.
      * by apply lookup_app_l_Some.
      * by apply list_lookup_middle.
      * by eapply lookup_lt_Some.
      * intros m r' Hm Hr'. apply (Hconst m r'); [lia|].
        rewrite lookup_app_l in Hr'; [done | lia].
      * by rewrite Hpos.
    + by apply chained_snoc.
    + intros Hnz. rewrite Hnz. exists (length rs), row. split_and!; try done.
      * by apply list_lookup_middle.
      * intros m r' Hm Hr'.
        assert (m < length (rs ++ [row]))%nat as Hlt
          by by eapply lookup_lt_Some.
        rewrite length_app in Hlt. simpl in Hlt.
        assert (m = length rs) as -> by lia.
        rewrite list_lookup_middle in Hr' by done. by injection Hr' as <-.
      * intros p. rewrite last_snoc. by intros [= <-].
  - exists ix. split; [done|]. split; [done|]. intros Hnz.
    destruct (Hheld Hnz) as (i & rin & Hi & Hpos & Hprice & Hdate & Hconst
                               & Hlast).
    exists i, rin. split_and!; try done.
    + by apply lookup_app_l_Some.
    + intros m r' Hm Hr'.
      assert (m < length (rs ++ [row]))%nat as Hlt
        by by eapply lookup_lt_Some.
      rewrite length_app in Hlt. simpl in Hlt.
      destruct (decide (m = length rs)) as [->|Hne].
      * rewrite list_lookup_middle in Hr' by done. injection Hr' as <-.
        congruence.
      * rewrite lookup_app_l in Hr' by lia. by eapply Hconst.
Qed.

Lemma loop_inv_holds (rs : list Row) (st : Locals) :
  for_each Backtester.loop_body rs locals0 = Ok st → loop_inv rs st.
Proof.
  revert st. induction rs as [|r rs IH] using rev_ind; intros st.
  - intros [= <-]. apply loop_inv_locals0.
  - intros (st1 & Hloop & Hb)%for_each_snoc.
    eapply loop_body_inv; [by apply IH | done].
Qed.



(** ** Calls on the object store *)

(** X12.  [run] can be called again: on a backtester whose frame holds
    the input columns, a second call with the same arguments, made in
    the store the first call has left, returns (or raises) what the
    first one did. *)
Theorem run_is_repeatable {numlib : NumLib} (self : Store.backtester)
    (signals : Store.loc) (ic : pyfloat) (h h' : gmap Store.loc Store.obj)
    (rows0 : DataFrame) (sig : Series) (a : result BacktestResult) :
  h !! Store.bt_data self
  = Some (Store.OFrame {| Store.fo_rows := rows0; Store.fo_cols := ∅ |}) →
  h !! signals = Some (Store.OSeries sig) →
  Store.Backtester_run self signals ic h = (a, h') →
  fst (Store.Backtester_run self signals ic h') = a.
Proof.
  intros Hdata Hsig Hrun.
  pose proof (Backtester_run_preserves _ _ _ _ _ _ Hrun) as Hpres.
  pose proof (Backtester_run_value self signals ic h rows0 sig Hdata Hsig)
    as Hfirst.
  rewrite Hrun in Hfirst. cbn [fst] in Hfirst. rewrite Hfirst.
  apply Backtester_run_value.
  - rewrite Hpres; [done|]. apply elem_of_dom. eauto.
  - rewrite Hpres; [done|]. apply elem_of_dom. eauto.
Qed.

Lemma run_is_repeatable_witness :
  let h : gmap Store.loc Store.obj :=
    {[ 1%positive :=
         Store.OFrame {| Store.fo_rows := daily_bars [100; 110; 121; 121]%Z;
                         Store.fo_cols := ∅ |};
       2%positive := Store.OSeries [fz 1; fz 1; fz 0; fz 0] ]} in
  let self := {| Store.bt_data := 1%positive;
                 Store.bt_commission := Backtester.default_commission;
                 Store.bt_slippage := Backtester.default_slippage |} in
  let out := Store.Backtester_run (numlib := approx_numlib) self 2%positive
               Backtester.default_initial_capital h in
  fst (Store.Backtester_run (numlib := approx_numlib) self 2%positive
         Backtester.default_initial_capital (snd out)) = fst out.
Proof.
  intros h self out.
  apply (run_is_repeatable (numlib := approx_numlib) self 2%positive
           Backtester.default_initial_capital h (snd out)
           (daily_bars [100; 110; 121; 121]%Z) [fz 1; fz 1; fz 0; fz 0]).
  - vm_compute; reflexivity.
  - vm_compute; reflexivity.
  - apply surjective_pairing.
Defined.

(** X13.  [Backtester.__init__] keeps a copy of the frame it is given:
    the copy is a new object, the caller's objects are left as they
    were, and whatever the caller's frame is replaced by afterwards,
    [run] computes on the rows the frame had at construction. *)
Theorem init_keeps_a_copy {numlib : NumLib} (data : Store.loc)
    (c s : pyfloat) (h h1 : gmap Store.loc Store.obj) (rows0 : DataFrame)
    (a : result Store.backtester) :
  h !! data
  = Some (Store.OFrame {| Store.fo_rows := rows0; Store.fo_cols := ∅ |}) →
  Store.Backtester_init data c s h = (a, h1) →
  ∃ self,
    a = Ok self ∧ (Store.bt_data self ∉ dom h) ∧ Store.preserved h h1 ∧
    ∀ (f' : Store.FrameObj) (signals : Store.loc) (sig : Series)
      (ic : pyfloat),
      h1 !! signals = Some (Store.OSeries sig) →
      fst (Store.Backtester_run self signals ic
             (<[data := Store.OFrame f']> h1))
      = Backtester.run (Backtester.init rows0 c s) sig ic.
Proof.
  intros Hdata. unfold Store.Backtester_init, Store.bind at 1.
  destruct (Store.frame_copy data h) as [[l|e] h0] eqn:Hcopy.
  - intros [= <- <-].
    pose proof (frame_copy_fresh _ _ _ _ Hcopy) as [Hpres Hfresh].
    specialize (Hfresh l eq_refl).
    assert (h0 !! l
            = Some (Store.OFrame {| Store.fo_rows := rows0;
                                    Store.fo_cols := ∅ |})) as Hl.
    { revert Hcopy. unfold Store.frame_copy, Store.bind, Store.read_frame,
        Store.alloc. rewrite Hdata. intros [= <- <-].
      apply lookup_insert_eq. }
    assert (l ≠ data) as Hne.
    { intros ->. apply Hfresh, elem_of_dom. eauto. }
    eexists. split; [reflexivity|]. cbn [Store.bt_data].
    split; [done|]. split; [done|].
    intros f' signals sig ic Hsig.
    assert (signals ≠ data) as Hne'.
    { intros ->. rewrite Hpres in Hsig by (apply elem_of_dom; eauto).
      by rewrite Hdata in Hsig. }
    apply (Backtester_run_value
             {| Store.bt_data := l; Store.bt_commission := c;
                Store.bt_slippage := s |}).
    + cbn [Store.bt_data]. by rewrite lookup_insert_ne.
    + by rewrite lookup_insert_ne.
  - revert Hcopy. unfold Store.frame_copy, Store.bind, Store.read_frame.
    by rewrite Hdata.
Qed.

Lemma init_keeps_a_copy_witness :
  let h : gmap Store.loc Store.obj :=
    {[ 1%positive :=
         Store.OFrame {| Store.fo_rows := daily_bars [100; 110; 121; 121]%Z;
                         Store.fo_cols := ∅ |};
       2%positive := Store.OSeries [fz 1; fz 1; fz 0; fz 0] ]} in
  let out := Store.Backtester_init 1%positive Backtester.default_commission
               Backtester.default_slippage h in
  ∃ self,
    fst out = Ok self ∧ (Store.bt_data self ∉ dom h) ∧
    Store.preserved h (snd out) ∧
    fst (Store.Backtester_run (numlib := approx_numlib) self 2%positive
           (fz 1000)
           (<[1%positive :=
                Store.OFrame {| Store.fo_rows := daily_bars [1; 2]%Z;
                                Store.fo_cols := ∅ |}]> (snd out)))
    = Backtester.run (numlib := approx_numlib)
        (default_backtester [100; 110; 121; 121]%Z)
        [fz 1; fz 1; fz 0; fz 0] (fz 1000).
Proof.
  intros h out.
  destruct (init_keeps_a_copy (numlib := approx_numlib) 1%positive
              Backtester.default_commission Backtester.default_slippage
              h (snd out) (daily_bars [100; 110; 121; 121]%Z) (fst out))
    as (self & Hself & Hfresh & Hpres & Hrun).
  - vm_compute; reflexivity.
  - apply surjective_pairing.
  - exists self. split; [exact Hself|]. split; [exact Hfresh|].
    split; [exact Hpres|]. apply Hrun. vm_compute; reflexivity.
Defined.

(** * [Config] *)

Lemma setdefault_keeps (env : gmap string string) (kv : string * string)
    (k x : string) :
  env !! k = Some x → setdefault env kv !! k = Some x.
Proof.
  intros Hk. unfold setdefault.
  destruct (env !! kv.1) eqn:Hkv; [done|].
  rewrite lookup_insert_ne; [done|]. intros <-. congruence.
Qed.

Lemma sample_load_dotenv_keeps (content : string) (env : gmap string string)
    (k x : string) :
  env !! k = Some x → sample_load_dotenv content env !! k = Some x.
Proof.
  unfold sample_load_dotenv.
  generalize (omap cut_at_equals (split_lines content)). intros kvs.
  revert env. induction kvs as [|kv kvs IH]; intros env Hk; [done|].
  cbn [foldl]. by apply IH, setdefault_keeps.
Qed.

Example sample_load_dotenv_example :
  sample_load_dotenv
    (String.append "TOKEN=abc"
       (String (ascii_of_nat 10) "MODE=paper"))
    {[ "MODE"%string := "live"%string ]}
  = {[ "MODE"%string := "live"%string; "TOKEN"%string := "abc"%string ]}.
Proof. by_compute. Qed.

Section ConfigFacts.
Context {dotenv : Config.Dotenv}.

Lemma init_vars (env_file : string) (w : Config.World) :
  Config.dicts (Config.__init__ env_file w).2
    !! Config._vars (Config.__init__ env_file w).1
  = Some (Config.environ (Config.__init__ env_file w).2).
Proof.
  unfold Config.__init__. cbn [fst snd Config.dicts Config._vars
                                 Config.environ].
  apply lookup_insert_eq.
Qed.

Lemma init_get {A} (env_file : string) (w : Config.World) (key : string)
    (d : A) :
  Config.get (Config.__init__ env_file w).1 key d
    (Config.__init__ env_file w).2
  = Some (match Config.environ (Config.__init__ env_file w).2 !! key with
          | Some v => inl v
          | None => inr d
          end).
Proof. unfold Config.get. by rewrite init_vars. Qed.

Lemma init_getattr (env_file : string) (w : Config.World) (item : string) :
  Config.__getattr__ (Config.__init__ env_file w).1 item
    (Config.__init__ env_file w).2
  = Some (match Config.environ (Config.__init__ env_file w).2 !! item with
          | Some v => inl v
          | None => inr (Config.AttributeError (Config.not_found item))
          end).
Proof. unfold Config.__getattr__. by rewrite init_vars. Qed.



End ConfigFacts.



(** * The accounting of a bar *)

Lemma fabs_finite (x : pyfloat) :
  is_finite x = true → is_finite (fabs x) = true.
Proof. by destruct x. Qed.

Lemma fsub_finite (x y : pyfloat) :
  is_finite x = true → is_finite y = true → is_finite (x - y)%F = true.
Proof. by destruct x, y. Qed.

Section Accounting.
Context (data : DataFrame) (signals : Series) (ic c s : pyfloat).
Let self := Backtester.init data c s.
Let df := Backtester.build_frame self signals ic.

Hypothesis data_nonempty : data ≠ [].
Hypothesis same_length : length signals = length data.
Hypothesis closes_positive :
  Forall (fun b => pos_finite (close b) = true) data.
Hypothesis signals_finite : Forall (fun x => is_finite x = true) signals.

Lemma net_ret_lookup_S (t : nat) :
  (S t < length data)%nat →
  net_ret df !! S t
  = Some (bar_net_return signals (map close data) (c + s)%F (S t)).
Proof.
  intros Ht.
  assert (∀ i, (i < length data)%nat →
               signal df !! i = Some (Spec.LaggedPosition signals i))
    as Hsig.
  { intros i Hi. by apply (nocost_signal_lookup data signals ic). }
  assert (ret df !! S t = Some (Spec.MarketReturn (map close data) (S t)))
    as Hret.
  { change (ret df)
      with (fillna (Fin 0) (pct_change (map close (rows df)))).
    unfold df. rewrite (frame_rows_nonempty self) by done.
    apply market_return_lookup; [by apply Forall_map|].
    by rewrite length_map. }
  pose proof (trade_change_lookup_S self signals ic t _ _
                (Hsig t ltac:(lia)) (Hsig (S t) Ht)) as Htc.
  fold df in Htc.
  rewrite finite_not_nan in Htc.
  2: { apply fabs_finite, fsub_finite; apply lagged_finite; try done; lia. }
  change (net_ret df) with (series_sub (strategy_ret df) (costs df)).
  change (costs df)
    with (series_mul_scalar (trade_change df)
            (Backtester.commission self + Backtester.slippage self)%F).
  change (strategy_ret df) with (series_mul (signal df) (ret df)).
  unfold series_sub, series_mul, series_mul_scalar.
  rewrite !lookup_zip_with, lookup_map, (Hsig (S t) Ht), Hret, Htc.
  done.
Qed.

Lemma bar_net_return_finite (t : nat) :
  is_finite (c + s)%F = true → (t < length data)%nat →
  is_finite (bar_net_return signals (map close data) (c + s)%F t) = true.
Proof.
  intros Hrate Ht. destruct t as [|k]; [done|]. cbn [bar_net_return].
  apply fsub_finite; apply fmul_finite; try done.
  - apply lagged_finite; [done | lia].
  - apply market_return_finite; [by apply Forall_map|].
    by rewrite length_map.
  - apply fabs_finite, fsub_finite; apply lagged_finite; try done; lia.
Qed.

Lemma net_ret_closed_form :
  is_finite (c + s)%F = true →
  net_ret df
  = map (bar_net_return signals (map close data) (c + s)%F)
        (seq 0 (length data)).
Proof.
  intros Hrate. apply list_eq. intros i. rewrite lookup_map.
  destruct (decide (i < length data)%nat) as [Hi|Hi].
  - rewrite lookup_seq_lt by done. cbn [fmap option_fmap option_map plus].
    destruct i as [|t].
    + apply (first_net_ret self signals ic); [done | | done].
      intros ->. simpl in same_length. destruct data; [done | simpl in *; lia].
    + by apply net_ret_lookup_S.
  - rewrite lookup_seq_ge by lia. apply lookup_ge_None.
    unfold df. rewrite length_net_ret, (frame_rows_nonempty self) by done.
    change (length data ≤ i)%nat. lia.
Qed.
End Accounting.

(** Without [NaN] entries [cumprod] is the list of the running
    products. *)
Lemma cumprod_from_running (a : pyfloat) (l : Series) :
  Forall (fun x => is_nan x = false) l →
  cumprod_from a l
  = map (fun t => foldl fmul a (take (S t) l)) (seq 0 (length l)).
Proof.
  intros Hl. revert a. induction Hl as [|x l Hx _ IH]; intros a; [done|].
  cbn [cumprod_from length seq map take foldl]. rewrite Hx. f_equal.
  rewrite IH, <- fmap_S_seq, !map_fmap, <- list_fmap_compose. done.
Qed.

(** X17.  The equity curve in closed form.  On a non-empty frame of
    positive finite closes with as many finite signals and finite cost
    rates, [run] returns, and the equity at bar [t] is the initial
    capital times the product over bars [0 .. t] of one plus the net
    return of the bar: position times market return less cost rate
    times position change. *)
Theorem equity_curve_closed_form {numlib : NumLib} (data : DataFrame)
    (signals : Series) (ic c s : pyfloat) :
  data ≠ [] →
  length signals = length data →
  Forall (fun b => pos_finite (close b) = true) data →
  Forall (fun x => is_finite x = true) signals →
  is_finite (c + s)%F = true →
  ∃ r, Backtester.run (Backtester.init data c s) signals ic = Ok r ∧
       equity_curve r
       = map (fun t => (growth signals (map close data) (c + s) t * ic)%F)
             (seq 0 (length data)).
Proof.
  intros Hne Hlen Hpos Hfin Hrate.
  destruct (run_ok (Backtester.init data c s) signals ic) as [r Hr].
  { by left. }
  { eapply Forall_impl; [exact Hpos|].
    intros b (q & -> & Hq)%pos_finite_inv [= ->]. done. }
  exists r. split; [done|].
  apply run_inv in Hr as (st & st' & _ & _ & ->). cbn [equity_curve].
  set (df := Backtester.build_frame (Backtester.init data c s) signals ic).
  change (equity df)
    with (series_mul_scalar
            (cumprod (series_add_scalar (Fin 1) (net_ret df))) ic).
  unfold df. rewrite net_ret_closed_form by done.
  set (nr := bar_net_return signals (map close data) (c + s)%F).
  unfold series_mul_scalar, series_add_scalar, cumprod.
  rewrite cumprod_from_running.
  - rewrite !length_map, length_seq, map_map. apply map_ext_in.
    intros t Ht%in_seq. f_equal. unfold growth. fold nr. f_equal.
    rewrite map_map, !map_fmap, <- fmap_take, take_seq. do 2 f_equal. lia.
  - apply Forall_map, Forall_map, Forall_forall.
    intros t [_ Ht]%elem_of_seq. apply finite_not_nan, fadd_finite; [done|].
    by apply bar_net_return_finite.
Qed.

Lemma equity_curve_closed_form_witness :
  let data := daily_bars [100; 110; 121; 110]%Z in
  let signals := [fz 1; fz (-1); fz (-1); fz 0] in
  ∃ r, Backtester.run (numlib := approx_numlib)
         (Backtester.init data (fq 1 1000) (fq 1 1000)) signals (fz 1000)
       = Ok r ∧
       equity_curve r
       = map (fun t =>
                (growth signals (map close data) (fq 1 1000 + fq 1 1000) t
                 * fz 1000)%F)
             (seq 0 4) ∧
       equity_curve r !! 1%nat = Some (fz 1098).
Proof.
  intros data signals.
  destruct (equity_curve_closed_form (numlib := approx_numlib) data signals
              (fz 1000) (fq 1 1000) (fq 1 1000))
    as (r & Hr & Heq);
    [by_compute | reflexivity | by_compute | by_compute | reflexivity |].
  exists r. split; [exact Hr|]. split; [exact Heq|].
  rewrite Heq. by_compute.
Defined.

(** * Missing and short signals *)

Lemma fillna_shift1_fillna (s : Series) :
  fillna (Fin 0) (shift1 (fillna (Fin 0) s)) = fillna (Fin 0) (shift1 s).
Proof.
  unfold shift1. rewrite length_fillna.
  change (NaN :: fillna (Fin 0) s)
    with (map (fun x => if is_nan x then NaN else x) [NaN]
          ++ fillna (Fin 0) s).
  rewrite <- !take_fillna. f_equal. cbn [app map is_nan fillna]. f_equal.
  unfold fillna. rewrite map_map. apply map_ext.
  intros x. by destruct x.
Qed.

(** X18.  A missing signal is a flat signal: replacing the [NaN]
    entries of the signal series by 0 changes nothing in what [run]
    returns or raises. *)
Theorem missing_signal_is_flat {numlib : NumLib} (self : Backtester.t)
    (signals : Series) (ic : pyfloat) :
  Backtester.run self (fillna (Fin 0) signals) ic
  = Backtester.run self signals ic.
Proof.
  unfold Backtester.run, Backtester.build_frame.
  by rewrite fillna_shift1_fillna.
Qed.

Lemma last_two {A} (l : list A) :
  (2 ≤ length l)%nat → ∃ rs a b, l = rs ++ [a; b].
Proof.
  destruct l as [|b l _] using rev_ind; [simpl; lia|].
  destruct l as [|a l _] using rev_ind; [simpl; lia|].
  intros _. exists l, a, b. by rewrite <- app_assoc.
Qed.

Lemma fmul_nan_r (x : pyfloat) : (x * NaN)%F = NaN.
Proof. by destruct x. Qed.

Lemma reindex_lookup_pad (n : nat) (s : Series) (i : nat) :
  (length s ≤ i < n)%nat → reindex n s !! i = Some NaN.
Proof.
  intros Hi. unfold reindex. rewrite lookup_take_lt by lia.
  rewrite lookup_app_r by lia. apply lookup_replicate_2. lia.
Qed.

(** X19.  The lengths are not checked, and a signal series two or more
    bars shorter than the frame shows in the trades: the lagged
    position is [NaN] on the bars the series does not reach, every such
    bar after the first closes a trade, and the last trade [run]
    returns is closed at the last bar with pnl [NaN]. *)
Theorem short_signals_give_nan_trades {numlib : NumLib}
    (self : Backtester.t) (signals : Series) (ic : pyfloat)
    (r : BacktestResult) :
  (length signals + 2 ≤ length (Backtester.data self))%nat →
  Backtester.run self signals ic = Ok r →
  ∃ tr bar, last (trades r) = Some tr ∧
            last (Backtester.data self) = Some bar ∧
            pnl tr = NaN ∧ exit_date tr = date bar ∧
            exit_price tr = close bar.
Proof.
  intros Hlen (st & s & Hloop & _ & ->)%run_inv. cbn [trades].
  set (df := Backtester.build_frame self signals ic) in *.
  assert (Backtester.data self ≠ []) as Hne.
  { intros Hnil. rewrite Hnil in Hlen. simpl in Hlen. lia. }
  assert (rows df = Backtester.data self) as Hrows
    by by apply frame_rows_nonempty.
  assert (length (iterrows df) = length (Backtester.data self)) as Hn.
  { unfold df. by rewrite length_iterrows, frame_rows_nonempty. }
  assert (∀ i row, (length signals ≤ i)%nat →
                   iterrows df !! i = Some row → row_signal row = NaN)
    as Hnan.
  { intros i row Hi Hrow.
    pose proof (lookup_lt_Some _ _ _ Hrow) as Hlt.
    apply (iterrows_lookup self signals ic) in Hrow as [Hsig _].
    fold df in Hsig.
    change (signal df)
      with (reindex (length (rows df)) (fillna (Fin 0) (shift1 signals)))
      in Hsig.
    rewrite reindex_lookup_pad in Hsig; [by injection Hsig as <-|].
    rewrite length_fillna, length_shift1, Hrows. lia. }
  destruct (last_two (iterrows df)) as (rs & rprev & rlast & Hrs); [lia|].
  rewrite Hrs in Hn. rewrite length_app in Hn. simpl in Hn.
  rewrite Hrs in Hloop.
  change (rs ++ [rprev; rlast]) with (rs ++ [rprev] ++ [rlast]) in Hloop.
  rewrite app_assoc in Hloop.
  apply for_each_snoc in Hloop as (st1 & Hloop & Hb).
  apply for_each_snoc in Hloop as (st0 & _ & Hb0).
  assert (row_signal rprev = NaN) as Hprev.
  { apply (Hnan (length rs)); [lia|]. rewrite Hrs.
    by apply list_lookup_middle. }
  assert (iterrows df !! S (length rs) = Some rlast) as Hl.
  { rewrite Hrs. rewrite lookup_app_r by lia.
    by replace (S (length rs) - length rs)%nat with 1%nat by lia. }
  assert (row_signal rlast = NaN) as Hlast.
  { apply (Hnan (S (length rs))); [lia | done]. }
  apply loop_body_position in Hb0. rewrite Hprev in Hb0.
  apply loop_body_cases in Hb
    as [(Hp & _ & _) | [(_ & _ & ep & _ & _ & ->) | (_ & _ & Hc)]].
  - by rewrite Hb0 in Hp.
  - cbn [l_trades]. rewrite last_snoc.
    apply (iterrows_lookup self signals ic) in Hl
      as (_ & bar & Hbar & Hd & Hc).
    fold df in Hbar. rewrite Hrows in Hbar.
    exists (closing_trade st1 ep rlast), bar. split; [done|]. split.
    { rewrite last_lookup.
      by replace (pred (length (Backtester.data self)))
        with (S (length rs)) by lia. }
    unfold closing_trade. cbn. rewrite Hb0. by rewrite fmul_nan_r.
  - by rewrite Hb0, Hlast in Hc.
Qed.

Lemma short_signals_give_nan_trades_witness :
  ∃ r, Backtester.run (numlib := approx_numlib)
         (default_backtester [100; 110; 121; 110]%Z) [fz 0]
         Backtester.default_initial_capital = Ok r ∧
       length (trades r) = 2%nat ∧
       ∃ tr bar, last (trades r) = Some tr ∧
                 last (Backtester.data
                         (default_backtester [100; 110; 121; 110]%Z))
                 = Some bar ∧
                 pnl tr = NaN ∧ exit_date tr = date bar ∧
                 exit_price tr = close bar.
Proof.
  eexists. split; [vm_compute; reflexivity|]. split; [reflexivity|].
  apply (short_signals_give_nan_trades (numlib := approx_numlib)
           (default_backtester [100; 110; 121; 110]%Z) [fz 0]
           Backtester.default_initial_capital).
  - simpl. lia.
  - vm_compute; reflexivity.
Defined.
